(** * FLINT.Data_Preprocessing: the tile grid and the tiling pipelines

    A shallow embedding of [flintdata/flinttile/__init__.py] and of the
    per-tile processing of [flintdata/scripts/optimize_rasters.py] and
    [flintdata/scripts/optimize_rasterstack.py].

    Conventions of the embedding.
    - Python [int] is [Z].
    - Decimal degrees and resolutions (Python [float]) are exact rationals
      [Q]: comparisons, [floor], [int], [round], [min] and [max] are the
      mathematical ones, and a division by zero raises.  Rounding of
      binary64, infinities and NaN are outside the model; [Binary64] alone
      evaluates the tile anchor in IEEE arithmetic, on the grid.
    - A generator is the finite list of the values it yields, in order.
    - The raster engine (rasterio, GDAL) is a set of section variables; every
      call to it is recorded in a trace, and the files Python itself opens
      live in a finite map from path to contents. *)

From stdpp Require Import base option list gmap strings pretty sorting.
From Stdlib Require Import ZArith QArith Qround Qabs Qminmax SpecFloat Lia Lqa.

Open Scope Z_scope.

(** ** Python numerics on exact rationals *)

Module PyNum.

(** [a < b] on floats, as a boolean. *)
Definition Qltb (a b : Q) : bool := negb (Qle_bool b a).

(** [max(a, b)]: the first argument unless the second is strictly greater. *)
Definition py_max (a b : Q) : Q := if Qltb a b then b else a.

(** [min(a, b)]: the first argument unless the second is strictly smaller. *)
Definition py_min (a b : Q) : Q := if Qltb b a then b else a.

(** [int(math.floor(v))]. *)
Definition py_floor (v : Q) : Z := Qfloor v.

(** [math.ceil(v)]. *)
Definition py_ceil (v : Q) : Z := Qceiling v.

(** [int(v)] on a float: truncation towards zero. *)
Definition py_int (v : Q) : Z := if Qltb v 0 then Qceiling v else Qfloor v.

(** [round(v)]: nearest integer, ties to the even one. *)
Definition py_round (v : Q) : Z :=
  let f := Qfloor v in
  match Qcompare (v - inject_Z f) (1 # 2) with
  | Lt => f
  | Gt => f + 1
  | Eq => if Z.even f then f else f + 1
  end.

(** [round(v, ndigits)] for a float [v]. *)
Definition py_round_ndigits (v : Q) (ndigits : Z) : Q :=
  let scale := Qpower 10 ndigits in
  (inject_Z (py_round (v * scale)) / scale)%Q.

(** [range(start, stop)]. *)
Definition py_range (start stop : Z) : list Z := seqZ start (stop - start).

(** Number of values of [range(start, stop, step)] for [step <> 0]. *)
Definition range_len (start stop step : Z) : Z :=
  if 0 <? step then (stop - start + step - 1) / step
  else (start - stop - step - 1) / (- step).

(** [range(start, stop, step)]; [None] stands for
    [ValueError: range() arg 3 must not be zero]. *)
Definition py_range_step (start stop step : Z) : option (list Z) :=
  if step =? 0 then None
  else Some ((fun k => start + k * step) <$> seqZ 0 (range_len start stop step)).

(** ["{:03d}".format(n)] for [0 <= n]. *)
Definition format_03d (n : Z) : string :=
  let s := pretty n in
  String.concat EmptyString (replicate (3 - String.length s) "0"%string) +:+ s.

End PyNum.

(** ** flintdata.flinttile *)

Module Flinttile.
Import PyNum.

(** [Tile = namedtuple('Tile', ['x', 'y'])] *)
Record Tile : Type := MkTile { x : Z; y : Z }.

(** [LngLat = namedtuple('LngLat', ['lng', 'lat'])] *)
Record LngLat : Type := MkLngLat { lng : Q; lat : Q }.

(** [LngLatBbox = namedtuple('LngLatBbox', ['west', 'south', 'east', 'north'])] *)
Record LngLatBbox : Type :=
  MkLngLatBbox { west : Q; south : Q; east : Q; north : Q }.

#[global] Instance Tile_eq_dec : EqDecision Tile.
Proof. solve_decision. Defined.

(** [index], called with one tile *)
Definition index (tile : Tile) : Z :=
  let xtile := x tile in
  let ytile := y tile in
  ytile * 360 + xtile.

(** [ul], called with one tile *)
Definition ul (tile : Tile) : LngLat :=
  let xtile := x tile in
  let ytile := y tile in
  let lon_deg := (inject_Z xtile - 180)%Q in
  let lat_deg := (- (inject_Z ytile - 90))%Q in
  MkLngLat lon_deg lat_deg.

(** [bounds], called with one tile *)
Definition bounds (tile : Tile) : LngLatBbox :=
  let xtile := x tile in
  let ytile := y tile in
  let a := ul (MkTile xtile ytile) in
  let b := ul (MkTile (xtile + 1) (ytile + 1)) in
  MkLngLatBbox (lng a) (lat b) (lng b) (lat a).

(** [name], called with one tile *)
Definition name (tile : Tile) : string :=
  let b := bounds tile in
  (if Qltb (west b) 0 then "-" else EmptyString) +:+ format_03d (Z.abs (py_int (west b)))
  +:+ "_" +:+
  (if Qltb (north b) 0 then "-" else EmptyString) +:+ format_03d (Z.abs (py_int (north b))).

(** [truncate_lnglat(lng, lat)] *)
Definition truncate_lnglat (lng lat : Q) : Q * Q :=
  let lng := if Qltb 180 lng then 180%Q
             else if Qltb lng (-180) then (-180)%Q else lng in
  let lat := if Qltb 90 lat then 90%Q
             else if Qltb lat (-90) then (-90)%Q else lat in
  (lng, lat).

(** [tile(lng, lat)] *)
Definition tile (lng lat : Q) : Tile :=
  let xtile := py_floor (lng + 180) in
  let ytile := py_floor (lat - 90) * -1 in
  MkTile xtile ytile.

(** [tiles(west, south, east, north)] *)
Definition tiles (west south east north : Q) : list Tile :=
  let bboxes :=
    if Qltb east west then
      let bbox_west := ((-180)%Q, south, east, north) in
      let bbox_east := (west, south, 180%Q, north) in
      [bbox_west; bbox_east]
    else [(west, south, east, north)] in
  '(w, s, e, n) ← bboxes;
  (* Clamp bounding values. *)
  let w := py_max (-180) w in
  let s := py_max (-90) s in
  let e := py_min 180 e in
  let n := py_min 90 n in
  let ll := tile w s in
  let ur := tile e n in
  (* Clamp left x and top y at 0. *)
  let llx := if x ll <? 0 then 0 else x ll in
  let ury := if y ur <? 0 then 0 else y ur in
  i ← py_range llx (x ur);
  j ← py_range ury (y ll);
  [MkTile i j].

(** JSON-like values held by feature properties and raster profiles. *)
Inductive jvalue : Type :=
  | JStr (s : string)
  | JInt (n : Z)
  | JNum (q : Q)
  | JBool (b : bool)
  | JNull.

(** The [geometry] entry of a feature. *)
Record Geometry : Type :=
  MkGeometry { geom_type : string; coordinates : list (list (list Q)) }.

(** The dict returned by [feature]; [feat_id] is the tile index or the
    caller's feature id. *)
Record Feature : Type := MkFeature {
  feat_type : string;
  feat_bbox : list Q;
  feat_id : Z + string;
  feat_geometry : Geometry;
  feat_properties : gmap string jvalue }.

(** [str(tile)] for a [Tile]. *)
Definition str_tile (tile : Tile) : string :=
  "Tile(x=" +:+ pretty (x tile) +:+ ", y=" +:+ pretty (y tile) +:+ ")".

(** Truth value of an optional float ([None] and [0.0] are false). *)
Definition truthy_float (v : option Q) : bool :=
  match v with Some q => negb (Qeq_bool q 0) | None => false end.

(** [feature(tile, fid=None, props=None, buffer=None, precision=None)] *)
Definition feature (tile : Tile) (fid : option string)
    (props : option (gmap string jvalue)) (buffer : option Q)
    (precision : option Z) : Feature :=
  let b := bounds tile in
  let '(west, south, east, north) := (west b, south b, east b, north b) in
  let '(west, south, east, north) :=
    match buffer with
    | Some buf =>
        if truthy_float buffer
        then ((west - buf)%Q, (south - buf)%Q, (east + buf)%Q, (north + buf)%Q)
        else (west, south, east, north)
    | None => (west, south, east, north)
    end in
  let '(west, south, east, north) :=
    match precision with
    | Some p =>
        if negb (p =? 0) && (0 <=? p)
        then (py_round_ndigits west p, py_round_ndigits south p,
              py_round_ndigits east p, py_round_ndigits north p)
        else (west, south, east, north)
    | None => (west, south, east, north)
    end in
  let bbox :=
    [py_min west east; py_min south north;
     py_max west east; py_max south north] in
  let geom :=
    MkGeometry "Polygon"
      [[ [west; south];
         [west; north];
         [east; north];
         [east; south];
         [west; south] ]] in
  let xy := index tile in
  let title : gmap string jvalue :=
    {[ "title"%string := JStr ("XY tile " +:+ str_tile tile) ]} in
  let properties :=
    match props with
    | Some ps => ps ∪ title
    | None => title
    end in
  let id : Z + string :=
    match fid with
    | Some s => if String.eqb s EmptyString then inl xy else inr s
    | None => inl xy
    end in
  MkFeature "Feature" bbox id geom properties.

End Flinttile.

(** ** The affine package and [rasterio.transform.from_bounds] *)

Module Affine.

(** [Affine(a, b, c, d, e, f)]: the map [(col, row)] to
    [(a*col + b*row + c, d*col + e*row + f)]. *)
Record t : Type := Mk { a : Q; b : Q; c : Q; d : Q; e : Q; f : Q }.

(** [Affine.translation(xoff, yoff)] *)
Definition translation (xoff yoff : Q) : t := Mk 1 0 xoff 0 1 yoff.

(** [Affine.scale(sx, sy)] *)
Definition scale (sx sy : Q) : t := Mk sx 0 0 0 sy 0.

(** [m * n]: composition, [n] applied first. *)
Definition mul (m n : t) : t :=
  Mk (a m * a n + b m * d n) (a m * b n + b m * e n)
     (a m * c n + b m * f n + c m)
     (d m * a n + e m * d n) (d m * b n + e m * e n)
     (d m * c n + e m * f n + f m).

End Affine.

(** ** Effects shared by the two scripts *)

Module Engine.
Import PyNum Flinttile.

(** The exceptions the scripts raise or let through. *)
Inductive exn : Type :=
  | ValueError (msg : string)
  | ZeroDivisionError
  | BadParameter (msg : string).

(** [rasterio.enums.Resampling], the four methods the scripts offer. *)
Inductive Resampling : Type := average | nearest | bilinear | cubic.

(** [rasterio.windows.Window] *)
Record Window : Type :=
  MkWindow { col_off : Z; row_off : Z; win_width : Z; win_height : Z }.

(** What the scripts read of an opened source raster. *)
Record DatasetReader : Type := MkDatasetReader {
  ds_path : string;
  crs : option string;
  width : Z;
  height : Z;
  ds_bounds : Q * Q * Q * Q }.

(** A raster a warped view can be built on: a source, or a destination
    opened for writing in memory or in a temporary file of a folder. *)
Inductive Dataset : Type :=
  | Source (src : DatasetReader)
  | MemoryDst (profile : gmap string jvalue)
  | TempFileDst (basedir : string) (profile : gmap string jvalue).

(** The arguments of a [WarpedVRT]. *)
Record WarpedVRT : Type := MkWarpedVRT {
  vrt_src : Dataset;
  vrt_crs : string;
  vrt_resampling : Resampling;
  vrt_transform : Affine.t;
  vrt_width : Z;
  vrt_height : Z }.

(** Calls to the raster engine, in the order they are made. *)
Inductive event : Type :=
  | EvTransform (src_crs : option string) (dst_crs : string) (xs ys : list Q)
  | EvTransformBounds (src_crs : option string) (dst_crs : string)
      (bounds : Q * Q * Q * Q)
  | EvWarpedVRT (vrt : WarpedVRT)
  | EvOpenDst (dst : Dataset)
  | EvRead (vrt : WarpedVRT) (window : Window) (out_shape : option (Z * Z))
  | EvDatasetWrite (dst : Dataset) (window : Window)
  | EvCopy (dst : Dataset) (path : string) (compress : string).

(** The files written through Python's [open], and the engine trace. *)
Record state : Type :=
  MkState { fs : gmap string (list Byte.byte); trace : list event }.

(** A computation: the state it leaves and an exception or a value. *)
Definition M (A : Type) : Type := state -> state * (exn + A).

Definition ret {A} (v : A) : M A := fun st => (st, inr v).

Definition raise {A} (err : exn) : M A := fun st => (st, inl err).

Definition bind {A B} (m : M A) (k : A -> M B) : M B :=
  fun st =>
    match m st with
    | (st', inr v) => k v st'
    | (st', inl err) => (st', inl err)
    end.

Notation "'do' x <- m ; k" := (bind m (fun x => k))
  (at level 60, x name, m at next level, right associativity).
Notation "'do' ' pat <- m ; k" :=
  (bind m (fun v => match v with pat => k end))
  (at level 60, pat pattern, m at next level, right associativity).
Notation "'exec' m ; k" := (bind m (fun _ => k))
  (at level 60, m at next level, right associativity).

(** [for v in l: body v] *)
Fixpoint for_each {A} (l : list A) (body : A -> M unit) : M unit :=
  match l with
  | [] => ret tt
  | v :: l' => exec body v; for_each l' body
  end.

(** [for v in l: acc = body acc v], for a variable the body rebinds. *)
Fixpoint for_fold {A S} (l : list A) (acc : S) (body : S -> A -> M S) : M S :=
  match l with
  | [] => ret acc
  | v :: l' => do acc' <- body acc v; for_fold l' acc' body
  end.

(** Record a call to the engine. *)
Definition emit (ev : event) : M unit :=
  fun st => (MkState (fs st) (trace st ++ [ev]), inr tt).

(** [a / b] on floats. *)
Definition py_div (a b : Q) : M Q :=
  if Qeq_bool b 0 then raise ZeroDivisionError else ret (a / b)%Q.

(** [path.is_file()] *)
Definition is_file (path : string) : M bool :=
  fun st => (st, inr (bool_decide (is_Some (fs st !! path)))).

(** [open(path, "wb")]: the file is created, or truncated. *)
Definition open_wb (path : string) : M unit :=
  fun st => (MkState (<[path := []]> (fs st)) (trace st), inr tt).

(** [file.write(data)] on a file opened by [open_wb]. *)
Definition file_write (path : string) (data : list Byte.byte) : M unit :=
  fun st =>
    (MkState (<[path := default [] (fs st !! path) ++ data]> (fs st)) (trace st),
     inr tt).

(** [transform.from_bounds(west, south, east, north, width, height)] *)
Definition from_bounds (west south east north : Q) (width height : Z)
    : M Affine.t :=
  do sx <- py_div (east - west) (inject_Z width);
  do sy <- py_div (south - north) (inject_Z height);
  ret (Affine.mul (Affine.translation west north) (Affine.scale sx sy)).

(** [WarpedVRT(src, crs=, resampling=, transform=, width=, height=)] *)
Definition open_vrt (src : Dataset) (crs : string) (resampling : Resampling)
    (transform : Affine.t) (width height : Z) : M WarpedVRT :=
  let vrt := MkWarpedVRT src crs resampling transform width height in
  exec emit (EvWarpedVRT vrt); ret vrt.

(** [a / b] for paths. *)
Definition path_join (a b : string) : string := a +:+ "/" +:+ b.

(** [_TARGET_CRS] *)
Definition _TARGET_CRS : string := "epsg:4326".

(** [IN_MEMORY_THRESHOLD] *)
Definition IN_MEMORY_THRESHOLD : Z := 16000 * 16000.

(** [FLINT_TILE_PROFILE] *)
Definition FLINT_TILE_PROFILE : gmap string jvalue :=
  {[ "count"%string := JInt 1;
     "driver"%string := JStr "GTiff";
     "interleave"%string := JStr "pixel";
     "tiled"%string := JBool true;
     "blockxsize"%string := JInt 400;
     "blockysize"%string := JInt 400;
     "width"%string := JInt 4000;
     "height"%string := JInt 4000;
     "BIGTIFF"%string := JStr "IF_SAFER" ]}.

End Engine.

#[global] Instance Q_inhabited : Inhabited Q := populate 0%Q.

(** ** scripts/optimize_rasters.py

    The embedding starts where the sources are open: the flattening of the
    glob patterns, the check that every input is a file, the choice of the
    codec for ["auto"] and the progress bars are left out. *)

Module OptimizeRasters.
Import PyNum Flinttile Engine.

Section Script.

Context {pixel : Type}.

(** The raw bytes of one sample. *)
Variable pixel_bytes : pixel -> list Byte.byte.
(** [warp.transform(src_crs, dst_crs, xs, ys)] *)
Variable warp_transform :
  option string -> string -> list Q -> list Q -> list Q * list Q.
(** [warp.transform_bounds(src_crs, dst_crs, *bounds)] *)
Variable warp_transform_bounds :
  option string -> string -> Q * Q * Q * Q -> Q * Q * Q * Q.
(** [vrt.profile] *)
Variable vrt_profile : WarpedVRT -> gmap string jvalue.
(** [vrt.read(window=, indexes=[1])]: the rows of band 1. *)
Variable vrt_read : WarpedVRT -> Window -> option (Z * Z) -> list (list pixel).
(** [dst.block_windows(1)], in the engine's order. *)
Variable block_windows : Dataset -> list Window.
(** The serialized sidecar of [_writeLayerInfo]. *)
Variable layer_info : DatasetReader -> string -> option Z -> list Byte.byte.

(** [bytes(block_data)]: the samples in row-major order. *)
Definition array_bytes (block_data : list (list pixel)) : list Byte.byte :=
  concat (pixel_bytes <$> concat block_data).

(** [_calculate_default_transform(src_crs, _TARGET_CRS, width, height, *bounds)] *)
Definition _calculate_default_transform (src_crs : option string)
    (_TARGET_CRS : string) (width height : Z) (bounds : list Q)
    : M (Affine.t * Z * Z) :=
  if bool_decide (length bounds ≠ 4%nat) then
    raise (ValueError "Bounds must contain 4 values")
  else
    (* transform image corners to target CRS *)
    let xs := [bounds !!! 0%nat; bounds !!! 0%nat; bounds !!! 2%nat; bounds !!! 2%nat] in
    let ys := [bounds !!! 1%nat; bounds !!! 3%nat; bounds !!! 1%nat; bounds !!! 3%nat] in
    exec emit (EvTransform src_crs _TARGET_CRS xs ys);
    let '(txs, tys) := warp_transform src_crs _TARGET_CRS xs ys in
    match zip txs tys with
    | [dst_corner_sw; dst_corner_nw; dst_corner_se; dst_corner_ne] =>
        (* determine inner bounding box of corners in target CRS *)
        let dst_corner_bounds :=
          (py_max dst_corner_sw.1 dst_corner_nw.1,
           py_max dst_corner_sw.2 dst_corner_se.2,
           py_min dst_corner_se.1 dst_corner_ne.1,
           py_min dst_corner_nw.2 dst_corner_ne.2) in
        (* compute target resolution *)
        let '(cw, cs, ce, cn) := dst_corner_bounds in
        do dst_corner_transform <- from_bounds cw cs ce cn width height;
        let target_res :=
          (Affine.a dst_corner_transform, Affine.e dst_corner_transform) in
        (* get transform spanning whole bounds (not just projected corners) *)
        let box :=
          (bounds !!! 0%nat, bounds !!! 1%nat, bounds !!! 2%nat, bounds !!! 3%nat) in
        exec emit (EvTransformBounds src_crs _TARGET_CRS box);
        let '(db0, db1, db2, db3) :=
          warp_transform_bounds src_crs _TARGET_CRS box in
        do qw <- py_div (db2 - db0) target_res.1;
        let dst_width := py_ceil qw in
        do qh <- py_div (db1 - db3) target_res.2;
        let dst_height := py_ceil qh in
        do dst_transform <- from_bounds db0 db1 db2 db3 dst_width dst_height;
        ret (dst_transform, dst_width, dst_height)
    | _ => raise (ValueError "wrong number of values to unpack")
    end.

(** [_writeLayerInfo(src, layerName, outFld, nLayers=None)] *)
Definition _writeLayerInfo (src : DatasetReader) (layerName outFld : string)
    (nLayers : option Z) : M unit :=
  let path := path_join outFld (layerName +:+ ".json") in
  exec open_wb path;
  file_write path (layer_info src layerName nLayers).

(** The body of [for tile in flintdata.flinttile.tiles(...)]; the variable
    [in_memory] comes in with its current value and goes out with the value
    the body leaves in it. *)
Definition optimize_rasters_tile (src : DatasetReader)
    (raster_name raster_folder : string) (overwrite : bool)
    (rs_method : Resampling) (compression : string) (dst_res : Q * Q)
    (in_memory : option bool) (tile : Tile) : M (option bool) :=
  let bounds := Flinttile.bounds tile in
  (* pad tile bounds to prevent interpolation artefacts *)
  let num_pad_pixels := 2 in
  (* compute tile VRT shape and transform *)
  do qw <- py_div (east bounds - west bounds) dst_res.1;
  let dst_width := Z.max 1 (py_round qw) in
  do qh <- py_div (north bounds - south bounds) dst_res.2;
  let dst_height := Z.max 1 (py_round qh) in
  do fb <- from_bounds (west bounds) (south bounds) (east bounds)
             (north bounds) dst_width dst_height;
  let vrt_transform :=
    Affine.mul fb (Affine.translation (- inject_Z num_pad_pixels)
                                      (- inject_Z num_pad_pixels)) in
  let vrt_height := dst_height + 2 * num_pad_pixels in
  let vrt_width := dst_width + 2 * num_pad_pixels in
  (* construct VRT *)
  do vrt <- open_vrt (Source src) _TARGET_CRS rs_method vrt_transform
              vrt_width vrt_height;
  let profile := FLINT_TILE_PROFILE ∪ vrt_profile vrt in
  let in_memory :=
    Some (Engine.vrt_width vrt * Engine.vrt_height vrt <? IN_MEMORY_THRESHOLD) in
  let dst :=
    if default false in_memory then MemoryDst profile
    else TempFileDst raster_folder profile in
  exec emit (EvOpenDst dst);
  do fb' <- from_bounds (west bounds) (south bounds) (east bounds)
              (north bounds) dst_width dst_height;
  let dst_transform :=
    Affine.mul fb' (Affine.translation (inject_Z num_pad_pixels)
                                       (inject_Z num_pad_pixels)) in
  do vrt_dst <- open_vrt dst _TARGET_CRS rs_method dst_transform
                  vrt_width vrt_height;
  let blockedFileName := raster_name +:+ "_" +:+ Flinttile.name tile +:+ ".blk" in
  let output_file := path_join raster_folder blockedFileName in
  do present <- is_file output_file;
  if negb overwrite && present then
    raise (BadParameter
      ("Output file " +:+ output_file +:+ " exists (use --overwrite to ignore)"))
  else
    exec open_wb output_file;
    (* iterate over blocks *)
    exec for_each (block_windows dst) (fun w =>
      let out_window :=
        MkWindow (col_off w + num_pad_pixels) (row_off w + num_pad_pixels)
                 (win_width w) (win_height w) in
      exec emit (EvRead vrt out_window None);
      let block_data := vrt_read vrt out_window None in
      exec emit (EvDatasetWrite dst w);
      let data := array_bytes block_data in
      file_write output_file data);
    let output_tif :=
      path_join raster_folder
        (raster_name +:+ "_" +:+ pretty (Flinttile.index tile) +:+ ".tif") in
    exec emit (EvCopy dst output_tif compression);
    ret in_memory.

(** The body of [for input_file in raster_files_flat], from the opened
    source on. *)
Definition optimize_rasters_file (output_folder : string) (overwrite : bool)
    (rs_method : Resampling) (compression : string)
    (in_memory : option bool) (input_file : string * DatasetReader)
    : M (option bool) :=
  let '(raster_name, src) := input_file in
  let raster_folder := path_join output_folder raster_name in
  exec _writeLayerInfo src raster_name raster_folder None;
  (* compute suggested resolution and bounds in target CRS *)
  let '(west, south, east, north) := ds_bounds src in
  do r <- _calculate_default_transform (crs src) _TARGET_CRS (width src)
            (height src) [west; south; east; north];
  let dst_transform := r.1.1 in
  let dst_res := (Qabs (Affine.a dst_transform), Qabs (Affine.e dst_transform)) in
  for_fold (Flinttile.tiles west south east north) in_memory
    (optimize_rasters_tile src raster_name raster_folder overwrite rs_method
       compression dst_res).

(** [optimize_rasters], on the named and opened sources. *)
Definition optimize_rasters (raster_files : list (string * DatasetReader))
    (output_folder : string) (overwrite : bool) (rs_method : Resampling)
    (in_memory : option bool) (compression : string) : M unit :=
  exec for_fold raster_files in_memory (fun in_memory input_file =>
    optimize_rasters_file output_folder overwrite rs_method compression
      in_memory input_file);
  ret tt.

End Script.
End OptimizeRasters.

(** ** scripts/optimize_rasterstack.py

    As for the single rasters, the embedding starts at the opened sources,
    in the order of their keys. *)

Module OptimizeRasterstack.
Import PyNum Flinttile Engine.

Section Script.

Context {pixel : Type}.

(** The raw bytes of one sample. *)
Variable pixel_bytes : pixel -> list Byte.byte.
(** [warp.transform(src_crs, dst_crs, xs, ys)] *)
Variable warp_transform :
  option string -> string -> list Q -> list Q -> list Q * list Q.
(** [warp.transform_bounds(src_crs, dst_crs, *bounds)] *)
Variable warp_transform_bounds :
  option string -> string -> Q * Q * Q * Q -> Q * Q * Q * Q.
(** [vrt.read(1, resampling=, window=, out_shape=)]: a 2-D array, as the
    list of its rows along the first axis. *)
Variable vrt_read : WarpedVRT -> Window -> option (Z * Z) -> list (list pixel).
(** The serialized sidecar of [_writeLayerInfo]. *)
Variable layer_info : DatasetReader -> string -> option Z -> list Byte.byte.

(** [_calculate_default_transform(src_crs, _TARGET_CRS, width, height, *bounds)] *)
Definition _calculate_default_transform (src_crs : option string)
    (_TARGET_CRS : string) (width height : Z) (bounds : list Q)
    : M (Affine.t * Z * Z) :=
  if bool_decide (length bounds ≠ 4%nat) then
    raise (ValueError "Bounds must contain 4 values")
  else
    let src_crs :=
      match src_crs with None => Some _TARGET_CRS | Some _ => src_crs end in
    (* transform image corners to target CRS *)
    let xs := [bounds !!! 0%nat; bounds !!! 0%nat; bounds !!! 2%nat; bounds !!! 2%nat] in
    let ys := [bounds !!! 1%nat; bounds !!! 3%nat; bounds !!! 1%nat; bounds !!! 3%nat] in
    exec emit (EvTransform src_crs _TARGET_CRS xs ys);
    let '(txs, tys) := warp_transform src_crs _TARGET_CRS xs ys in
    match zip txs tys with
    | [dst_corner_sw; dst_corner_nw; dst_corner_se; dst_corner_ne] =>
        (* determine inner bounding box of corners in target CRS *)
        let dst_corner_bounds :=
          (py_max dst_corner_sw.1 dst_corner_nw.1,
           py_max dst_corner_sw.2 dst_corner_se.2,
           py_min dst_corner_se.1 dst_corner_ne.1,
           py_min dst_corner_nw.2 dst_corner_ne.2) in
        (* compute target resolution *)
        let '(cw, cs, ce, cn) := dst_corner_bounds in
        do dst_corner_transform <- from_bounds cw cs ce cn width height;
        let target_res :=
          (Affine.a dst_corner_transform, Affine.e dst_corner_transform) in
        (* get transform spanning whole bounds (not just projected corners) *)
        let box :=
          (bounds !!! 0%nat, bounds !!! 1%nat, bounds !!! 2%nat, bounds !!! 3%nat) in
        exec emit (EvTransformBounds src_crs _TARGET_CRS box);
        let '(db0, db1, db2, db3) :=
          warp_transform_bounds src_crs _TARGET_CRS box in
        do qw <- py_div (db2 - db0) target_res.1;
        let dst_width := py_ceil qw in
        do qh <- py_div (db1 - db3) target_res.2;
        let dst_height := py_ceil qh in
        do dst_transform <- from_bounds db0 db1 db2 db3 dst_width dst_height;
        ret (dst_transform, dst_width, dst_height)
    | _ => raise (ValueError "wrong number of values to unpack")
    end.

(** [_writeLayerInfo(src, layerName, outFld, nLayers=None)] *)
Definition _writeLayerInfo (src : DatasetReader) (layerName outFld : string)
    (nLayers : option Z) : M unit :=
  let path := path_join outFld (layerName +:+ ".json") in
  exec open_wb path;
  file_write path (layer_info src layerName nLayers).

(** Exchange of the two outer axes of a list of equally long lists. *)
Fixpoint transpose {A} (ls : list (list A)) : list (list A) :=
  match ls with
  | [] => []
  | [l] => (fun v => [v]) <$> l
  | l :: ls' => zip_with cons l (transpose ls')
  end.

(** [np.stack(tilelayers, -1)] for 2-D arrays of one shape: entry
    [i, j, k] is entry [i, j] of layer [k]. *)
Definition np_stack (tilelayers : list (list (list pixel)))
    : list (list (list pixel)) :=
  transpose <$> transpose tilelayers.

(** [l[lo:hi]] for [0 <= lo]. *)
Definition py_slice {A} (l : list A) (lo hi : Z) : list A :=
  take (Z.to_nat (hi - lo)) (drop (Z.to_nat lo) l).

(** [bytes(block)] for a 3-D array: the samples in C order. *)
Definition array_bytes (block : list (list (list pixel))) : list Byte.byte :=
  concat (pixel_bytes <$> concat (concat block)).

(** [range(0, stop, step)] in the monad. *)
Definition range_m (stop step : Z) : M (list Z) :=
  match py_range_step 0 stop step with
  | Some l => ret l
  | None => raise (ValueError "range() arg 3 must not be zero")
  end.

(** [for layer in rasters]: one warped view and one read per layer. *)
Fixpoint read_layers (rasters : list DatasetReader) (rs_method : Resampling)
    (vrt_transform : Affine.t) (vrt_width vrt_height : Z) (out_window : Window)
    (out_shape : Z * Z) : M (list (list (list pixel))) :=
  match rasters with
  | [] => ret []
  | layer :: rasters' =>
      (* construct VRT *)
      do vrt <- open_vrt (Source layer) _TARGET_CRS rs_method vrt_transform
                  vrt_width vrt_height;
      exec emit (EvRead vrt out_window (Some out_shape));
      let tile_data := vrt_read vrt out_window (Some out_shape) in
      do tilelayers <- read_layers rasters' rs_method vrt_transform vrt_width
                         vrt_height out_window out_shape;
      ret (tile_data :: tilelayers)
  end.

(** The body of the second [for tile in flintdata.flinttile.tiles(...)]. *)
Definition optimize_rasterstack_tile (rasters : list DatasetReader)
    (raster_name raster_folder : string) (overwrite : bool)
    (rs_method : Resampling) (dst_res : Q * Q) (tile : Tile) : M unit :=
  let tile_bounds := Flinttile.bounds tile in
  (* pad tile bounds to prevent interpolation artefacts *)
  let num_pad_pixels := 2 in
  (* compute tile VRT shape and transform *)
  do qw <- py_div (east tile_bounds - west tile_bounds) dst_res.1;
  let dst_width := Z.max 1 (py_round qw) in
  do qh <- py_div (north tile_bounds - south tile_bounds) dst_res.2;
  let dst_height := Z.max 1 (py_round qh) in
  do bw <- py_div 0.1 dst_res.1;
  let block_width := py_int bw in
  do bh <- py_div 0.1 (Qabs dst_res.2);
  let block_height := py_int bh in
  do fb <- from_bounds (west tile_bounds) (south tile_bounds)
             (east tile_bounds) (north tile_bounds) dst_width dst_height;
  let vrt_transform :=
    Affine.mul fb (Affine.translation (- inject_Z num_pad_pixels)
                                      (- inject_Z num_pad_pixels)) in
  let vrt_height := dst_height + 2 * num_pad_pixels in
  let vrt_width := dst_width + 2 * num_pad_pixels in
  (* remove padding in output *)
  let out_window := MkWindow num_pad_pixels num_pad_pixels dst_width dst_height in
  do tilelayers <- read_layers rasters rs_method vrt_transform vrt_width
                     vrt_height out_window (dst_width, dst_height);
  let blockedFileName := raster_name +:+ "_" +:+ Flinttile.name tile +:+ ".blk" in
  let output_file := path_join raster_folder blockedFileName in
  do present <- is_file output_file;
  if negb overwrite && present then
    raise (BadParameter
      ("Output file " +:+ output_file +:+ " exists (use --overwrite to ignore)"))
  else
    exec open_wb output_file;
    let tile_stack := np_stack tilelayers in
    do rows <- range_m dst_height block_height;
    for_each rows (fun row =>
      do cols <- range_m dst_width block_width;
      for_each cols (fun col =>
        let block :=
          (fun plane => py_slice plane row (row + block_height))
            <$> py_slice tile_stack col (col + block_width) in
        let b := array_bytes block in
        file_write output_file b)).

(** [optimize_rasterstack], on the opened sources of the stack. *)
Definition optimize_rasterstack (raster_files_flat : list DatasetReader)
    (raster_name output_folder : string) (overwrite : bool)
    (rs_method : Resampling) : M unit :=
  match raster_files_flat with
  | [] => ret tt
  | raster :: _ =>
      let raster_folder := path_join output_folder raster_name in
      exec _writeLayerInfo raster raster_name raster_folder
             (Some (Z.of_nat (length raster_files_flat)));
      let '(west, south, east, north) := ds_bounds raster in
      (* compute suggested resolution and bounds in target CRS *)
      do r <- _calculate_default_transform (crs raster) _TARGET_CRS
                (width raster) (height raster) [west; south; east; north];
      let dst_transform := r.1.1 in
      let dst_res :=
        (Qabs (Affine.a dst_transform), Qabs (Affine.e dst_transform)) in
      exec for_each (Flinttile.tiles west south east north) (fun tile =>
        let bounds := Flinttile.bounds tile in
        do qw <- py_div (Flinttile.east bounds - Flinttile.west bounds) dst_res.1;
        do qh <- py_div (Flinttile.north bounds - Flinttile.south bounds) dst_res.2;
        ret tt);
      for_each (Flinttile.tiles west south east north)
        (optimize_rasterstack_tile raster_files_flat raster_name raster_folder
           overwrite rs_method dst_res)
  end.

End Script.
End OptimizeRasterstack.

(** ** The tile anchor in binary64

    [ul] and [tile] once more, with the arithmetic of Python floats:
    IEEE 754 binary64, round to nearest even, as [SpecFloat] defines it.
    Used to check the round trip on the grid against the exact model. *)

Module Binary64.
Import Flinttile.

Definition prec : Z := 53.
Definition emax : Z := 1024.

(** [float(n)] for an integer [n]. *)
Definition of_int (n : Z) : spec_float := binary_normalize prec emax n 0 false.

(** [math.floor(v)]; [None] for an infinity or a NaN, where Python raises. *)
Definition floor (v : spec_float) : option Z :=
  match v with
  | S754_zero _ => Some 0
  | S754_finite s m e =>
      let n := if s then Z.neg m else Z.pos m in
      Some (if 0 <=? e then n * 2 ^ e else n / 2 ^ (- e))
  | S754_infinity _ | S754_nan => None
  end.

(** [ul], called with one tile. *)
Definition ul (tile : Tile) : spec_float * spec_float :=
  let xtile := x tile in
  let ytile := y tile in
  let lon_deg := SFsub prec emax (of_int xtile) (of_int 180) in
  let lat_deg := SFopp (SFsub prec emax (of_int ytile) (of_int 90)) in
  (lon_deg, lat_deg).

(** [tile(lng, lat)] *)
Definition tile (lng lat : spec_float) : option Tile :=
  xtile ← floor (SFadd prec emax lng (of_int 180));
  ytile ← (fun n => n * -1) <$> floor (SFsub prec emax lat (of_int 90));
  Some (MkTile xtile ytile).

(** The column found again from the longitude of column [xtile]. *)
Definition column_roundtrip (xtile : Z) : option Z :=
  floor (SFadd prec emax (ul (MkTile xtile 0)).1 (of_int 180)).

(** The row found again from the latitude of row [ytile]. *)
Definition row_roundtrip (ytile : Z) : option Z :=
  (fun n => n * -1) <$> floor (SFsub prec emax (ul (MkTile 0 ytile)).2 (of_int 90)).

End Binary64.

(** ** The tile enumeration as section 4.1 words it

    Written from the sentences of the specification, to be compared with
    [Flinttile.tiles]. *)

Module TileGridSpec.
Import Flinttile.

(** [locate(lng, lat)]: x = floor(lng + 180), y = -floor(lat - 90). *)
Definition locate (lng lat : Q) : Tile :=
  MkTile (Qfloor (lng + 180)) (- Qfloor (lat - 90)).

(** The tiles [(i, j0), (i, j0 + 1), ...], [n] of them. *)
Fixpoint column (i j0 : Z) (n : nat) : list Tile :=
  match n with
  | O => []
  | S n' => MkTile i j0 :: column i (j0 + 1) n'
  end.

(** [m] consecutive columns of [n] tiles, from column [i0] on. *)
Fixpoint block (i0 : Z) (m : nat) (j0 : Z) (n : nat) : list Tile :=
  match m with
  | O => []
  | S m' => column i0 j0 n ++ block (i0 + 1) m' j0 n
  end.

(** First column, column past the last, first row and row past the last of
    a sub-box: the box is clamped, [ll] and [ur] are located, and negative
    [ll.x] and [ur.y] are clamped to 0. *)
Definition sub_box_range (w s e n : Q) : Z * Z * Z * Z :=
  let ll := locate (Qmax (-180) w) (Qmax (-90) s) in
  let ur := locate (Qmin 180 e) (Qmin 90 n) in
  (Z.max 0 (x ll), x ur, Z.max 0 (y ur), y ll).

(** Every Tile(i, j) for i in [clamped ll.x, ur.x) and j in
    [clamped ur.y, ll.y), the rows of a column before the next column. *)
Definition sub_box_tiles (w s e n : Q) : list Tile :=
  let '(x0, x1, y0, y1) := sub_box_range w s e n in
  block x0 (Z.to_nat (x1 - x0)) y0 (Z.to_nat (y1 - y0)).

(** A longitude and a latitude clamped into [-180, 180] and [-90, 90], as
    [truncate_lnglat] clamps them. *)
Definition clamp_lng (v : Q) : Q := (truncate_lnglat v 0).1.
Definition clamp_lat (v : Q) : Q := (truncate_lnglat 0 v).2.

(** The four components of [sub_box_range], each from its own edge. *)
Definition first_column (w : Q) : Z := Z.max 0 (Qfloor (Qmax (-180) w + 180)).
Definition end_column (e : Q) : Z := Qfloor (Qmin 180 e + 180).
Definition first_row (n : Q) : Z := Z.max 0 (- Qfloor (Qmin 90 n - 90)).
Definition end_row (s : Q) : Z := - Qfloor (Qmax (-90) s - 90).

(** The order of the nested iteration: by column, then by row. *)
Definition tile_before (t1 t2 : Tile) : Prop :=
  x t1 < x t2 \/ (x t1 = x t2 /\ y t1 < y t2).

(** The full-globe grid of 360 columns and 180 rows. *)
Definition in_grid (t : Tile) : Prop :=
  0 <= x t < 360 /\ 0 <= y t < 180.

End TileGridSpec.

(** ** Vocabulary for the statements about the two pipelines *)

Module PipelineSpec.
Import Flinttile Engine.

(** The raw block file of a tile: [<folder>/<name>_<tileName>.blk]. *)
Definition blk_path (raster_folder raster_name : string) (tile : Tile)
    : string :=
  path_join raster_folder
    (raster_name +:+ "_" +:+ Flinttile.name tile +:+ ".blk").

(** An engine call that reads warped pixels. *)
Definition is_read (ev : event) : bool :=
  match ev with EvRead _ _ _ => true | _ => false end.

(** An engine call that touches pixels: a read of warped data, a write to
    the destination raster, or the copy to the final raster. *)
Definition is_pixel_work (ev : event) : bool :=
  match ev with
  | EvRead _ _ _ | EvDatasetWrite _ _ | EvCopy _ _ _ => true
  | _ => false
  end.

(** The destination of a tile is a [MemoryFile]. *)
Definition opens_in_memory (ev : event) : bool :=
  match ev with EvOpenDst (MemoryDst _) => true | _ => false end.

(** The destination of a tile is a temporary file on disk. *)
Definition opens_on_disk (ev : event) : bool :=
  match ev with EvOpenDst (TempFileDst _ _) => true | _ => false end.

(** The engine calls of the stack's loop over the layers: a view and a read
    per layer. *)
Definition layer_events (rasters : list DatasetReader) (rs_method : Resampling)
    (transform : Affine.t) (width height : Z) (window : Window)
    (out_shape : Z * Z) : list event :=
  layer ← rasters;
  let vrt :=
    MkWarpedVRT (Source layer) _TARGET_CRS rs_method transform width height in
  [EvWarpedVRT vrt; EvRead vrt window (Some out_shape)].

(** A computation that only adds engine calls at the end of the trace. *)
Definition appends {A} (m : M A) : Prop :=
  forall st, exists rest, trace (m st).1 = trace st ++ rest.

(** The message of the error of a [range] with step 0. *)
Definition range_step_zero : exn :=
  ValueError "range() arg 3 must not be zero".

End PipelineSpec.

(** ** A small engine for the examples

    Coordinates pass through unchanged (source and target CRS agree), every
    sample is the byte 7, and a destination has a single block. *)

Module Sample.
Import Flinttile Engine.

Definition warp_transform (_ : option string) (_ : string)
    (xs ys : list Q) : list Q * list Q := (xs, ys).

Definition warp_transform_bounds (_ : option string) (_ : string)
    (box : Q * Q * Q * Q) : Q * Q * Q * Q := box.

Definition pixel_bytes (_ : Z) : list Byte.byte := [Byte.x07].

Definition vrt_profile (_ : WarpedVRT) : gmap string jvalue :=
  {[ "dtype"%string := JStr "uint8" ]}.

Definition vrt_read (_ : WarpedVRT) (window : Window)
    (out_shape : option (Z * Z)) : list (list Z) :=
  let '(rows, cols) :=
    default (win_height window, win_width window) out_shape in
  replicate (Z.to_nat rows) (replicate (Z.to_nat cols) 7).

Definition block_windows (_ : Dataset) : list Window := [MkWindow 0 0 4 4].

Definition layer_info (_ : DatasetReader) (_ : string) (_ : option Z)
    : list Byte.byte := [Byte.x7b; Byte.x7d].

(** A raster of 8 x 8 pixels over two degrees: 0.25 degrees per pixel. *)
Definition coarse : DatasetReader :=
  MkDatasetReader "coarse.tif" (Some "epsg:4326"%string) 8 8 (0, 0, 2, 2)%Q.

(** A raster of 20 x 20 pixels over one degree: 0.05 degrees per pixel. *)
Definition fine : DatasetReader :=
  MkDatasetReader "fine.tif" (Some "epsg:4326"%string) 20 20 (0, 0, 1, 1)%Q.

(** No file yet, no engine call yet. *)
Definition fresh : state := MkState ∅ [].

(** The block file of tile (180, 89) of the stack ["s"] is already there. *)
Definition with_block_file : state :=
  MkState {[ "out/s/s_000_001.blk"%string := [Byte.x01] ]} [].

End Sample.

(** ** Further vocabulary for the tile grid *)

Module TileGridMore.
Import PyNum Flinttile.

(** The tile a tile index stands for on the full-globe grid. *)
Definition tile_of_index (i : Z) : Tile := MkTile (i mod 360) (i / 360).

(** The longitude half and the latitude half of a tile name. *)
Definition lon_label (xtile : Z) : string :=
  let west := (inject_Z xtile - 180)%Q in
  (if Qltb west 0 then "-" else EmptyString)
  +:+ format_03d (Z.abs (py_int west)).

Definition lat_label (ytile : Z) : string :=
  let north := (- (inject_Z ytile - 90))%Q in
  (if Qltb north 0 then "-" else EmptyString)
  +:+ format_03d (Z.abs (py_int north)).

(** A string without the separator of the two halves. *)
Fixpoint no_underscore (s : string) : bool :=
  match s with
  | EmptyString => true
  | String c s' => negb (String.eqb (String c EmptyString) "_") && no_underscore s'
  end.

(** A box lies in another one. *)
Definition bbox_within (b : LngLatBbox) (w s e n : Q) : Prop :=
  (w <= west b)%Q /\ (east b <= e)%Q /\ (s <= south b)%Q /\ (north b <= n)%Q.

End TileGridMore.

(** ** Further vocabulary for the pipelines *)

Module PipelineMore.
Import PyNum Flinttile Engine.

(** [transform * (col, row)]: the position of a pixel corner. *)
Definition apply (m : Affine.t) (col row : Q) : Q * Q :=
  (Affine.a m * col + Affine.b m * row + Affine.c m,
   Affine.d m * col + Affine.e m * row + Affine.f m)%Q.

(** The transform [from_bounds] returns when it returns. *)
Definition from_bounds_value (west south east north : Q) (width height : Z)
    : Affine.t :=
  Affine.mul (Affine.translation west north)
    (Affine.scale ((east - west) / inject_Z width)
                  ((south - north) / inject_Z height)).

(** The transform of the padded view of a tile of [width] x [height]
    pixels. *)
Definition padded_transform (tile : Tile) (width height : Z) : Affine.t :=
  let b := bounds tile in
  Affine.mul (from_bounds_value (west b) (south b) (east b) (north b) width height)
    (Affine.translation (- inject_Z 2) (- inject_Z 2)).

(** The transform given to the view on the destination of a tile. *)
Definition unpadded_transform (tile : Tile) (width height : Z) : Affine.t :=
  let b := bounds tile in
  Affine.mul (from_bounds_value (west b) (south b) (east b) (north b) width height)
    (Affine.translation (inject_Z 2) (inject_Z 2)).

(** The width, in pixels, of a tile at a resolution; the height likewise. *)
Definition tile_pixels (res : Q) : Z := Z.max 1 (py_round (1 / res)).

(** A computation that leaves the file at [path] as it is. *)
Definition preserves {A} (path : string) (m : M A) : Prop :=
  forall st, fs (m st).1 !! path = fs st !! path.

(** The sidecar of a raster: [<folder>/<name>.json]. *)
Definition json_path (raster_folder raster_name : string) : string :=
  path_join raster_folder (raster_name +:+ ".json").

(** The window of the padded view read for a block window. *)
Definition shifted (w : Window) : Window :=
  MkWindow (col_off w + 2) (row_off w + 2) (win_width w) (win_height w).

(** The run of [m] from [st] does not end in an output conflict. *)
Definition no_conflict {A} (m : M A) (st : state) : Prop :=
  forall msg, (m st).2 <> inl (BadParameter msg).

(** [m] neither touches a file nor raises an output conflict. *)
Definition quiet {A} (m : M A) : Prop :=
  forall st, fs (m st).1 = fs st /\ no_conflict m st.

(** From files that satisfy [P], [m] raises no output conflict. *)
Definition calm {A} (P : gmap string (list Byte.byte) -> Prop) (m : M A)
    : Prop :=
  forall st, P (fs st) -> no_conflict m st.

End PipelineMore.

(** ** Vocabulary for the block file of a stack *)

Module StackSpec.
Import PyNum Flinttile Engine.

(** The rows [row .. row + block_height) of every plane of a stack. *)
Definition band {A} (tile_stack : list (list (list A))) (row block_height : Z)
    : list (list (list A)) :=
  (fun plane => OptimizeRasterstack.py_slice plane row (row + block_height))
    <$> tile_stack.

(** A 2-D array of [n] rows of [m] entries. *)
Definition shape2 {A} (arr : list (list A)) (n m : nat) : Prop :=
  length arr = n /\ Forall (fun r => length r = m) arr.

(** A 3-D array of [n] planes of [m] cells of [k] samples. *)
Definition shape3 {A} (arr : list (list (list A))) (n m k : nat) : Prop :=
  length arr = n /\ Forall (fun plane => shape2 plane m k) arr.

(** The arrays the stack pipeline reads for a tile of [width] x [height]
    pixels, one per layer. *)
Definition layers_read {pixel}
    (vrt_read : WarpedVRT -> Window -> option (Z * Z) -> list (list pixel))
    (rasters : list DatasetReader) (rs_method : Resampling)
    (tile : Tile) (width height : Z) : list (list (list pixel)) :=
  (fun layer =>
     vrt_read
       (MkWarpedVRT (Source layer) _TARGET_CRS rs_method
          (PipelineMore.padded_transform tile width height)
          (width + 4) (height + 4))
       (MkWindow 2 2 width height) (Some (width, height))) <$> rasters.

End StackSpec.

(** * Properties *)

(** ** Numerics *)

Section NumericFacts.
Import PyNum.

Lemma Qltb_true (a b : Q) : Qltb a b = true <-> (a < b)%Q.
Proof.
  unfold Qltb. rewrite negb_true_iff, <- not_true_iff_false, Qle_bool_iff.
  split; [apply Qnot_le_lt | apply Qlt_not_le].
Qed.

Lemma Qltb_false (a b : Q) : Qltb a b = false <-> (b <= a)%Q.
Proof. unfold Qltb. rewrite negb_false_iff. apply Qle_bool_iff. Qed.

Lemma py_max_Qmax (a b : Q) : py_max a b = Qmax a b.
Proof.
  unfold py_max, Qltb, Qle_bool, Qmax, GenericMinMax.gmax, Qcompare.
  destruct (Z.leb_spec (Qnum b * QDen a) (Qnum a * QDen b));
    destruct (Z.compare_spec (Qnum a * QDen b) (Qnum b * QDen a));
    simpl; try reflexivity; lia.
Qed.

Lemma py_min_Qmin (a b : Q) : py_min a b = Qmin a b.
Proof.
  unfold py_min, Qltb, Qle_bool, Qmin, GenericMinMax.gmin, Qcompare.
  destruct (Z.leb_spec (Qnum a * QDen b) (Qnum b * QDen a));
    destruct (Z.compare_spec (Qnum a * QDen b) (Qnum b * QDen a));
    simpl; try reflexivity; lia.
Qed.

Lemma py_max_cases (a b : Q) :
  ((a < b)%Q /\ py_max a b = b) \/ ((b <= a)%Q /\ py_max a b = a).
Proof.
  unfold py_max. destruct (Qltb a b) eqn:E.
  - left. split; [by apply Qltb_true | done].
  - right. split; [by apply Qltb_false | done].
Qed.

Lemma py_min_cases (a b : Q) :
  ((b < a)%Q /\ py_min a b = b) \/ ((a <= b)%Q /\ py_min a b = a).
Proof.
  unfold py_min. destruct (Qltb b a) eqn:E.
  - left. split; [by apply Qltb_true | done].
  - right. split; [by apply Qltb_false | done].
Qed.

Lemma py_max_lower (a b : Q) : (a <= py_max a b)%Q.
Proof. destruct (py_max_cases a b) as [[? ->]|[? ->]]; lra. Qed.

Lemma py_min_upper (a b : Q) : (py_min a b <= a)%Q.
Proof. destruct (py_min_cases a b) as [[? ->]|[? ->]]; lra. Qed.

End NumericFacts.

Section TileGridFacts.
Import PyNum Flinttile TileGridSpec.

Lemma tile_locate (lng lat : Q) : tile lng lat = locate lng lat.
Proof. unfold tile, locate, py_floor. f_equal. lia. Qed.

Lemma column_bind (i j0 : Z) (n : nat) :
  (seqZ j0 (Z.of_nat n) ≫= λ j, [MkTile i j]) = column i j0 n.
Proof.
  revert j0. induction n as [|n IH]; intros j0; [done|].
  rewrite seqZ_cons by lia. rewrite bind_cons. simpl. f_equal.
  replace (Z.pred (Z.of_nat (S n))) with (Z.of_nat n) by lia.
  apply IH.
Qed.

Lemma seqZ_to_nat (m c : Z) : seqZ m c = seqZ m (Z.of_nat (Z.to_nat c)).
Proof.
  destruct (Z_lt_le_dec c 0).
  - rewrite !seqZ_nil; [done | lia | lia].
  - by rewrite Z2Nat.id.
Qed.

Lemma block_bind (i0 : Z) (m : nat) (j0 : Z) (n : nat) :
  (seqZ i0 (Z.of_nat m) ≫= λ i, seqZ j0 (Z.of_nat n) ≫= λ j, [MkTile i j])
  = block i0 m j0 n.
Proof.
  revert i0. induction m as [|m IH]; intros i0; [done|].
  rewrite (seqZ_cons i0 (Z.of_nat (S m))) by lia. rewrite bind_cons. simpl. f_equal.
  - apply column_bind.
  - replace (Z.pred (Z.of_nat (S m))) with (Z.of_nat m) by lia. apply IH.
Qed.

Lemma ranges_block (x0 x1 y0 y1 : Z) :
  (py_range x0 x1 ≫= λ i, py_range y0 y1 ≫= λ j, [MkTile i j])
  = block x0 (Z.to_nat (x1 - x0)) y0 (Z.to_nat (y1 - y0)).
Proof.
  unfold py_range.
  rewrite (seqZ_to_nat x0), (seqZ_to_nat y0). apply block_bind.
Qed.

Lemma clamp_at_zero (v : Z) : (if v <? 0 then 0 else v) = Z.max 0 v.
Proof. destruct (Z.ltb_spec v 0); lia. Qed.

(** The body of the loop over [bboxes] is the enumeration of one sub-box. *)
Lemma loop_body_sub_box (w s e n : Q) :
  (let w' := py_max (-180) w in
   let s' := py_max (-90) s in
   let e' := py_min 180 e in
   let n' := py_min 90 n in
   let ll := tile w' s' in
   let ur := tile e' n' in
   let llx := if x ll <? 0 then 0 else x ll in
   let ury := if y ur <? 0 then 0 else y ur in
   py_range llx (x ur) ≫= λ i, py_range ury (y ll) ≫= λ j, [MkTile i j])
  = sub_box_tiles w s e n.
Proof.
  cbv zeta. rewrite !clamp_at_zero, ranges_block.
  unfold sub_box_tiles, sub_box_range.
  by rewrite !tile_locate, !py_max_Qmax, !py_min_Qmin.
Qed.

(** A box that does not wrap is one sub-box. *)
Lemma tiles_one_box (w s e n : Q) :
  (w <= e)%Q -> tiles w s e n = sub_box_tiles w s e n.
Proof.
  intros Hwe. unfold tiles.
  apply Qltb_false in Hwe. rewrite Hwe.
  rewrite bind_singleton. apply loop_body_sub_box.
Qed.

(** A box that wraps is its two sub-boxes, the western one first. *)
Lemma tiles_two_boxes (w s e n : Q) :
  (e < w)%Q ->
  tiles w s e n = sub_box_tiles (-180) s e n ++ sub_box_tiles w s 180 n.
Proof.
  intros Hwe. unfold tiles.
  apply Qltb_true in Hwe. rewrite Hwe.
  rewrite bind_cons, bind_singleton.
  f_equal; apply loop_body_sub_box.
Qed.

Lemma elem_of_column (i j0 : Z) (n : nat) (t : Tile) :
  t ∈ column i j0 n <-> x t = i /\ j0 <= y t < j0 + Z.of_nat n.
Proof.
  revert j0. induction n as [|n IH]; intros j0; simpl.
  - rewrite elem_of_nil. lia.
  - rewrite elem_of_cons, IH. destruct t as [tx ty]; simpl. split.
    + intros [[= -> ->]|?]; lia.
    + intros [-> ?]. destruct (decide (ty = j0)) as [->|]; [by left | right; lia].
Qed.

Lemma elem_of_block (i0 : Z) (m : nat) (j0 : Z) (n : nat) (t : Tile) :
  t ∈ block i0 m j0 n
  <-> i0 <= x t < i0 + Z.of_nat m /\ j0 <= y t < j0 + Z.of_nat n.
Proof.
  revert i0. induction m as [|m IH]; intros i0; simpl.
  - rewrite elem_of_nil. lia.
  - rewrite elem_of_app, elem_of_column, IH. lia.
Qed.

Lemma column_sorted (i j0 : Z) (n : nat) :
  StronglySorted tile_before (column i j0 n).
Proof.
  revert j0. induction n as [|n IH]; intros j0; simpl; constructor.
  - apply IH.
  - apply Forall_forall. intros t Ht. apply elem_of_column in Ht.
    right. simpl. lia.
Qed.

Lemma block_sorted (i0 : Z) (m : nat) (j0 : Z) (n : nat) :
  StronglySorted tile_before (block i0 m j0 n).
Proof.
  revert i0. induction m as [|m IH]; intros i0; simpl; [constructor|].
  apply StronglySorted_app_2; [| apply column_sorted | apply IH].
  intros t1 t2 Ht1 Ht2.
  apply elem_of_column in Ht1. apply elem_of_block in Ht2.
  left. lia.
Qed.

Lemma elem_of_sub_box_tiles (w s e n : Q) (t : Tile) :
  t ∈ sub_box_tiles w s e n
  <-> let '(x0, x1, y0, y1) := sub_box_range w s e n in
      x0 <= x t < x1 /\ y0 <= y t < y1.
Proof.
  unfold sub_box_tiles. destruct (sub_box_range w s e n) as [[[x0 x1] y0] y1].
  rewrite elem_of_block. lia.
Qed.

(** The clamped box keeps [ur.x] within 360 and [ll.y] within 180. *)
Lemma sub_box_range_bounds (w s e n : Q) :
  let '(x0, x1, y0, y1) := sub_box_range w s e n in
  0 <= x0 /\ x1 <= 360 /\ 0 <= y0 /\ y1 <= 180.
Proof.
  unfold sub_box_range, locate. cbn [x y].
  rewrite <- (py_min_Qmin 180 e), <- (py_max_Qmax (-90) s).
  pose proof (py_min_upper 180 e) as He.
  pose proof (py_max_lower (-90) s) as Hs.
  assert (Qfloor (py_min 180 e + 180) <= 360) as Hx.
  { change (Qfloor (py_min 180 e + 180) <= Qfloor 360%Q).
    apply Qfloor_resp_le. lra. }
  assert (-180 <= Qfloor (py_max (-90) s - 90)) as Hy.
  { change (Qfloor (-180)%Q <= Qfloor (py_max (-90) s - 90)).
    apply Qfloor_resp_le. lra. }
  lia.
Qed.

Lemma sub_box_within_grid (w s e n : Q) (t : Tile) :
  t ∈ sub_box_tiles w s e n -> in_grid t.
Proof.
  intros Ht. apply elem_of_sub_box_tiles in Ht.
  pose proof (sub_box_range_bounds w s e n) as Hb.
  destruct (sub_box_range w s e n) as [[[x0 x1] y0] y1].
  unfold in_grid. lia.
Qed.

End TileGridFacts.

(** ** Clamping all four edges *)

Section FullClamp.
Import PyNum Flinttile TileGridSpec.

Lemma block_no_columns (x0 x1 y0 : Z) (n : nat) :
  x1 <= x0 -> block x0 (Z.to_nat (x1 - x0)) y0 n = [].
Proof. intros H. by replace (Z.to_nat (x1 - x0)) with 0%nat by lia. Qed.

Lemma block_no_rows (x0 : Z) (m : nat) (y0 y1 : Z) :
  y1 <= y0 -> block x0 m y0 (Z.to_nat (y1 - y0)) = [].
Proof.
  intros H. replace (Z.to_nat (y1 - y0)) with 0%nat by lia.
  revert x0. induction m as [|m IH]; intros x0; simpl; [done | apply IH].
Qed.

Lemma clamp_lng_cases (v : Q) :
  ((180 < v)%Q /\ clamp_lng v = 180%Q)
  \/ ((v < -180)%Q /\ clamp_lng v = (-180)%Q)
  \/ ((-180 <= v <= 180)%Q /\ clamp_lng v = v).
Proof.
  unfold clamp_lng, truncate_lnglat. cbn [fst].
  destruct (Qltb 180 v) eqn:E1.
  - left. by apply Qltb_true in E1.
  - apply Qltb_false in E1. destruct (Qltb v (-180)) eqn:E2.
    + right. left. by apply Qltb_true in E2.
    + right. right. by apply Qltb_false in E2.
Qed.

Lemma clamp_lat_cases (v : Q) :
  ((90 < v)%Q /\ clamp_lat v = 90%Q)
  \/ ((v < -90)%Q /\ clamp_lat v = (-90)%Q)
  \/ ((-90 <= v <= 90)%Q /\ clamp_lat v = v).
Proof.
  unfold clamp_lat, truncate_lnglat. cbn [snd].
  destruct (Qltb 90 v) eqn:E1.
  - left. by apply Qltb_true in E1.
  - apply Qltb_false in E1. destruct (Qltb v (-90)) eqn:E2.
    + right. left. by apply Qltb_true in E2.
    + right. right. by apply Qltb_false in E2.
Qed.

Lemma Qfloor_ge (v : Q) (k : Z) : (inject_Z k <= v)%Q -> k <= Qfloor v.
Proof. intros H. rewrite <- (Qfloor_Z k). by apply Qfloor_resp_le. Qed.

Lemma Qfloor_le_int (v : Q) (k : Z) : (v <= inject_Z k)%Q -> Qfloor v <= k.
Proof. intros H. rewrite <- (Qfloor_Z k). by apply Qfloor_resp_le. Qed.

Lemma Qfloor_lt_int (v : Q) (k : Z) : (v < inject_Z k)%Q -> Qfloor v < k.
Proof.
  intros H. pose proof (Qfloor_le v) as Hlo.
  assert (inject_Z (Qfloor v) < inject_Z k)%Q as Hlt by lra.
  unfold Qlt in Hlt. simpl in Hlt. lia.
Qed.

Lemma sub_box_range_unfold (w s e n : Q) :
  sub_box_range w s e n = (first_column w, end_column e, first_row n, end_row s).
Proof. reflexivity. Qed.

Lemma end_column_le_360 (e : Q) : end_column e <= 360.
Proof.
  unfold end_column. apply (Qfloor_le_int _ 360).
  rewrite <- py_min_Qmin. pose proof (py_min_upper 180 e).
  change (inject_Z 360) with 360%Q. lra.
Qed.

Lemma end_column_le_0 (e : Q) : (e <= -180)%Q -> end_column e <= 0.
Proof.
  intros He. unfold end_column. apply (Qfloor_le_int _ 0).
  rewrite <- py_min_Qmin.
  destruct (py_min_cases 180 e) as [[? ->]|[? ->]];
    change (inject_Z 0) with 0%Q; lra.
Qed.

Lemma first_column_ge_360 (w : Q) : (180 <= w)%Q -> 360 <= first_column w.
Proof.
  intros Hw. unfold first_column.
  assert (360 <= Qfloor (Qmax (-180) w + 180)); [|lia].
  apply Qfloor_ge. rewrite <- py_max_Qmax.
  destruct (py_max_cases (-180) w) as [[? ->]|[? ->]];
    change (inject_Z 360) with 360%Q; lra.
Qed.

Lemma end_row_le_180 (s : Q) : end_row s <= 180.
Proof.
  unfold end_row. assert (-180 <= Qfloor (Qmax (-90) s - 90)); [|lia].
  apply Qfloor_ge. rewrite <- py_max_Qmax. pose proof (py_max_lower (-90) s).
  change (inject_Z (-180)) with (-180)%Q. lra.
Qed.

Lemma end_row_le_0 (s : Q) : (90 <= s)%Q -> end_row s <= 0.
Proof.
  intros Hs. unfold end_row. assert (0 <= Qfloor (Qmax (-90) s - 90)); [|lia].
  apply Qfloor_ge. rewrite <- py_max_Qmax.
  destruct (py_max_cases (-90) s) as [[? ->]|[? ->]];
    change (inject_Z 0) with 0%Q; lra.
Qed.

Lemma first_row_ge_180 (n : Q) : (n <= -90)%Q -> 180 <= first_row n.
Proof.
  intros Hn. unfold first_row.
  assert (Qfloor (Qmin 90 n - 90) <= -180); [|lia].
  apply Qfloor_le_int. rewrite <- py_min_Qmin.
  destruct (py_min_cases 90 n) as [[? ->]|[? ->]];
    change (inject_Z (-180)) with (-180)%Q; lra.
Qed.

Lemma first_column_clamped (w : Q) :
  (w <= 180)%Q -> first_column (clamp_lng w) = first_column w.
Proof.
  intros Hw. unfold first_column. f_equal. apply Qfloor_comp.
  rewrite <- !py_max_Qmax.
  destruct (clamp_lng_cases w) as [[? ->]|[[? ->]|[? ->]]]; [lra| |reflexivity].
  destruct (py_max_cases (-180) (-180)) as [[? ->]|[? ->]],
           (py_max_cases (-180) w) as [[? ->]|[? ->]]; lra.
Qed.

Lemma end_column_clamped (e : Q) :
  (-180 <= e)%Q -> end_column (clamp_lng e) = end_column e.
Proof.
  intros He. unfold end_column. apply Qfloor_comp.
  rewrite <- !py_min_Qmin.
  destruct (clamp_lng_cases e) as [[? ->]|[[? ->]|[? ->]]]; [|lra|reflexivity].
  destruct (py_min_cases 180 180) as [[? ->]|[? ->]],
           (py_min_cases 180 e) as [[? ->]|[? ->]]; lra.
Qed.

Lemma end_row_clamped (s : Q) :
  (s <= 90)%Q -> end_row (clamp_lat s) = end_row s.
Proof.
  intros Hs. unfold end_row. f_equal. apply Qfloor_comp.
  rewrite <- !py_max_Qmax.
  destruct (clamp_lat_cases s) as [[? ->]|[[? ->]|[? ->]]]; [lra| |reflexivity].
  destruct (py_max_cases (-90) (-90)) as [[? ->]|[? ->]],
           (py_max_cases (-90) s) as [[? ->]|[? ->]]; lra.
Qed.

Lemma first_row_clamped (n : Q) :
  (-90 <= n)%Q -> first_row (clamp_lat n) = first_row n.
Proof.
  intros Hn. unfold first_row. do 2 f_equal. apply Qfloor_comp.
  rewrite <- !py_min_Qmin.
  destruct (clamp_lat_cases n) as [[? ->]|[[? ->]|[? ->]]]; [|lra|reflexivity].
  destruct (py_min_cases 90 90) as [[? ->]|[? ->]],
           (py_min_cases 90 n) as [[? ->]|[? ->]]; lra.
Qed.

(** Clamping all four edges into [-180, 180] x [-90, 90] first does not
    change the tiles of a sub-box. *)
Lemma sub_box_tiles_clamped (w s e n : Q) :
  (w <= e)%Q ->
  sub_box_tiles (clamp_lng w) (clamp_lat s) (clamp_lng e) (clamp_lat n)
  = sub_box_tiles w s e n.
Proof.
  intros Hwe. unfold sub_box_tiles. rewrite !sub_box_range_unfold.
  pose proof (end_column_le_360 e). pose proof (end_column_le_360 (clamp_lng e)).
  pose proof (end_row_le_180 s). pose proof (end_row_le_180 (clamp_lat s)).
  assert (0 <= first_column w /\ 0 <= first_column (clamp_lng w)
          /\ 0 <= first_row n /\ 0 <= first_row (clamp_lat n)) as (?&?&?&?)
    by (unfold first_column, first_row; lia).
  destruct (Qlt_le_dec 180 w) as [Hw|Hw].
  { assert (360 <= first_column w) by (apply first_column_ge_360; lra).
    assert (360 <= first_column (clamp_lng w)).
    { apply first_column_ge_360.
      destruct (clamp_lng_cases w) as [[? ->]|[[? ->]|[? ->]]]; lra. }
    rewrite !block_no_columns; [done | lia | lia]. }
  rewrite (first_column_clamped w Hw).
  destruct (Qlt_le_dec e (-180)) as [He|He].
  { assert (end_column e <= 0) by (apply end_column_le_0; lra).
    assert (end_column (clamp_lng e) <= 0).
    { apply end_column_le_0.
      destruct (clamp_lng_cases e) as [[? ->]|[[? ->]|[? ->]]]; lra. }
    rewrite !block_no_columns; [done | lia | lia]. }
  rewrite (end_column_clamped e He).
  destruct (Qlt_le_dec 90 s) as [Hs|Hs].
  { assert (end_row s <= 0) by (apply end_row_le_0; lra).
    assert (end_row (clamp_lat s) <= 0).
    { apply end_row_le_0.
      destruct (clamp_lat_cases s) as [[? ->]|[[? ->]|[? ->]]]; lra. }
    rewrite !block_no_rows; [done | lia | lia]. }
  rewrite (end_row_clamped s Hs).
  destruct (Qlt_le_dec n (-90)) as [Hn|Hn].
  { assert (180 <= first_row n) by (apply first_row_ge_180; lra).
    assert (180 <= first_row (clamp_lat n)).
    { apply first_row_ge_180.
      destruct (clamp_lat_cases n) as [[? ->]|[[? ->]|[? ->]]]; lra. }
    rewrite !block_no_rows; [done | lia | lia]. }
  by rewrite (first_row_clamped n Hn).
Qed.

Lemma clamp_lng_mono (w e : Q) : (w <= e)%Q -> (clamp_lng w <= clamp_lng e)%Q.
Proof.
  intros Hwe.
  destruct (clamp_lng_cases w) as [[? ->]|[[? ->]|[? ->]]],
           (clamp_lng_cases e) as [[? ->]|[[? ->]|[? ->]]]; lra.
Qed.

(** The tiles of a box that does not wrap are those of the box clamped
    into [-180, 180] x [-90, 90] by [truncate_lnglat]. *)
Lemma tiles_of_truncated_box (w s e n : Q) :
  (w <= e)%Q ->
  tiles (truncate_lnglat w s).1 (truncate_lnglat w s).2
        (truncate_lnglat e n).1 (truncate_lnglat e n).2
  = tiles w s e n.
Proof.
  intros Hwe.
  change (tiles (clamp_lng w) (clamp_lat s) (clamp_lng e) (clamp_lat n)
          = tiles w s e n).
  rewrite !tiles_one_box by (by try apply clamp_lng_mono).
  by apply sub_box_tiles_clamped.
Qed.

End FullClamp.

(** ** The round trip in binary64 *)

Section Binary64Facts.
Import Flinttile TileGridSpec.

Lemma binary64_tile_ul (t : Tile) :
  Binary64.tile (Binary64.ul t).1 (Binary64.ul t).2
  = (xtile ← Binary64.column_roundtrip (x t);
     ytile ← Binary64.row_roundtrip (y t);
     Some (MkTile xtile ytile)).
Proof. reflexivity. Qed.

Lemma binary64_columns_check :
  forallb (fun i => bool_decide (Binary64.column_roundtrip i = Some i))
    (seqZ 0 360) = true.
Proof. vm_compute. reflexivity. Qed.

Lemma binary64_rows_check :
  forallb (fun j => bool_decide (Binary64.row_roundtrip j = Some j))
    (seqZ 0 180) = true.
Proof. vm_compute. reflexivity. Qed.

Lemma binary64_roundtrip_on_grid (t : Tile) :
  in_grid t -> Binary64.tile (Binary64.ul t).1 (Binary64.ul t).2 = Some t.
Proof.
  intros [Hx Hy]. rewrite binary64_tile_ul.
  pose proof binary64_columns_check as Hcols.
  pose proof binary64_rows_check as Hrows.
  rewrite forallb_forall in Hcols, Hrows.
  specialize (Hcols (x t)). specialize (Hrows (y t)).
  rewrite <- list_elem_of_In, elem_of_seqZ, bool_decide_eq_true in Hcols, Hrows.
  rewrite Hcols, Hrows by lia. by destruct t.
Qed.

End Binary64Facts.

Section TileGridClaims.
Import PyNum Flinttile TileGridSpec.

(** C1. For a bounding box that does not wrap (west <= east), [tiles]
    clamps the box, locates [ll] and [ur], clamps negative [ll.x] and [ur.y]
    to 0 and yields exactly the tiles (i, j) with i in [clamped ll.x, ur.x)
    and j in [clamped ur.y, ll.y): the list is the enumeration of section
    4.1, its members are the tiles of the two half-open ranges, it runs by
    column and then by row without repetition, and no yielded tile lies in
    column [ur.x] or in row [ll.y].  Clamping every edge into
    [-180, 180] x [-90, 90] beforehand yields the same tiles. *)
Theorem tiles_non_wrapping (west south east north : Q) :
  (west <= east)%Q ->
  let '(x0, x1, y0, y1) := sub_box_range west south east north in
  tiles west south east north = sub_box_tiles west south east north
  /\ (forall t, t ∈ tiles west south east north
                <-> x0 <= x t < x1 /\ y0 <= y t < y1)
  /\ StronglySorted tile_before (tiles west south east north)
  /\ (forall t, t ∈ tiles west south east north -> x t <> x1 /\ y t <> y1)
  /\ tiles (clamp_lng west) (clamp_lat south) (clamp_lng east) (clamp_lat north)
     = tiles west south east north.
Proof.
  intros Hwe. pose proof (tiles_of_truncated_box _ south _ north Hwe) as Hclamp.
  change (tiles (clamp_lng west) (clamp_lat south) (clamp_lng east)
            (clamp_lat north) = tiles west south east north) in Hclamp.
  rewrite Hclamp. rewrite (tiles_one_box _ _ _ _ Hwe).
  pose proof (elem_of_sub_box_tiles west south east north) as Hin.
  unfold sub_box_tiles in *.
  destruct (sub_box_range west south east north) as [[[x0 x1] y0] y1].
  split; [reflexivity|]. split; [exact Hin|].
  split; [apply block_sorted|].
  split; [|reflexivity].
  intros t Ht. apply Hin in Ht. lia.
Qed.

Lemma tiles_non_wrapping_witness :
  (-10 <= 10)%Q
  /\ tiles (-10) (-10) 10 10 = sub_box_tiles (-10) (-10) 10 10.
Proof.
  assert (-10 <= 10)%Q as H by (unfold Qle; simpl; lia).
  split; [exact H|].
  exact (proj1 (tiles_non_wrapping (-10) (-10) 10 10 H)).
Defined.

(** C2. For a bounding box with west > east, [tiles] yields the tiles of
    the sub-box (-180, south, east, north) followed by the tiles of the
    sub-box (west, south, 180, north), each enumerated on its own; where a
    sub-box does not wrap itself, its part is what [tiles] yields for it. *)
Theorem tiles_wrapping (west south east north : Q) :
  (east < west)%Q ->
  tiles west south east north
    = sub_box_tiles (-180) south east north
      ++ sub_box_tiles west south 180 north
  /\ ((-180 <= east)%Q ->
      tiles (-180) south east north = sub_box_tiles (-180) south east north)
  /\ ((west <= 180)%Q ->
      tiles west south 180 north = sub_box_tiles west south 180 north).
Proof.
  intros Hwe. split; [by apply tiles_two_boxes|].
  split; apply tiles_one_box.
Qed.

Lemma tiles_wrapping_witness :
  (-170 < 170)%Q
  /\ tiles 170 (-10) (-170) 10
     = tiles (-180) (-10) (-170) 10 ++ tiles 170 (-10) 180 10.
Proof.
  assert (-170 < 170)%Q as H by (unfold Qlt; simpl; lia).
  split; [exact H|].
  destruct (tiles_wrapping 170 (-10) (-170) 10 H) as (-> & H1 & H2).
  rewrite H1, H2; [reflexivity | |]; unfold Qle; simpl; lia.
Defined.

(** C4. For every tile T with integer coordinates, [ul] gives
    (x - 180, 90 - y), [tile] is (floor(lng + 180), -floor(lat - 90)), and
    [tile] applied to [ul T] is T; on the tiles of the 360 x 180 grid the
    round trip also holds when the arithmetic is binary64. *)
Theorem tile_ul_roundtrip (t : Tile) :
  tile (lng (ul t)) (lat (ul t)) = t
  /\ (lng (ul t) == inject_Z (x t) - 180)%Q
  /\ (lat (ul t) == 90 - inject_Z (y t))%Q
  /\ (forall lng lat,
        tile lng lat = MkTile (Qfloor (lng + 180)) (- Qfloor (lat - 90)))
  /\ (in_grid t ->
      Binary64.tile (Binary64.ul t).1 (Binary64.ul t).2 = Some t).
Proof.
  destruct t as [tx ty]. unfold ul; cbn [x y lng lat].
  split; [|split; [|split; [|split]]].
  - unfold tile, py_floor. f_equal.
    + rewrite (Qfloor_comp _ (inject_Z tx)) by ring. apply Qfloor_Z.
    + rewrite (Qfloor_comp _ (inject_Z (- ty))).
      * rewrite Qfloor_Z. lia.
      * rewrite inject_Z_opp. ring.
  - reflexivity.
  - ring.
  - intros. apply tile_locate.
  - apply binary64_roundtrip_on_grid.
Qed.

Lemma tile_ul_roundtrip_witness :
  in_grid (MkTile 359 179)
  /\ Binary64.tile (Binary64.ul (MkTile 359 179)).1
       (Binary64.ul (MkTile 359 179)).2 = Some (MkTile 359 179).
Proof.
  assert (in_grid (MkTile 359 179)) as H by (unfold in_grid; simpl; lia).
  split; [exact H|].
  exact (proj2 (proj2 (proj2 (proj2 (tile_ul_roundtrip (MkTile 359 179))))) H).
Defined.

(** C7. [index] is y * 360 + x; it is injective on the tiles with
    0 <= x < 360 and 0 <= y < 180; the indices of Tile(0,0), Tile(1,0) and
    Tile(0,1) are 0, 1 and 360. *)
Theorem index_injective_on_grid :
  (forall t, index t = y t * 360 + x t)
  /\ (forall t1 t2,
        in_grid t1 -> in_grid t2 -> index t1 = index t2 -> t1 = t2)
  /\ index (MkTile 0 0) = 0
  /\ index (MkTile 1 0) = 1
  /\ index (MkTile 0 1) = 360.
Proof.
  split; [reflexivity|]. split; [|repeat split].
  intros [x1 y1] [x2 y2]. unfold in_grid, index. cbn [x y].
  intros ? ? ?. assert (y1 = y2) by lia. f_equal; lia.
Qed.

Lemma index_injective_on_grid_witness :
  index (MkTile 359 0) <> index (MkTile 0 1).
Proof.
  intros Heq.
  assert (MkTile 359 0 = MkTile 0 1) as Habs.
  { apply (proj1 (proj2 index_injective_on_grid));
      [unfold in_grid; simpl; lia | unfold in_grid; simpl; lia | exact Heq]. }
  discriminate Habs.
Defined.

(** C9. Every tile yielded by [tiles], for any bounding box, has
    0 <= x <= 359 and 0 <= y <= 179, and its [index] lies in [0, 64800). *)
Theorem tiles_in_grid (west south east north : Q) (t : Tile) :
  t ∈ tiles west south east north ->
  0 <= x t <= 359 /\ 0 <= y t <= 179 /\ 0 <= index t < 64800.
Proof.
  intros Ht.
  assert (in_grid t) as [Hx Hy].
  { destruct (Qlt_le_dec east west) as [Hwrap|Hone].
    - rewrite (tiles_two_boxes _ _ _ _ Hwrap) in Ht.
      apply elem_of_app in Ht as [Ht|Ht];
        by apply sub_box_within_grid in Ht.
    - rewrite (tiles_one_box _ _ _ _ Hone) in Ht.
      by apply sub_box_within_grid in Ht. }
  unfold index. lia.
Qed.

Lemma tiles_in_grid_witness :
  MkTile 359 0 ∈ tiles 170 80 200 100
  /\ 0 <= 359 <= 359 /\ 0 <= 0 <= 179 /\ 0 <= index (MkTile 359 0) < 64800.
Proof.
  assert (MkTile 359 0 ∈ tiles 170 80 200 100) as H.
  { vm_compute. apply list_elem_of_In. simpl. tauto. }
  split; [exact H|].
  exact (tiles_in_grid 170 80 200 100 (MkTile 359 0) H).
Defined.

(** The boxes of section 8. *)
Example tiles_block_example :
  length (tiles (-10) (-10) 10 10) = 400%nat
  /\ head (tiles (-10) (-10) 10 10) = Some (MkTile 170 80)
  /\ last (tiles (-10) (-10) 10 10) = Some (MkTile 189 99).
Proof. vm_compute. repeat split. Qed.

Example tiles_antimeridian_example :
  tiles 179 (-1) (-179) 1
  = [MkTile 0 89; MkTile 0 90; MkTile 359 89; MkTile 359 90].
Proof. vm_compute. reflexivity. Qed.

Example name_example :
  name (MkTile 179 0) = "-001_090"%string
  /\ name (MkTile 181 0) = "001_090"%string
  /\ name (MkTile 0 0) = "-180_090"%string.
Proof. vm_compute. repeat split. Qed.

End TileGridClaims.

Section FeatureClaims.
Import PyNum Flinttile.

Lemma py_min_le_py_max (a b : Q) : (py_min a b <= py_max a b)%Q.
Proof.
  destruct (py_min_cases a b) as [[? ->]|[? ->]],
           (py_max_cases a b) as [[? ->]|[? ->]]; lra.
Qed.

Lemma py_min_bounds (a b : Q) : (py_min a b <= a)%Q /\ (py_min a b <= b)%Q.
Proof. destruct (py_min_cases a b) as [[? ->]|[? ->]]; lra. Qed.

Lemma py_max_bounds (a b : Q) : (a <= py_max a b)%Q /\ (b <= py_max a b)%Q.
Proof. destruct (py_max_cases a b) as [[? ->]|[? ->]]; lra. Qed.

(** The ring and the box of a feature are built from one quadruple of
    edges. *)
Lemma feature_shape (tile : Tile) (fid : option string)
    (props : option (gmap string jvalue)) (buffer : option Q)
    (precision : option Z) :
  exists w s e n : Q,
    coordinates (feat_geometry (feature tile fid props buffer precision))
      = [[ [w; s]; [w; n]; [e; n]; [e; s]; [w; s] ]]
    /\ feat_bbox (feature tile fid props buffer precision)
      = [py_min w e; py_min s n; py_max w e; py_max s n].
Proof.
  unfold feature.
  destruct buffer as [buf|]; [destruct (truthy_float (Some buf))|];
    (destruct precision as [p|]; [destruct (negb (p =? 0) && (0 <=? p))|]);
    cbn [feat_geometry feat_bbox coordinates]; eauto 10.
Qed.

(** C8. For every tile and every choice of the optional arguments,
    [feature] returns a polygon with one ring of exactly 5 points whose
    first and last points are equal, and a bbox [minX, minY, maxX, maxY]
    with minX <= maxX and minY <= maxY, also when the buffer or the rounding
    put west beyond east or south beyond north. *)
Theorem feature_ring_closed_bbox_sorted (tile : Tile) (fid : option string)
    (props : option (gmap string jvalue)) (buffer : option Q)
    (precision : option Z) :
  let f := feature tile fid props buffer precision in
  exists (ring : list (list Q)) (minX minY maxX maxY : Q),
    coordinates (feat_geometry f) = [ring]
    /\ length ring = 5%nat
    /\ head ring = last ring
    /\ feat_bbox f = [minX; minY; maxX; maxY]
    /\ (minX <= maxX)%Q /\ (minY <= maxY)%Q
    /\ Forall (fun p => exists px py, p = [px; py]
                 /\ (minX <= px <= maxX)%Q /\ (minY <= py <= maxY)%Q) ring.
Proof.
  intros f. subst f.
  destruct (feature_shape tile fid props buffer precision)
    as (w & s & e & n & -> & ->).
  eexists _, _, _, _, _. split; [reflexivity|].
  split; [reflexivity|]. split; [reflexivity|]. split; [reflexivity|].
  split; [apply py_min_le_py_max|]. split; [apply py_min_le_py_max|].
  destruct (py_min_bounds w e) as [? ?], (py_max_bounds w e) as [? ?],
           (py_min_bounds s n) as [? ?], (py_max_bounds s n) as [? ?].
  repeat (apply Forall_cons; split; [eexists _, _; split; [reflexivity | repeat split; lra] |]).
  by apply Forall_nil.
Qed.

End FeatureClaims.

(** ** Running the monad *)

Section EngineFacts.
Import PyNum Flinttile Engine PipelineSpec.

Lemma bind_ok {A B} (m : M A) (k : A -> M B) (st st' : state) (v : A) :
  m st = (st', inr v) -> bind m k st = k v st'.
Proof. unfold bind. by intros ->. Qed.

Lemma bind_err {A B} (m : M A) (k : A -> M B) (st st' : state) (err : exn) :
  m st = (st', inl err) -> bind m k st = (st', inl err).
Proof. unfold bind. by intros ->. Qed.

Lemma py_div_ok (a b : Q) (st : state) :
  ~ (b == 0)%Q -> py_div a b st = (st, inr (a / b)%Q).
Proof.
  intros Hb. unfold py_div.
  destruct (Qeq_bool b 0) eqn:E; [|done].
  by apply Qeq_bool_iff in E.
Qed.

Lemma inject_Z_nonzero (z : Z) : z <> 0 -> ~ (inject_Z z == 0)%Q.
Proof. unfold Qeq. simpl. lia. Qed.

Lemma from_bounds_ok (w s e n : Q) (width height : Z) (st : state) :
  width <> 0 -> height <> 0 ->
  exists t, from_bounds w s e n width height st = (st, inr t).
Proof.
  intros Hw Hh. unfold from_bounds.
  erewrite bind_ok by (by apply py_div_ok, inject_Z_nonzero).
  erewrite bind_ok by (by apply py_div_ok, inject_Z_nonzero).
  by eexists.
Qed.

Lemma emit_run (ev : event) (st : state) :
  emit ev st = (MkState (fs st) (trace st ++ [ev]), inr tt).
Proof. done. Qed.

Lemma open_vrt_run (src : Dataset) (crs : string) (rs : Resampling)
    (tr : Affine.t) (w h : Z) (st : state) :
  open_vrt src crs rs tr w h st
  = (MkState (fs st) (trace st ++ [EvWarpedVRT (MkWarpedVRT src crs rs tr w h)]),
     inr (MkWarpedVRT src crs rs tr w h)).
Proof. done. Qed.

Lemma for_each_ok {A} (l : list A) (body : A -> M unit) :
  (forall v st, exists st', body v st = (st', inr tt)) ->
  forall st, exists st', for_each l body st = (st', inr tt).
Proof.
  intros Hbody. induction l as [|v l IH]; intros st; simpl.
  - by eexists.
  - destruct (Hbody v st) as [st1 H1]. erewrite bind_ok by exact H1. apply IH.
Qed.

Lemma appends_ret {A} (v : A) : appends (ret v).
Proof. intros st. exists []. by rewrite app_nil_r. Qed.

Lemma appends_raise {A} (err : exn) : appends (@raise A err).
Proof. intros st. exists []. by rewrite app_nil_r. Qed.

Lemma appends_emit (ev : event) : appends (emit ev).
Proof. intros st. by exists [ev]. Qed.

Lemma appends_bind {A B} (m : M A) (k : A -> M B) :
  appends m -> (forall v, appends (k v)) -> appends (bind m k).
Proof.
  intros Hm Hk st. unfold bind.
  destruct (Hm st) as [r1 H1]. destruct (m st) as [st1 [err|v]]; simpl in *.
  - by exists r1.
  - destruct (Hk v st1) as [r2 H2]. exists (r1 ++ r2).
    by rewrite H2, H1, app_assoc.
Qed.

Lemma appends_py_div (a b : Q) : appends (py_div a b).
Proof.
  unfold py_div. destruct (Qeq_bool b 0); [apply appends_raise | apply appends_ret].
Qed.

Lemma appends_from_bounds (w s e n : Q) (width height : Z) :
  appends (from_bounds w s e n width height).
Proof.
  unfold from_bounds.
  repeat (apply appends_bind; [apply appends_py_div | intros ?]).
  apply appends_ret.
Qed.

Lemma appends_open_vrt (src : Dataset) (crs : string) (rs : Resampling)
    (tr : Affine.t) (w h : Z) : appends (open_vrt src crs rs tr w h).
Proof. intros st. by eexists [_]. Qed.

Lemma appends_is_file (path : string) : appends (is_file path).
Proof. intros st. exists []. by rewrite app_nil_r. Qed.

Lemma appends_open_wb (path : string) : appends (open_wb path).
Proof. intros st. exists []. by rewrite app_nil_r. Qed.

Lemma appends_file_write (path : string) (data : list Byte.byte) :
  appends (file_write path data).
Proof. intros st. exists []. by rewrite app_nil_r. Qed.

Lemma appends_for_each {A} (l : list A) (body : A -> M unit) :
  (forall v, appends (body v)) -> appends (for_each l body).
Proof.
  intros Hbody. induction l as [|v l IH]; simpl.
  - apply appends_ret.
  - apply appends_bind; [apply Hbody | intros _; apply IH].
Qed.

End EngineFacts.

(** Discharges [appends] goals on code built from the primitives. *)
Ltac solve_appends :=
  repeat first
    [ apply appends_ret | apply appends_raise | apply appends_emit
    | apply appends_py_div | apply appends_from_bounds
    | apply appends_open_vrt | apply appends_is_file | apply appends_open_wb
    | apply appends_file_write
    | apply appends_for_each; intros ?
    | apply appends_bind; [| intros ?]
    | match goal with
      | |- PipelineSpec.appends (if ?b then _ else _) => destruct b
      end ].

(** ** The transform solver *)

Section TransformSolver.
Import PyNum Flinttile Engine PipelineSpec.

Variable warp_transform :
  option string -> string -> list Q -> list Q -> list Q * list Q.
Variable warp_transform_bounds :
  option string -> string -> Q * Q * Q * Q -> Q * Q * Q * Q.

(** With four bounds the first thing either solver does is to ask the engine
    for the projected corners. *)
Lemma solver_transforms_corners (src_crs : option string) (target : string)
    (width height : Z) (b0 b1 b2 b3 : Q) (st : state) :
  exists rest1 rest2 crs',
    trace (OptimizeRasters._calculate_default_transform warp_transform
             warp_transform_bounds src_crs target width height
             [b0; b1; b2; b3] st).1
    = trace st ++ EvTransform src_crs target [b0; b0; b2; b2] [b1; b3; b1; b3]
                  :: rest1
    /\ trace (OptimizeRasterstack._calculate_default_transform warp_transform
             warp_transform_bounds src_crs target width height
             [b0; b1; b2; b3] st).1
    = trace st ++ EvTransform crs' target [b0; b0; b2; b2] [b1; b3; b1; b3]
                  :: rest2.
Proof.
  assert (forall src' : option string,
    appends (
      let (txs, tys) :=
        warp_transform src' target [b0; b0; b2; b2] [b1; b3; b1; b3] in
      match zip txs tys with
      | [dst_corner_sw; dst_corner_nw; dst_corner_se; dst_corner_ne] =>
          let '(cw, cs, ce, cn) :=
            (py_max dst_corner_sw.1 dst_corner_nw.1,
             py_max dst_corner_sw.2 dst_corner_se.2,
             py_min dst_corner_se.1 dst_corner_ne.1,
             py_min dst_corner_nw.2 dst_corner_ne.2) in
          bind (from_bounds cw cs ce cn width height) (fun dst_corner_transform =>
          bind (emit (EvTransformBounds src' target (b0, b1, b2, b3))) (fun _ =>
          let '(db0, db1, db2, db3) :=
            warp_transform_bounds src' target (b0, b1, b2, b3) in
          bind (py_div (db2 - db0) (Affine.a dst_corner_transform)) (fun qw =>
          bind (py_div (db1 - db3) (Affine.e dst_corner_transform)) (fun qh =>
          bind (from_bounds db0 db1 db2 db3 (py_ceil qw) (py_ceil qh))
            (fun dst_transform =>
               ret (dst_transform, py_ceil qw, py_ceil qh))))))
      | _ => raise (ValueError "wrong number of values to unpack")
      end)) as Hrest.
  { intros src'. destruct (warp_transform _ _ _ _) as [txs tys].
    destruct (zip txs tys) as [|? [|? [|? [|? [|? ?]]]]];
      try apply appends_raise.
    apply appends_bind; [apply appends_from_bounds | intros ?].
    apply appends_bind; [apply appends_emit | intros ?].
    destruct (warp_transform_bounds _ _ _) as [[[db0 db1] db2] db3].
    repeat (apply appends_bind; [apply appends_py_div | intros ?]).
    apply appends_bind; [apply appends_from_bounds | intros ?].
    apply appends_ret. }
  unfold OptimizeRasters._calculate_default_transform,
         OptimizeRasterstack._calculate_default_transform.
  rewrite bool_decide_eq_false_2 by (simpl; lia).
  cbn [lookup_total list_lookup_total].
  destruct (Hrest src_crs (MkState (fs st)
              (trace st ++ [EvTransform src_crs target [b0; b0; b2; b2]
                              [b1; b3; b1; b3]]))) as [r1 H1].
  set (crs' := match src_crs with None => Some target | Some _ => src_crs end).
  destruct (Hrest crs' (MkState (fs st)
              (trace st ++ [EvTransform crs' target [b0; b0; b2; b2]
                              [b1; b3; b1; b3]]))) as [r2 H2].
  exists r1, r2, crs'. split.
  - erewrite bind_ok by apply emit_run.
    etransitivity; [exact H1|]. simpl. by rewrite <- app_assoc.
  - erewrite bind_ok by apply emit_run.
    etransitivity; [exact H2|]. simpl. by rewrite <- app_assoc.
Qed.

(** C6. [_calculate_default_transform], in both scripts, raises
    [ValueError] when fewer than 4 bound values are supplied, and it does so
    before any call to the engine: the trace of coordinate transformations
    and the files are as they were. *)
Theorem solver_rejects_short_bounds (src_crs : option string)
    (target : string) (width height : Z) (bounds : list Q) (st : state) :
  (length bounds < 4)%nat ->
  OptimizeRasters._calculate_default_transform warp_transform
    warp_transform_bounds src_crs target width height bounds st
  = (st, inl (ValueError "Bounds must contain 4 values"))
  /\ OptimizeRasterstack._calculate_default_transform warp_transform
       warp_transform_bounds src_crs target width height bounds st
     = (st, inl (ValueError "Bounds must contain 4 values")).
Proof.
  intros Hlen.
  unfold OptimizeRasters._calculate_default_transform,
         OptimizeRasterstack._calculate_default_transform.
  rewrite bool_decide_eq_true_2 by lia. done.
Qed.

End TransformSolver.

Lemma solver_rejects_short_bounds_witness :
  (length [0%Q; 0%Q; 1%Q] < 4)%nat
  /\ OptimizeRasters._calculate_default_transform
       (fun _ _ xs ys => (xs, ys)) (fun _ _ box => box)
       (Some "epsg:3857"%string) "epsg:4326" 10 10 [0%Q; 0%Q; 1%Q]
       (Engine.MkState ∅ [])
     = (Engine.MkState ∅ [],
        inl (Engine.ValueError "Bounds must contain 4 values")).
Proof.
  assert (length [0%Q; 0%Q; 1%Q] < 4)%nat as H by (simpl; lia).
  split; [exact H|].
  exact (proj1 (solver_rejects_short_bounds (fun _ _ xs ys => (xs, ys))
                  (fun _ _ box => box) (Some "epsg:3857"%string) "epsg:4326"
                  10 10 [0%Q; 0%Q; 1%Q] (Engine.MkState ∅ []) H)).
Defined.

(** ** The single-raster pipeline *)

Section SingleRaster.
Import PyNum Flinttile Engine PipelineSpec.

Context {pixel : Type}.
Variable pixel_bytes : pixel -> list Byte.byte.
Variable vrt_profile : WarpedVRT -> gmap string jvalue.
Variable vrt_read : WarpedVRT -> Window -> option (Z * Z) -> list (list pixel).
Variable block_windows : Dataset -> list Window.

#[local] Abbreviation tile_body :=
  (OptimizeRasters.optimize_rasters_tile pixel_bytes vrt_profile vrt_read
     block_windows).

(** The value of [in_memory] on entry to the loop body is never read. *)
Lemma tile_body_in_memory_unused (src : DatasetReader)
    (raster_name raster_folder : string) (overwrite : bool)
    (rs_method : Resampling) (compression : string) (dst_res : Q * Q)
    (in_memory in_memory' : option bool) (tile : Tile) :
  tile_body src raster_name raster_folder overwrite rs_method compression
    dst_res in_memory tile
  = tile_body src raster_name raster_folder overwrite rs_method compression
      dst_res in_memory' tile.
Proof. reflexivity. Qed.

(** An output conflict in the single-raster pipeline is raised after the
    two views and the destination are set up and before any pixel is read or
    written: the files are as they were. *)
Lemma single_conflict_before_pixel_work (src : DatasetReader)
    (raster_name raster_folder : string) (rs_method : Resampling)
    (compression : string) (dst_res : Q * Q) (in_memory : option bool)
    (tile : Tile) (st : state) :
  ~ (dst_res.1 == 0)%Q -> ~ (dst_res.2 == 0)%Q ->
  is_Some (fs st !! blk_path raster_folder raster_name tile) ->
  exists vrt dst vrt_dst msg,
    tile_body src raster_name raster_folder false rs_method compression
      dst_res in_memory tile st
    = (MkState (fs st)
         (trace st ++ [EvWarpedVRT vrt; EvOpenDst dst; EvWarpedVRT vrt_dst]),
       inl (BadParameter msg)).
Proof.
  intros Hx Hy Hfile. unfold OptimizeRasters.optimize_rasters_tile.
  erewrite bind_ok by (by apply py_div_ok).
  erewrite bind_ok by (by apply py_div_ok).
  match goal with |- context [from_bounds ?w ?s ?e ?n ?wd ?ht] =>
    destruct (from_bounds_ok w s e n wd ht st) as [fb Hfb]; [lia | lia |]
  end.
  erewrite bind_ok by exact Hfb.
  erewrite bind_ok by apply open_vrt_run.
  erewrite bind_ok by apply emit_run.
  match goal with |- context [bind (from_bounds ?w ?s ?e ?n ?wd ?ht) _ ?st'] =>
    destruct (from_bounds_ok w s e n wd ht st') as [fb' Hfb']; [lia | lia |]
  end.
  erewrite bind_ok by exact Hfb'.
  erewrite bind_ok by apply open_vrt_run.
  erewrite bind_ok by reflexivity.
  cbn [fs trace negb andb].
  fold (blk_path raster_folder raster_name tile).
  rewrite bool_decide_eq_true_2 by exact Hfile.
  unfold raise. rewrite <- !app_assoc. simpl.
  by eexists _, _, _, _.
Qed.

(** C5. The in-memory override given to the single-raster operation does
    not decide how a tile's destination raster is opened: whatever its
    value, the destination is a [MemoryFile] exactly when the padded view
    has fewer than [IN_MEMORY_THRESHOLD] pixels, and a temporary file on
    disk otherwise. *)
Theorem in_memory_decided_by_size_alone (src : DatasetReader)
    (raster_name raster_folder : string) (overwrite : bool)
    (rs_method : Resampling) (compression : string) (dst_res : Q * Q)
    (in_memory : option bool) (tile : Tile) (st : state) :
  ~ (dst_res.1 == 0)%Q -> ~ (dst_res.2 == 0)%Q ->
  let b := Flinttile.bounds tile in
  let padded_width := Z.max 1 (py_round ((east b - west b) / dst_res.1)) + 4 in
  let padded_height := Z.max 1 (py_round ((north b - south b) / dst_res.2)) + 4 in
  exists vrt rest,
    trace (tile_body src raster_name raster_folder overwrite rs_method
             compression dst_res in_memory tile st).1
    = trace st ++ EvWarpedVRT vrt
        :: EvOpenDst
             (if padded_width * padded_height <? IN_MEMORY_THRESHOLD
              then MemoryDst (FLINT_TILE_PROFILE ∪ vrt_profile vrt)
              else TempFileDst raster_folder
                     (FLINT_TILE_PROFILE ∪ vrt_profile vrt))
        :: rest
    /\ vrt_width vrt = padded_width /\ vrt_height vrt = padded_height.
Proof.
  intros Hx Hy b pw ph. unfold OptimizeRasters.optimize_rasters_tile.
  erewrite bind_ok by (by apply py_div_ok).
  erewrite bind_ok by (by apply py_div_ok).
  match goal with |- context [from_bounds ?w ?s ?e ?n ?wd ?ht] =>
    destruct (from_bounds_ok w s e n wd ht st) as [fb Hfb]; [lia | lia |]
  end.
  erewrite bind_ok by exact Hfb.
  erewrite bind_ok by apply open_vrt_run.
  erewrite bind_ok by apply emit_run.
  match goal with |- context [trace (?m ?s).1] =>
    assert (appends m) as Happ by solve_appends;
    destruct (Happ s) as [rest Hrest]
  end.
  eexists _, rest. split.
  - etransitivity; [exact Hrest|].
    cbn [fs trace vrt_width vrt_height default]. rewrite <- !app_assoc.
    reflexivity.
  - split; reflexivity.
Qed.

End SingleRaster.

Lemma in_memory_decided_by_size_alone_witness :
  exists vrt profile rest,
    Engine.trace
      (OptimizeRasters.optimize_rasters_tile Sample.pixel_bytes
         Sample.vrt_profile Sample.vrt_read Sample.block_windows
         Sample.coarse "coarse" "out/coarse" true Engine.nearest "DEFLATE"
         (0.25, 0.25)%Q (Some false) (Flinttile.MkTile 180 89)
         Sample.fresh).1
    = Engine.EvWarpedVRT vrt
        :: Engine.EvOpenDst (Engine.MemoryDst profile) :: rest.
Proof.
  destruct (in_memory_decided_by_size_alone Sample.pixel_bytes
              Sample.vrt_profile Sample.vrt_read Sample.block_windows
              Sample.coarse "coarse" "out/coarse" true Engine.nearest
              "DEFLATE" (0.25, 0.25)%Q (Some false)
              (Flinttile.MkTile 180 89) Sample.fresh)
    as (vrt & rest & H & _).
  - unfold Qeq. simpl. lia.
  - unfold Qeq. simpl. lia.
  - exists vrt, (Engine.FLINT_TILE_PROFILE ∪ Sample.vrt_profile vrt), rest.
    exact H.
Defined.

(** ** Block sizes of the stack pipeline *)

Section BlockSize.
Import PyNum.

Lemma Qfloor_unit_interval (v : Q) : (0 <= v)%Q -> (v < 1)%Q -> Qfloor v = 0.
Proof.
  intros H0 H1.
  pose proof (Qfloor_le v) as Hlo. pose proof (Qlt_floor v) as Hhi.
  assert (inject_Z (Qfloor v) < inject_Z 1)%Q as Ha
    by (change (inject_Z 1) with 1%Q; lra).
  assert (inject_Z 0 < inject_Z (Qfloor v + 1))%Q as Hb
    by (change (inject_Z 0) with 0%Q; lra).
  unfold Qlt in Ha, Hb. simpl in Ha, Hb. lia.
Qed.

Lemma py_int_nonneg (v : Q) : (0 <= v)%Q -> py_int v = Qfloor v.
Proof.
  intros Hv. unfold py_int.
  by rewrite (proj2 (Qltb_false v 0) Hv).
Qed.

(** A resolution coarser than 0.1 degrees gives a block of 0 pixels. *)
Lemma block_size_zero (r : Q) :
  (0 < r)%Q -> (0.1 < r)%Q -> py_int (0.1 / r) = 0.
Proof.
  intros Hr Hc.
  assert (0 < 0.1 / r)%Q as Hpos by (apply Qlt_shift_div_l; lra).
  assert (0.1 / r < 1)%Q as Hlt by (apply Qlt_shift_div_r; lra).
  rewrite py_int_nonneg by lra. apply Qfloor_unit_interval; lra.
Qed.

(** A resolution of at most 0.1 degrees gives a block of at least 1 pixel. *)
Lemma block_size_positive (r : Q) :
  (0 < r)%Q -> (r <= 0.1)%Q -> 1 <= py_int (0.1 / r).
Proof.
  intros Hr Hc.
  assert (1 <= 0.1 / r)%Q as Hge by (apply Qle_shift_div_l; lra).
  rewrite py_int_nonneg by lra.
  change 1 with (Qfloor 1%Q). by apply Qfloor_resp_le.
Qed.

Lemma Qabs_of_positive (r : Q) : (0 < r)%Q -> Qabs r = r.
Proof.
  destruct r as [n d]. unfold Qlt, Qabs. simpl. intros H.
  f_equal. lia.
Qed.

Lemma range_first (stop step : Z) :
  1 <= stop -> 1 <= step ->
  exists rest, py_range_step 0 stop step = Some (0 :: rest).
Proof.
  intros Hstop Hstep. unfold py_range_step, range_len.
  rewrite (proj2 (Z.eqb_neq step 0)) by lia.
  rewrite (proj2 (Z.ltb_lt 0 step)) by lia.
  assert (1 <= (stop - 0 + step - 1) / step) as Hlen.
  { apply Z.div_le_lower_bound; lia. }
  rewrite seqZ_cons by lia. by eexists.
Qed.

End BlockSize.

(** ** The stack pipeline *)

Section RasterStack.
Import PyNum Flinttile Engine PipelineSpec.

Context {pixel : Type}.
Variable pixel_bytes : pixel -> list Byte.byte.
Variable vrt_read : WarpedVRT -> Window -> option (Z * Z) -> list (list pixel).

#[local] Abbreviation stack_tile_body :=
  (OptimizeRasterstack.optimize_rasterstack_tile pixel_bytes vrt_read).

Lemma read_layers_run (rasters : list DatasetReader) (rs : Resampling)
    (tr : Affine.t) (w h : Z) (win : Window) (shape : Z * Z) (st : state) :
  OptimizeRasterstack.read_layers vrt_read rasters rs tr w h win shape st
  = (MkState (fs st) (trace st ++ layer_events rasters rs tr w h win shape),
     inr ((fun layer =>
             vrt_read (MkWarpedVRT (Source layer) _TARGET_CRS rs tr w h) win
               (Some shape)) <$> rasters)).
Proof.
  revert st. induction rasters as [|layer rasters IH]; intros st.
  - destruct st. simpl. unfold ret. by rewrite app_nil_r.
  - cbn [OptimizeRasterstack.read_layers].
    erewrite bind_ok by apply open_vrt_run.
    erewrite bind_ok by apply emit_run.
    erewrite bind_ok by apply IH.
    unfold ret, layer_events. rewrite bind_cons. cbn [fs trace fmap list_fmap].
    by rewrite <- !app_assoc.
Qed.

Lemma layer_events_reads (rasters : list DatasetReader) (rs : Resampling)
    (tr : Affine.t) (w h : Z) (win : Window) (shape : Z * Z) :
  length (List.filter is_read (layer_events rasters rs tr w h win shape))
  = length rasters.
Proof.
  unfold layer_events. induction rasters as [|layer rasters IH]; [done|].
  rewrite bind_cons. simpl. by rewrite IH.
Qed.

Lemma layer_events_read (rasters : list DatasetReader) (rs : Resampling)
    (tr : Affine.t) (w h : Z) (win : Window) (shape : Z * Z) (layer : DatasetReader) :
  layer ∈ rasters ->
  EvRead (MkWarpedVRT (Source layer) _TARGET_CRS rs tr w h) win (Some shape)
    ∈ layer_events rasters rs tr w h win shape.
Proof.
  intros Hin. unfold layer_events. apply list_elem_of_bind.
  exists layer. split; [|done]. set_solver.
Qed.

(** C3. In the stack pipeline an output conflict on a tile's block file is
    raised only after the warped pixels of every layer have been read for
    that tile: when the file exists and overwrite was not requested, the run
    of the tile ends in [BadParameter] with one read per layer in the trace;
    no byte has been written. *)
Theorem stack_conflict_after_reads (rasters : list DatasetReader)
    (raster_name raster_folder : string) (rs_method : Resampling)
    (dst_res : Q * Q) (tile : Tile) (st : state) :
  ~ (dst_res.1 == 0)%Q -> ~ (dst_res.2 == 0)%Q ->
  is_Some (fs st !! blk_path raster_folder raster_name tile) ->
  exists tr w h win shape msg,
    stack_tile_body rasters raster_name raster_folder false rs_method
      dst_res tile st
    = (MkState (fs st)
         (trace st ++ layer_events rasters rs_method tr w h win shape),
       inl (BadParameter msg))
    /\ length (List.filter is_read
                 (layer_events rasters rs_method tr w h win shape))
       = length rasters
    /\ (forall layer, layer ∈ rasters ->
          EvRead (MkWarpedVRT (Source layer) _TARGET_CRS rs_method tr w h)
            win (Some shape)
          ∈ layer_events rasters rs_method tr w h win shape).
Proof.
  intros Hx Hy Hfile. unfold OptimizeRasterstack.optimize_rasterstack_tile.
  assert (~ (Qabs dst_res.2 == 0)%Q) as Hy'.
  { intros H. apply Hy. destruct (proj1 (Qabs_Qle_condition dst_res.2 0)).
    - rewrite H. lra.
    - lra. }
  do 4 (erewrite bind_ok by (by apply py_div_ok)).
  match goal with |- context [from_bounds ?w ?s ?e ?n ?wd ?ht] =>
    destruct (from_bounds_ok w s e n wd ht st) as [fb Hfb]; [lia | lia |]
  end.
  erewrite bind_ok by exact Hfb.
  erewrite bind_ok by apply read_layers_run.
  erewrite bind_ok by reflexivity.
  cbn [fs trace negb andb].
  fold (blk_path raster_folder raster_name tile).
  rewrite bool_decide_eq_true_2 by exact Hfile.
  eexists _, _, _, _, _, _. split; [reflexivity|].
  split; [apply layer_events_reads | intros; by apply layer_events_read].
Qed.

Lemma range_m_zero (stop : Z) (st : state) :
  OptimizeRasterstack.range_m stop 0 st = (st, inl range_step_zero).
Proof. reflexivity. Qed.

Lemma range_m_first (stop step : Z) (st : state) :
  1 <= stop -> 1 <= step ->
  exists rest, OptimizeRasterstack.range_m stop step st = (st, inr (0 :: rest)).
Proof.
  intros Hstop Hstep. unfold OptimizeRasterstack.range_m.
  destruct (range_first stop step Hstop Hstep) as [rest ->]. by exists rest.
Qed.

(** With blocks of at least one pixel the loops over the sub-blocks run to
    their end. *)
Lemma sub_block_loops_ok (tile_stack : list (list (list pixel)))
    (output_file : string) (dst_width dst_height block_width block_height : Z)
    (st : state) :
  1 <= dst_width -> 1 <= dst_height -> 1 <= block_width -> 1 <= block_height ->
  exists st',
    bind (OptimizeRasterstack.range_m dst_height block_height) (fun rows =>
      for_each rows (fun row =>
        bind (OptimizeRasterstack.range_m dst_width block_width) (fun cols =>
          for_each cols (fun col =>
            file_write output_file
              (OptimizeRasterstack.array_bytes pixel_bytes
                 ((fun plane =>
                     OptimizeRasterstack.py_slice plane row (row + block_height))
                  <$> OptimizeRasterstack.py_slice tile_stack col
                        (col + block_width))))))) st
    = (st', inr tt).
Proof.
  intros Hw Hh Hbw Hbh.
  destruct (range_m_first dst_height block_height st Hh Hbh) as [rows Hrows].
  erewrite bind_ok by exact Hrows.
  apply for_each_ok. intros row st1.
  destruct (range_m_first dst_width block_width st1 Hw Hbw) as [cols Hcols].
  erewrite bind_ok by exact Hcols.
  apply for_each_ok. intros col st2. by eexists.
Qed.

(** C10. The sub-block sizes of the stack pipeline are
    int(0.1 / resolution) per axis.  For a positive resolution that exceeds
    0.1 degrees on some axis, the block width or the block height is 0 and
    the tile ends in the [ValueError] of a [range] with step 0, the block
    file just opened being left empty; for a resolution of at most 0.1
    degrees on both axes both sizes are at least 1 and the sub-block loops
    complete. *)
Theorem stack_blocks_need_fine_resolution (rasters : list DatasetReader)
    (raster_name raster_folder : string) (overwrite : bool)
    (rs_method : Resampling) (rx ry : Q) (tile : Tile) (st : state) :
  (0 < rx)%Q -> (0 < ry)%Q ->
  overwrite = true \/ fs st !! blk_path raster_folder raster_name tile = None ->
  let block_width := py_int (0.1 / rx) in
  let block_height := py_int (0.1 / Qabs ry) in
  let run :=
    stack_tile_body rasters raster_name raster_folder overwrite rs_method
      (rx, ry) tile st in
  ((0.1 < rx)%Q \/ (0.1 < ry)%Q ->
     (block_width = 0 \/ block_height = 0)
     /\ run.2 = inl range_step_zero
     /\ fs run.1 = <[blk_path raster_folder raster_name tile := []]> (fs st))
  /\ ((rx <= 0.1)%Q /\ (ry <= 0.1)%Q ->
      1 <= block_width /\ 1 <= block_height /\ run.2 = inr tt).
Proof.
  intros Hrx Hry Hfree block_width block_height run.
  assert (Qabs ry = ry) as Habs by (by apply Qabs_of_positive).
  subst run. unfold OptimizeRasterstack.optimize_rasterstack_tile.
  cbn [fst snd]. rewrite Habs.
  do 4 (erewrite bind_ok by (apply py_div_ok; lra)).
  match goal with |- context [from_bounds ?w ?s ?e ?n ?wd ?ht] =>
    destruct (from_bounds_ok w s e n wd ht st) as [fb Hfb]; [lia | lia |]
  end.
  erewrite bind_ok by exact Hfb.
  erewrite bind_ok by apply read_layers_run.
  erewrite bind_ok by reflexivity.
  cbn [fs trace].
  fold (blk_path raster_folder raster_name tile).
  assert (negb overwrite
          && bool_decide (is_Some (fs st !! blk_path raster_folder raster_name tile))
          = false) as ->.
  { destruct Hfree as [-> | Hnone]; [done|].
    rewrite Hnone, bool_decide_eq_false_2; [by rewrite andb_false_r|].
    by intros [? ?]. }
  erewrite bind_ok by reflexivity.
  subst block_width block_height. rewrite Habs.
  set (bw := py_int (0.1 / rx)). set (bh := py_int (0.1 / ry)).
  match goal with |- context [bind (OptimizeRasterstack.range_m ?dh bh) _ ?s] =>
    set (dst_height := dh); set (st2 := s)
  end.
  match goal with |- context [OptimizeRasterstack.range_m ?dw bw] =>
    set (dst_width := dw)
  end.
  assert (1 <= dst_width) as Hdw by (subst dst_width; lia).
  assert (1 <= dst_height) as Hdh by (subst dst_height; lia).
  split.
  - intros Hcoarse.
    assert (bw = 0 \/ (1 <= bh /\ bw = 0) \/ bh = 0) as Hzero.
    { destruct (Qlt_le_dec 0.1 ry) as [Hy|Hy].
      - right. right. by apply block_size_zero.
      - destruct Hcoarse as [Hx|Hy']; [|lra].
        right. left. split; [by apply block_size_positive|].
        by apply block_size_zero. }
    split; [lia|].
    destruct (decide (bh = 0)) as [Hbh|Hbh].
    + rewrite Hbh. erewrite bind_err by apply range_m_zero. done.
    + assert (1 <= bh /\ bw = 0) as [Hbh1 Hbw].
      { destruct (Qlt_le_dec 0.1 ry) as [Hy|Hy].
        - exfalso. apply Hbh. by apply block_size_zero.
        - split; [by apply block_size_positive|].
          destruct Hcoarse as [Hx|Hy']; [by apply block_size_zero | lra]. }
      destruct (range_m_first dst_height bh st2 Hdh Hbh1) as [rows Hrows].
      erewrite bind_ok by exact Hrows. cbn [for_each].
      rewrite Hbw.
      erewrite bind_err
        by (erewrite bind_err by apply range_m_zero; reflexivity).
      done.
  - intros [Hx Hy].
    assert (1 <= bw) as Hbw by (by apply block_size_positive).
    assert (1 <= bh) as Hbh by (by apply block_size_positive).
    split; [done|]. split; [done|].
    edestruct (sub_block_loops_ok) as [st' Hrun];
      [exact Hdw | exact Hdh | exact Hbw | exact Hbh |].
    by erewrite Hrun.
Qed.

End RasterStack.

Lemma stack_conflict_after_reads_witness :
  exists st' msg,
    OptimizeRasterstack.optimize_rasterstack_tile Sample.pixel_bytes
      Sample.vrt_read [Sample.coarse; Sample.coarse] "s" "out/s" false
      Engine.nearest (0.25, 0.25)%Q (Flinttile.MkTile 180 89)
      Sample.with_block_file
    = (st', inl (Engine.BadParameter msg))
    /\ Engine.fs st' = Engine.fs Sample.with_block_file
    /\ length (List.filter PipelineSpec.is_read (Engine.trace st')) = 2%nat.
Proof.
  destruct (stack_conflict_after_reads Sample.pixel_bytes Sample.vrt_read
              [Sample.coarse; Sample.coarse] "s" "out/s" Engine.nearest
              (0.25, 0.25)%Q (Flinttile.MkTile 180 89) Sample.with_block_file)
    as (tr & w & h & win & shape & msg & Hrun & Hcount & _).
  - unfold Qeq. simpl. lia.
  - unfold Qeq. simpl. lia.
  - exists [Byte.x01]. vm_compute. reflexivity.
  - eexists _, msg. split; [exact Hrun|]. split; [reflexivity|].
    exact Hcount.
Defined.

Lemma stack_blocks_need_fine_resolution_witness :
  (OptimizeRasterstack.optimize_rasterstack_tile Sample.pixel_bytes
     Sample.vrt_read [Sample.coarse] "s" "out/s" false Engine.nearest
     (0.25, 0.25)%Q (Flinttile.MkTile 180 89) Sample.fresh).2
  = inl PipelineSpec.range_step_zero
  /\ (OptimizeRasterstack.optimize_rasterstack_tile Sample.pixel_bytes
        Sample.vrt_read [Sample.fine] "s" "out/s" false Engine.nearest
        (0.05, 0.05)%Q (Flinttile.MkTile 180 89) Sample.fresh).2
     = inr tt.
Proof.
  split.
  - destruct (stack_blocks_need_fine_resolution Sample.pixel_bytes
                Sample.vrt_read [Sample.coarse] "s" "out/s" false
                Engine.nearest 0.25 0.25 (Flinttile.MkTile 180 89)
                Sample.fresh) as [Hcoarse _].
    + unfold Qlt. simpl. lia.
    + unfold Qlt. simpl. lia.
    + right. vm_compute. reflexivity.
    + destruct Hcoarse as (_ & H & _); [left; unfold Qlt; simpl; lia|].
      exact H.
  - destruct (stack_blocks_need_fine_resolution Sample.pixel_bytes
                Sample.vrt_read [Sample.fine] "s" "out/s" false
                Engine.nearest 0.05 0.05 (Flinttile.MkTile 180 89)
                Sample.fresh) as [_ Hfine].
    + unfold Qlt. simpl. lia.
    + unfold Qlt. simpl. lia.
    + right. vm_compute. reflexivity.
    + destruct Hfine as (_ & _ & H); [split; unfold Qle; simpl; lia|].
      exact H.
Defined.

(** The same tile of the same source in the single-raster pipeline: the
    conflict is raised with no read in the trace. *)
Example single_conflict_example :
  let run :=
    OptimizeRasters.optimize_rasters_tile Sample.pixel_bytes
      Sample.vrt_profile Sample.vrt_read Sample.block_windows Sample.coarse
      "s" "out/s" false Engine.nearest "DEFLATE" (0.25, 0.25)%Q None
      (Flinttile.MkTile 180 89) Sample.with_block_file in
  (exists msg, run.2 = inl (Engine.BadParameter msg))
  /\ Engine.fs run.1 !! "out/s/s_000_001.blk"%string = Some [Byte.x01]
  /\ List.filter PipelineSpec.is_pixel_work (Engine.trace run.1) = [].
Proof.
  vm_compute. split; [by eexists | split; reflexivity].
Qed.

(** Stack of two layers, fine enough for blocks of two pixels: the block
    file holds width x height x layers samples. *)
Example stack_block_file_example :
  let run :=
    OptimizeRasterstack.optimize_rasterstack_tile Sample.pixel_bytes
      Sample.vrt_read [Sample.fine; Sample.fine] "s" "out/s" false
      Engine.nearest (0.05, 0.05)%Q (Flinttile.MkTile 180 89) Sample.fresh in
  run.2 = inr tt
  /\ length <$> (Engine.fs run.1 !! "out/s/s_000_001.blk"%string)
     = Some (20 * 20 * 2)%nat.
Proof. vm_compute. split; reflexivity. Qed.

(** A whole run of each script on the sample engine. *)
Example optimize_rasters_example :
  let run :=
    OptimizeRasters.optimize_rasters Sample.pixel_bytes Sample.warp_transform
      Sample.warp_transform_bounds Sample.vrt_profile Sample.vrt_read
      Sample.block_windows Sample.layer_info [("coarse"%string, Sample.coarse)]
      "out" false Engine.nearest None "DEFLATE" Sample.fresh in
  run.2 = inr tt
  /\ size (Engine.fs run.1) = 5%nat
  /\ (fun path => length <$> Engine.fs run.1 !! path)
       <$> ["out/coarse/coarse.json"; "out/coarse/coarse_000_001.blk";
            "out/coarse/coarse_000_002.blk"; "out/coarse/coarse_001_001.blk";
            "out/coarse/coarse_001_002.blk"]%string
     = Some <$> [2; 16; 16; 16; 16]%nat.
Proof. vm_compute. repeat split. Qed.

Example optimize_rasterstack_example :
  let run :=
    OptimizeRasterstack.optimize_rasterstack Sample.pixel_bytes
      Sample.warp_transform Sample.warp_transform_bounds Sample.vrt_read
      Sample.layer_info [Sample.fine; Sample.fine] "s" "out" false
      Engine.nearest Sample.fresh in
  run.2 = inr tt
  /\ size (Engine.fs run.1) = 2%nat
  /\ (fun path => length <$> Engine.fs run.1 !! path)
       <$> ["out/s/s.json"; "out/s/s_000_001.blk"]%string
     = Some <$> [2; 800]%nat.
Proof. vm_compute. repeat split. Qed.

(** * Further properties *)

(** ** Tiles and their bounds *)

Section TileGridMoreFacts.
Import PyNum Flinttile TileGridSpec TileGridMore.

(** X1. The bounds of a tile are a square of one degree, anchored at
    (x - 180, 90 - y); the tile to the east starts where it ends and the tile
    to the south starts where it ends. *)
Theorem bounds_unit_square_adjoining (t : Tile) :
  (west (bounds t) == inject_Z (x t) - 180)%Q
  /\ (north (bounds t) == 90 - inject_Z (y t))%Q
  /\ (east (bounds t) - west (bounds t) == 1)%Q
  /\ (north (bounds t) - south (bounds t) == 1)%Q
  /\ east (bounds t) = west (bounds (MkTile (x t + 1) (y t)))
  /\ south (bounds t) = north (bounds (MkTile (x t) (y t + 1))).
Proof.
  destruct t as [tx ty]. unfold bounds, ul. cbn [x y lng lat west south east north].
  rewrite !inject_Z_plus. change (inject_Z 1) with 1%Q.
  repeat split; ring.
Qed.

Lemma Qfloor_add_int (v : Q) (k : Z) : Qfloor (v + inject_Z k) = Qfloor v + k.
Proof.
  pose proof (Qfloor_le v) as H1. pose proof (Qlt_floor v) as H2.
  pose proof (Qfloor_le (v + inject_Z k)) as H3.
  pose proof (Qlt_floor (v + inject_Z k)) as H4.
  rewrite inject_Z_plus in H2, H4. change (inject_Z 1) with 1%Q in *.
  assert (inject_Z (Qfloor (v + inject_Z k)) < inject_Z (Qfloor v + k + 1))%Q as Ha.
  { rewrite !inject_Z_plus; change (inject_Z 1) with 1%Q.
    generalize dependent (inject_Z (Qfloor (v + inject_Z k))).
    generalize dependent (inject_Z (Qfloor v)). generalize (inject_Z k).
    intros. lra. }
  assert (inject_Z (Qfloor v + k) < inject_Z (Qfloor (v + inject_Z k) + 1))%Q as Hb.
  { rewrite !inject_Z_plus; change (inject_Z 1) with 1%Q.
    generalize dependent (inject_Z (Qfloor (v + inject_Z k))).
    generalize dependent (inject_Z (Qfloor v)). generalize (inject_Z k).
    intros. lra. }
  rewrite <- Zlt_Qlt in Ha, Hb. lia.
Qed.

Lemma tile_floor (lng lat : Q) :
  tile lng lat = MkTile (Qfloor lng + 180) (90 - Qfloor lat).
Proof.
  unfold tile, py_floor. f_equal.
  - change 180%Q with (inject_Z 180). apply Qfloor_add_int.
  - replace (lat - 90)%Q with (lat + inject_Z (-90))%Q by reflexivity.
    rewrite Qfloor_add_int. lia.
Qed.

(** X2. [tile] gives the tile whose upper left corner is the point with
    both coordinates rounded down: the longitude lies in the tile, west edge
    included, and the latitude lies on its north edge or less than one
    degree above it. *)
Theorem ul_of_tile_floors (lng lat : Q) :
  let t := tile lng lat in
  (Flinttile.lng (ul t) == inject_Z (Qfloor lng))%Q
  /\ (Flinttile.lat (ul t) == inject_Z (Qfloor lat))%Q
  /\ (west (bounds t) <= lng < east (bounds t))%Q
  /\ (north (bounds t) <= lat < north (bounds t) + 1)%Q.
Proof.
  intros t. subst t. rewrite tile_floor.
  unfold bounds, ul. cbn [x y Flinttile.lng Flinttile.lat west south east north].
  pose proof (Qfloor_le lng). pose proof (Qlt_floor lng) as Hx.
  pose proof (Qfloor_le lat). pose proof (Qlt_floor lat) as Hy.
  rewrite !inject_Z_plus in *. unfold Z.sub. rewrite !inject_Z_plus, !inject_Z_opp.
  change (inject_Z 1) with 1%Q in *. change (inject_Z 180) with 180%Q.
  change (inject_Z 90) with 90%Q.
  repeat split; try ring; lra.
Qed.

Lemma first_column_inside (w : Q) :
  (-180 <= w)%Q -> first_column w = Qfloor w + 180.
Proof.
  intros Hw. unfold first_column.
  rewrite (Qfloor_comp _ (w + inject_Z 180)).
  - rewrite Qfloor_add_int.
    assert (-180 <= Qfloor w); [|lia].
    change (-180) with (Qfloor (-180)%Q). by apply Qfloor_resp_le.
  - rewrite (Q.max_r _ _ Hw). reflexivity.
Qed.

Lemma end_column_inside (e : Q) :
  (e <= 180)%Q -> end_column e = Qfloor e + 180.
Proof.
  intros He. unfold end_column.
  rewrite (Qfloor_comp _ (e + inject_Z 180)); [apply Qfloor_add_int|].
  rewrite (Q.min_r _ _ He). reflexivity.
Qed.

Lemma first_row_inside (n : Q) :
  (n <= 90)%Q -> first_row n = 90 - Qfloor n.
Proof.
  intros Hn. unfold first_row.
  rewrite (Qfloor_comp _ (n + inject_Z (-90))).
  - rewrite Qfloor_add_int.
    assert (Qfloor n <= 90); [|lia].
    change 90 with (Qfloor 90%Q). by apply Qfloor_resp_le.
  - rewrite (Q.min_r _ _ Hn). reflexivity.
Qed.

Lemma end_row_inside (s : Q) :
  (-90 <= s)%Q -> end_row s = 90 - Qfloor s.
Proof.
  intros Hs. unfold end_row.
  rewrite (Qfloor_comp _ (s + inject_Z (-90))).
  - rewrite Qfloor_add_int. lia.
  - rewrite (Q.max_r _ _ Hs). reflexivity.
Qed.

Lemma Qle_inject_Z (a b : Z) : (inject_Z a <= inject_Z b)%Q <-> a <= b.
Proof. by rewrite <- Zle_Qle. Qed.

(** X3. For a box inside the globe that does not wrap, the tiles yielded
    are exactly those whose bounds lie in the box with every edge rounded
    down to a whole degree. *)
Theorem tiles_are_those_within_floored_box (w s e n : Q) (t : Tile) :
  (-180 <= w)%Q -> (w <= e)%Q -> (e <= 180)%Q ->
  (-90 <= s)%Q -> (n <= 90)%Q ->
  t ∈ tiles w s e n
  <-> bbox_within (bounds t) (inject_Z (Qfloor w)) (inject_Z (Qfloor s))
        (inject_Z (Qfloor e)) (inject_Z (Qfloor n)).
Proof.
  intros Hw Hwe He Hs Hn.
  rewrite (tiles_one_box _ _ _ _ Hwe), elem_of_sub_box_tiles.
  rewrite sub_box_range_unfold.
  rewrite first_column_inside, end_column_inside, first_row_inside,
    end_row_inside by lra.
  destruct t as [tx ty]. unfold bbox_within, bounds, ul.
  cbn [x y lng lat west south east north].
  assert (inject_Z tx - 180 == inject_Z (tx - 180))%Q as ->
    by (unfold Z.sub; rewrite inject_Z_plus, inject_Z_opp; reflexivity).
  assert (inject_Z (tx + 1) - 180 == inject_Z (tx + 1 - 180))%Q as ->
    by (unfold Z.sub; rewrite !inject_Z_plus, inject_Z_opp; reflexivity).
  assert (- (inject_Z (ty + 1) - 90) == inject_Z (90 - (ty + 1)))%Q as ->
    by (unfold Z.sub; rewrite !inject_Z_plus, !inject_Z_opp, !inject_Z_plus;
        change (inject_Z 90) with 90%Q; ring).
  assert (- (inject_Z ty - 90) == inject_Z (90 - ty))%Q as ->
    by (unfold Z.sub; rewrite !inject_Z_plus, !inject_Z_opp;
        change (inject_Z 90) with 90%Q; ring).
  rewrite !Qle_inject_Z. lia.
Qed.

Lemma tiles_are_those_within_floored_box_witness :
  MkTile 180 89 ∈ tiles 0.5 0.5 1.5 1.5
  /\ MkTile 181 89 ∉ tiles 0.5 0.5 1.5 1.5.
Proof.
  split.
  - apply (tiles_are_those_within_floored_box 0.5 0.5 1.5 1.5 (MkTile 180 89));
      try (unfold Qle; simpl; lia).
    vm_compute. repeat split; discriminate.
  - intros Hin.
    apply (tiles_are_those_within_floored_box 0.5 0.5 1.5 1.5 (MkTile 181 89))
      in Hin; try (unfold Qle; simpl; lia).
    destruct Hin as (_ & Hin & _). vm_compute in Hin. by apply Hin.
Defined.

Lemma Qfloor_int_shift (k c : Z) : Qfloor (inject_Z k - inject_Z c) = k - c.
Proof.
  rewrite (Qfloor_comp _ (inject_Z (k - c))); [apply Qfloor_Z|].
  unfold Z.sub. rewrite inject_Z_plus, inject_Z_opp. reflexivity.
Qed.

(** X4. The bounds of a tile of the grid, given back to [tiles], yield
    that tile and no other. *)
Theorem tiles_of_bounds (t : Tile) :
  in_grid t ->
  tiles (west (bounds t)) (south (bounds t)) (east (bounds t)) (north (bounds t))
  = [t].
Proof.
  intros [Hx Hy]. destruct t as [tx ty]. cbn [x y] in Hx, Hy.
  unfold bounds, ul. cbn [x y lng lat west south east north].
  assert (inject_Z tx - 180 == inject_Z (tx - 180))%Q as Ew
    by (unfold Z.sub; rewrite inject_Z_plus, inject_Z_opp; reflexivity).
  assert (inject_Z (tx + 1) - 180 == inject_Z (tx + 1 - 180))%Q as Ee
    by (unfold Z.sub; rewrite !inject_Z_plus, inject_Z_opp; reflexivity).
  assert (- (inject_Z (ty + 1) - 90) == inject_Z (90 - (ty + 1)))%Q as Es
    by (unfold Z.sub; rewrite !inject_Z_plus, !inject_Z_opp, !inject_Z_plus;
        change (inject_Z 90) with 90%Q; ring).
  assert (- (inject_Z ty - 90) == inject_Z (90 - ty))%Q as En
    by (unfold Z.sub; rewrite !inject_Z_plus, !inject_Z_opp;
        change (inject_Z 90) with 90%Q; ring).
  rewrite tiles_one_box by (rewrite Ew, Ee, Qle_inject_Z; lia).
  unfold sub_box_tiles. rewrite sub_box_range_unfold.
  rewrite first_column_inside, end_column_inside, first_row_inside,
    end_row_inside;
    [| rewrite Es; change (-90)%Q with (inject_Z (-90)); rewrite Qle_inject_Z; lia
     | rewrite En; change 90%Q with (inject_Z 90); rewrite Qle_inject_Z; lia
     | rewrite Ee; change 180%Q with (inject_Z 180); rewrite Qle_inject_Z; lia
     | rewrite Ew; change (-180)%Q with (inject_Z (-180)); rewrite Qle_inject_Z; lia ].
  rewrite (Qfloor_comp _ _ Ew), (Qfloor_comp _ _ Ee), (Qfloor_comp _ _ Es),
    (Qfloor_comp _ _ En), !Qfloor_Z.
  replace (Z.to_nat (tx + 1 - 180 + 180 - (tx - 180 + 180))) with 1%nat by lia.
  replace (Z.to_nat (90 - (90 - (ty + 1)) - (90 - (90 - ty)))) with 1%nat by lia.
  simpl. do 2 f_equal; lia.
Qed.

Lemma tiles_of_bounds_witness :
  in_grid (MkTile 359 179)
  /\ tiles 179 (-90) 180 (-89) = [MkTile 359 179].
Proof.
  assert (in_grid (MkTile 359 179)) as H by (unfold in_grid; simpl; lia).
  split; [exact H|]. exact (tiles_of_bounds (MkTile 359 179) H).
Defined.

Lemma elem_of_NoDup_column (i j0 : Z) (n : nat) : NoDup (column i j0 n).
Proof.
  revert j0. induction n as [|n IH]; intros j0; simpl; constructor; [|apply IH].
  rewrite elem_of_column. simpl. lia.
Qed.

Lemma NoDup_block (i0 : Z) (m : nat) (j0 : Z) (n : nat) :
  NoDup (block i0 m j0 n).
Proof.
  revert i0. induction m as [|m IH]; intros i0; simpl; [constructor|].
  apply NoDup_app. split; [apply elem_of_NoDup_column|]. split; [|apply IH].
  intros t Ht1 Ht2. apply elem_of_column in Ht1. apply elem_of_block in Ht2.
  lia.
Qed.

Lemma end_column_le_first (e w : Q) :
  (e < w)%Q -> end_column e <= first_column w.
Proof.
  intros Hew. unfold end_column, first_column.
  assert (Qfloor (Qmin 180 e + 180) <= Qfloor (Qmax (-180) w + 180)); [|lia].
  apply Qfloor_resp_le.
  pose proof (Q.le_min_r 180 e). pose proof (Q.le_max_r (-180) w). lra.
Qed.

Lemma NoDup_tiles (w s e n : Q) : NoDup (tiles w s e n).
Proof.
  destruct (Qlt_le_dec e w) as [Hwrap|Hone].
  - rewrite (tiles_two_boxes _ _ _ _ Hwrap). apply NoDup_app.
    split; [apply NoDup_block|]. split; [|apply NoDup_block].
    intros t H1 H2. apply elem_of_sub_box_tiles in H1, H2.
    rewrite sub_box_range_unfold in H1, H2.
    pose proof (end_column_le_first e w Hwrap). lia.
  - rewrite (tiles_one_box _ _ _ _ Hone). apply NoDup_block.
Qed.

Lemma tiles_within_grid (w s e n : Q) (t : Tile) :
  t ∈ tiles w s e n -> in_grid t.
Proof.
  intros Ht. destruct (Qlt_le_dec e w) as [Hwrap|Hone].
  - rewrite (tiles_two_boxes _ _ _ _ Hwrap) in Ht.
    apply elem_of_app in Ht as [Ht|Ht]; by apply sub_box_within_grid in Ht.
  - rewrite (tiles_one_box _ _ _ _ Hone) in Ht.
    by apply sub_box_within_grid in Ht.
Qed.

Lemma NoDup_fmap_on {A B} (g : A -> B) (l : list A) :
  (forall a b, a ∈ l -> b ∈ l -> g a = g b -> a = b) ->
  NoDup l -> NoDup (g <$> l).
Proof.
  intros Hinj Hnd. induction Hnd as [|v l Hv Hnd IH]; [constructor|].
  rewrite fmap_cons. constructor.
  - intros Hin. apply list_elem_of_fmap in Hin as (b & Heq & Hb).
    apply Hinj in Heq; [by subst | by left | by right].
  - apply IH. intros a b Ha Hb. apply Hinj; by right.
Qed.

(** X5. [tiles] never yields a tile twice, also when the box wraps the
    antimeridian and is enumerated as two sub-boxes; so no tile index
    comes twice either. *)
Theorem tiles_NoDup (w s e n : Q) :
  NoDup (tiles w s e n) /\ NoDup (index <$> tiles w s e n).
Proof.
  split; [apply NoDup_tiles|].
  apply NoDup_fmap_on; [|apply NoDup_tiles].
  intros a b Ha Hb Heq.
  apply tiles_within_grid in Ha as [? ?], Hb as [? ?].
  destruct a as [ax ay], b as [bx b_y]. unfold index in Heq.
  cbn [x y] in *. f_equal; lia.
Qed.

Lemma length_column (i j0 : Z) (n : nat) : length (column i j0 n) = n.
Proof. revert j0. induction n as [|n IH]; intros j0; simpl; by rewrite ?IH. Qed.

Lemma length_block (i0 : Z) (m : nat) (j0 : Z) (n : nat) :
  length (block i0 m j0 n) = (m * n)%nat.
Proof.
  revert i0. induction m as [|m IH]; intros i0; simpl; [done|].
  by rewrite length_app, length_column, IH.
Qed.

(** X6. A box with edges on whole degrees, inside the globe and not
    wrapping, yields one tile per square degree: (east - west) times
    (north - south) tiles, and none when north is not above south. *)
Theorem tiles_count_whole_degrees (W S E N : Z) :
  -180 <= W -> W <= E -> E <= 180 -> -90 <= S -> N <= 90 ->
  Z.of_nat (length (tiles (inject_Z W) (inject_Z S) (inject_Z E) (inject_Z N)))
  = (E - W) * Z.max 0 (N - S).
Proof.
  intros HW HWE HE HS HN.
  rewrite tiles_one_box by (by apply Qle_inject_Z).
  unfold sub_box_tiles. rewrite sub_box_range_unfold, length_block.
  rewrite first_column_inside, end_column_inside, first_row_inside,
    end_row_inside;
    [| change (-90)%Q with (inject_Z (-90)); by apply Qle_inject_Z
     | change 90%Q with (inject_Z 90); by apply Qle_inject_Z
     | change 180%Q with (inject_Z 180); by apply Qle_inject_Z
     | change (-180)%Q with (inject_Z (-180)); by apply Qle_inject_Z ].
  rewrite !Qfloor_Z. nia.
Qed.

Lemma tiles_count_whole_degrees_witness :
  Z.of_nat (length (tiles (-10) (-10) 10 10)) = (10 - -10) * Z.max 0 (10 - -10).
Proof.
  apply (tiles_count_whole_degrees (-10) (-10) 10 10); lia.
Defined.

End TileGridMoreFacts.

(** ** Clamping, names and indexes *)

Section TileNamesFacts.
Import PyNum Flinttile Engine TileGridSpec TileGridMore PipelineSpec PipelineMore.

Lemma clamp_lng_range (v : Q) : (-180 <= clamp_lng v <= 180)%Q.
Proof. destruct (clamp_lng_cases v) as [[? ->]|[[? ->]|[? ->]]]; lra. Qed.

Lemma clamp_lat_range (v : Q) : (-90 <= clamp_lat v <= 90)%Q.
Proof. destruct (clamp_lat_cases v) as [[? ->]|[[? ->]|[? ->]]]; lra. Qed.

Lemma clamp_lng_inside (v : Q) : (-180 <= v <= 180)%Q -> clamp_lng v = v.
Proof.
  intros Hv. destruct (clamp_lng_cases v) as [[? E]|[[? E]|[? E]]];
    [lra | lra | exact E].
Qed.

Lemma clamp_lat_inside (v : Q) : (-90 <= v <= 90)%Q -> clamp_lat v = v.
Proof.
  intros Hv. destruct (clamp_lat_cases v) as [[? E]|[[? E]|[? E]]];
    [lra | lra | exact E].
Qed.

(** X7. [truncate_lnglat] puts a point into [-180, 180] x [-90, 90],
    leaves a point of that box as it is, and so changes nothing when applied
    twice. *)
Theorem truncate_lnglat_clamps (lng lat : Q) :
  let p := truncate_lnglat lng lat in
  (-180 <= p.1 <= 180)%Q /\ (-90 <= p.2 <= 90)%Q
  /\ truncate_lnglat p.1 p.2 = p
  /\ ((-180 <= lng <= 180)%Q -> (-90 <= lat <= 90)%Q -> p = (lng, lat)).
Proof.
  intros p. subst p.
  change (truncate_lnglat lng lat) with (clamp_lng lng, clamp_lat lat).
  cbn [fst snd].
  change (truncate_lnglat (clamp_lng lng) (clamp_lat lat))
    with (clamp_lng (clamp_lng lng), clamp_lat (clamp_lat lat)).
  split; [apply clamp_lng_range|]. split; [apply clamp_lat_range|]. split.
  - by rewrite (clamp_lng_inside _ (clamp_lng_range lng)),
      (clamp_lat_inside _ (clamp_lat_range lat)).
  - intros Hl Ha. by rewrite (clamp_lng_inside _ Hl), (clamp_lat_inside _ Ha).
Qed.

Lemma truncate_lnglat_clamps_witness :
  truncate_lnglat 200 (-100) = (180%Q, (-90)%Q)
  /\ truncate_lnglat 12.5 (-33) = (12.5%Q, (-33)%Q).
Proof.
  split; [reflexivity|].
  apply (proj2 (proj2 (proj2 (truncate_lnglat_clamps 12.5 (-33)))));
    unfold Qle; simpl; lia.
Defined.

Lemma string_app_assoc (a b c : string) : (a +:+ b) +:+ c = a +:+ b +:+ c.
Proof.
  induction a as [|ch a IH]; [done|].
  change (String ch ((a +:+ b) +:+ c) = String ch (a +:+ b +:+ c)).
  by rewrite IH.
Qed.

Lemma name_labels (t : Tile) :
  name t = lon_label (x t) +:+ "_" +:+ lat_label (y t).
Proof.
  unfold name, lon_label, lat_label, bounds, ul.
  cbn [x y lng lat west south east north].
  by rewrite !string_app_assoc.
Qed.

(** The halves of a name are found again from the name. *)
Lemma labels_split (a a' b b' : string) :
  no_underscore a = true -> no_underscore a' = true ->
  a +:+ "_" +:+ b = a' +:+ "_" +:+ b' -> a = a' /\ b = b'.
Proof.
  revert a'. induction a as [|c a IH]; intros [|c' a'] Ha Ha' Heq;
    simpl in *.
  - by injection Heq.
  - injection Heq as <- _. by rewrite andb_false_l in Ha'.
  - injection Heq as -> _. by rewrite andb_false_l in Ha.
  - injection Heq as <- Heq. apply andb_prop in Ha as [_ Ha].
    apply andb_prop in Ha' as [_ Ha'].
    destruct (IH a' Ha Ha' Heq) as [-> ->]. done.
Qed.

Lemma NoDup_fmap_inj_on {A B} (f : A -> B) (l : list A) (a a' : A) :
  NoDup (f <$> l) -> a ∈ l -> a' ∈ l -> f a = f a' -> a = a'.
Proof.
  intros Hnd Ha Ha' Heq.
  apply list_elem_of_lookup in Ha as [i Hi].
  apply list_elem_of_lookup in Ha' as [j Hj].
  assert (i = j) as ->.
  { apply (NoDup_lookup (f <$> l) i j (f a)); [done| |];
      rewrite list_lookup_fmap; [by rewrite Hi | by rewrite Hj, Heq]. }
  congruence.
Qed.

Lemma lon_labels_check :
  forallb no_underscore (lon_label <$> seqZ 0 360) = true
  /\ bool_decide (NoDup (lon_label <$> seqZ 0 360)) = true.
Proof. split; vm_compute; reflexivity. Qed.

Lemma lat_labels_check :
  bool_decide (NoDup (lat_label <$> seqZ 0 180)) = true.
Proof. vm_compute. reflexivity. Qed.

Lemma name_inj_on_grid (t1 t2 : Tile) :
  in_grid t1 -> in_grid t2 -> name t1 = name t2 -> t1 = t2.
Proof.
  intros [Hx1 Hy1] [Hx2 Hy2]. rewrite !name_labels. intros Heq.
  destruct lon_labels_check as [Hnu Hnd]. apply bool_decide_eq_true in Hnd.
  pose proof lat_labels_check as Hnd'. apply bool_decide_eq_true in Hnd'.
  rewrite forallb_forall in Hnu.
  assert (forall k, 0 <= k < 360 -> no_underscore (lon_label k) = true) as Hnu'.
  { intros k Hk. apply Hnu, list_elem_of_In, list_elem_of_fmap.
    exists k. split; [done|]. apply elem_of_seqZ. lia. }
  apply labels_split in Heq as [Elon Elat]; [|by apply Hnu'..].
  apply (NoDup_fmap_inj_on _ _ _ _ Hnd) in Elon; [|apply elem_of_seqZ; lia..].
  apply (NoDup_fmap_inj_on _ _ _ _ Hnd') in Elat; [|apply elem_of_seqZ; lia..].
  destruct t1, t2. simpl in *. congruence.
Qed.


Lemma string_app_inj_head (s a b : string) : s +:+ a = s +:+ b -> a = b.
Proof.
  induction s as [|ch s IH]; [done|].
  change (String ch (s +:+ a) = String ch (s +:+ b) -> a = b).
  intros [= H]. by apply IH.
Qed.

Lemma string_length_app (a b : string) :
  String.length (a +:+ b) = (String.length a + String.length b)%nat.
Proof.
  induction a as [|ch a IH]; [done|].
  change (S (String.length (a +:+ b)) = S (String.length a + String.length b)).
  by rewrite IH.
Qed.

Lemma string_app_inj_tail (a b s : string) : a +:+ s = b +:+ s -> a = b.
Proof.
  revert b. induction a as [|ch a IH]; intros [|ch' b] Heq.
  - done.
  - apply (f_equal String.length) in Heq.
    rewrite !string_length_app in Heq. cbn [String.length] in Heq. lia.
  - apply (f_equal String.length) in Heq.
    rewrite !string_length_app in Heq. cbn [String.length] in Heq. lia.
  - change (String ch (a +:+ s) = String ch' (b +:+ s)) in Heq.
    injection Heq as -> Heq. f_equal. by apply IH.
Qed.

(** Two tiles of the grid that share a block file are one tile. *)
Lemma blk_path_inj (raster_folder raster_name : string) (t1 t2 : Tile) :
  in_grid t1 -> in_grid t2 ->
  blk_path raster_folder raster_name t1 = blk_path raster_folder raster_name t2 ->
  t1 = t2.
Proof.
  intros H1 H2 Heq. unfold blk_path, path_join in Heq.
  do 4 apply string_app_inj_head in Heq.
  apply string_app_inj_tail in Heq. by apply name_inj_on_grid.
Qed.

(** The sidecar of a raster is no tile's block file. *)
Lemma json_path_ne_blk_path (raster_folder raster_name : string) (t : Tile) :
  json_path raster_folder raster_name <> blk_path raster_folder raster_name t.
Proof.
  unfold json_path, blk_path, path_join. intros Heq.
  do 3 apply string_app_inj_head in Heq. discriminate Heq.
Qed.

(** X8. Two different tiles of the grid have different names, and so
    different block files in a folder. *)
Theorem name_injective_on_grid (raster_folder raster_name : string)
    (t1 t2 : Tile) :
  in_grid t1 -> in_grid t2 ->
  (name t1 = name t2 -> t1 = t2)
  /\ (blk_path raster_folder raster_name t1
      = blk_path raster_folder raster_name t2 -> t1 = t2).
Proof.
  intros H1 H2. split; [by apply name_inj_on_grid | by apply blk_path_inj].
Qed.

Lemma name_injective_on_grid_witness :
  name (MkTile 179 0) <> name (MkTile 181 0).
Proof.
  intros Heq.
  assert (MkTile 179 0 = MkTile 181 0) as Habs.
  { apply (proj1 (name_injective_on_grid "out" "s" (MkTile 179 0)
                    (MkTile 181 0) ltac:(unfold in_grid; simpl; lia)
                    ltac:(unfold in_grid; simpl; lia))).
    exact Heq. }
  discriminate Habs.
Defined.

(** X9. On the grid a tile is found again from its index as
    (index mod 360, index div 360), and every number from 0 to 64799 is the
    index of the tile found from it. *)
Theorem index_decodes (t : Tile) (i : Z) :
  (in_grid t -> tile_of_index (index t) = t)
  /\ (0 <= i < 64800 ->
      in_grid (tile_of_index i) /\ index (tile_of_index i) = i).
Proof.
  unfold tile_of_index, index, in_grid. split.
  - destruct t as [tx ty]. cbn [x y]. intros [Hx Hy]. f_equal.
    + rewrite Z.add_comm, Z.mod_add by lia. apply Z.mod_small. lia.
    + rewrite Z.add_comm, Z.div_add by lia. rewrite Z.div_small by lia. lia.
  - intros Hi. cbn [x y].
    pose proof (Z.mod_pos_bound i 360 ltac:(lia)).
    pose proof (Z.div_mod i 360 ltac:(lia)).
    assert (0 <= i / 360 < 180)
      by (split; [apply Z.div_pos; lia | apply Z.div_lt_upper_bound; lia]).
    lia.
Qed.

Lemma index_decodes_witness :
  tile_of_index (index (MkTile 359 179)) = MkTile 359 179
  /\ index (tile_of_index 64799) = 64799.
Proof.
  split.
  - apply (proj1 (index_decodes (MkTile 359 179) 0)).
    unfold in_grid. simpl. lia.
  - apply (proj2 (index_decodes (MkTile 0 0) 64799)). lia.
Defined.

End TileNamesFacts.

(** ** Files a tile leaves alone *)

Section FrameFacts.
Import PyNum Flinttile Engine PipelineSpec PipelineMore.

Lemma preserves_ret {A} (p : string) (v : A) : preserves p (ret v).
Proof. by intros st. Qed.

Lemma preserves_raise {A} (p : string) (err : exn) : preserves p (@raise A err).
Proof. by intros st. Qed.

Lemma preserves_emit (p : string) (ev : event) : preserves p (emit ev).
Proof. by intros st. Qed.

Lemma preserves_is_file (p q : string) : preserves p (is_file q).
Proof. by intros st. Qed.

Lemma preserves_bind {A B} (p : string) (m : M A) (k : A -> M B) :
  preserves p m -> (forall v, preserves p (k v)) -> preserves p (bind m k).
Proof.
  intros Hm Hk st. unfold bind. specialize (Hm st).
  destruct (m st) as [st1 [err|v]]; simpl in *; [done|].
  by rewrite Hk.
Qed.

Lemma preserves_py_div (p : string) (a b : Q) : preserves p (py_div a b).
Proof.
  unfold py_div. destruct (Qeq_bool b 0); [apply preserves_raise | apply preserves_ret].
Qed.

Lemma preserves_from_bounds (p : string) (w s e n : Q) (width height : Z) :
  preserves p (from_bounds w s e n width height).
Proof.
  unfold from_bounds.
  repeat (apply preserves_bind; [apply preserves_py_div | intros ?]).
  apply preserves_ret.
Qed.

Lemma preserves_open_vrt (p : string) (src : Dataset) (crs : string)
    (rs : Resampling) (tr : Affine.t) (w h : Z) :
  preserves p (open_vrt src crs rs tr w h).
Proof. by intros st. Qed.

Lemma preserves_open_wb (p q : string) : p <> q -> preserves p (open_wb q).
Proof. intros Hne st. simpl. by rewrite lookup_insert_ne. Qed.

Lemma preserves_file_write (p q : string) (data : list Byte.byte) :
  p <> q -> preserves p (file_write q data).
Proof. intros Hne st. simpl. by rewrite lookup_insert_ne. Qed.

Lemma preserves_for_each {A} (p : string) (l : list A) (body : A -> M unit) :
  (forall v, preserves p (body v)) -> preserves p (for_each l body).
Proof.
  intros Hbody. induction l as [|v l IH]; simpl.
  - apply preserves_ret.
  - apply preserves_bind; [apply Hbody | intros _; apply IH].
Qed.

Lemma preserves_for_fold {A S} (p : string) (l : list A) (acc : S)
    (body : S -> A -> M S) :
  (forall acc v, preserves p (body acc v)) -> preserves p (for_fold l acc body).
Proof.
  intros Hbody. revert acc. induction l as [|v l IH]; intros acc; simpl.
  - apply preserves_ret.
  - apply preserves_bind; [apply Hbody | intros acc'; apply IH].
Qed.

End FrameFacts.

(** Discharges [preserves] goals on code built from the primitives. *)
Ltac solve_preserves :=
  repeat first
    [ apply preserves_ret | apply preserves_raise | apply preserves_emit
    | apply preserves_py_div | apply preserves_from_bounds
    | apply preserves_open_vrt | apply preserves_is_file
    | apply preserves_open_wb; assumption
    | apply preserves_file_write; assumption
    | apply preserves_for_each; intros ?
    | apply preserves_for_fold; intros ? ?
    | apply preserves_bind; [| intros ?]
    | match goal with
      | |- PipelineMore.preserves _ (if ?b then _ else _) => destruct b
      | |- PipelineMore.preserves _ (match ?o with Some _ => _ | None => _ end) =>
          destruct o
      end ].

Section Frame.
Import PyNum Flinttile Engine PipelineSpec PipelineMore.

Context {pixel : Type}.
Variable pixel_bytes : pixel -> list Byte.byte.
Variable vrt_profile : WarpedVRT -> gmap string jvalue.
Variable vrt_read : WarpedVRT -> Window -> option (Z * Z) -> list (list pixel).
Variable block_windows : Dataset -> list Window.

Lemma preserves_read_layers (p : string) (rasters : list DatasetReader)
    (rs : Resampling) (tr : Affine.t) (w h : Z) (win : Window) (shape : Z * Z) :
  preserves p (OptimizeRasterstack.read_layers vrt_read rasters rs tr w h win shape).
Proof.
  induction rasters as [|layer rasters IH]; simpl; solve_preserves.
  apply IH.
Qed.

Lemma preserves_range_m (p : string) (stop step : Z) :
  preserves p (OptimizeRasterstack.range_m stop step).
Proof.
  unfold OptimizeRasterstack.range_m.
  destruct (py_range_step 0 stop step); solve_preserves.
Qed.

Lemma preserves_single_tile (src : DatasetReader)
    (raster_name raster_folder : string)
    (overwrite : bool) (rs_method : Resampling) (compression : string)
    (dst_res : Q * Q) (in_memory : option bool) (tile : Tile) (path : string) :
  path <> blk_path raster_folder raster_name tile ->
  preserves path
    (OptimizeRasters.optimize_rasters_tile pixel_bytes vrt_profile vrt_read
       block_windows src raster_name raster_folder overwrite rs_method
       compression dst_res in_memory tile).
Proof.
  intros Hne. unfold blk_path in Hne.
  unfold OptimizeRasters.optimize_rasters_tile. solve_preserves.
Qed.

Lemma preserves_stack_tile (rasters : list DatasetReader)
    (raster_name raster_folder : string)
    (overwrite : bool) (rs_method : Resampling)
    (dst_res : Q * Q) (tile : Tile) (path : string) :
  path <> blk_path raster_folder raster_name tile ->
  preserves path
    (OptimizeRasterstack.optimize_rasterstack_tile pixel_bytes vrt_read
       rasters raster_name raster_folder overwrite rs_method dst_res tile).
Proof.
  intros Hne. unfold blk_path in Hne.
  unfold OptimizeRasterstack.optimize_rasterstack_tile.
  repeat first
    [ apply preserves_read_layers | apply preserves_range_m
    | progress solve_preserves ].
Qed.

(** X10. Whatever its outcome, the processing of a tile changes no file
    but the tile's own block file, in the single-raster pipeline and in the
    stack pipeline. *)
Theorem tile_touches_only_its_block_file (src : DatasetReader)
    (rasters : list DatasetReader) (raster_name raster_folder : string)
    (overwrite : bool) (rs_method : Resampling) (compression : string)
    (dst_res : Q * Q) (in_memory : option bool) (tile : Tile) (path : string) :
  path <> blk_path raster_folder raster_name tile ->
  preserves path
    (OptimizeRasters.optimize_rasters_tile pixel_bytes vrt_profile vrt_read
       block_windows src raster_name raster_folder overwrite rs_method
       compression dst_res in_memory tile)
  /\ preserves path
       (OptimizeRasterstack.optimize_rasterstack_tile pixel_bytes vrt_read
          rasters raster_name raster_folder overwrite rs_method dst_res tile).
Proof.
  intros Hne. split;
    [by apply preserves_single_tile | by apply preserves_stack_tile].
Qed.

End Frame.

Lemma tile_touches_only_its_block_file_witness :
  let st :=
    Engine.MkState {[ "out/s/s.json"%string := [Byte.x7b; Byte.x7d] ]} [] in
  Engine.fs
    (OptimizeRasters.optimize_rasters_tile Sample.pixel_bytes
       Sample.vrt_profile Sample.vrt_read Sample.block_windows Sample.coarse
       "s" "out/s" false Engine.nearest "none" (0.05, 0.05)%Q None
       (Flinttile.MkTile 180 89) st).1 !! "out/s/s.json"%string
  = Some [Byte.x7b; Byte.x7d]
  /\ Engine.fs
       (OptimizeRasterstack.optimize_rasterstack_tile Sample.pixel_bytes
          Sample.vrt_read [Sample.fine] "s" "out/s" false Engine.nearest
          (0.05, 0.05)%Q (Flinttile.MkTile 180 89) st).1 !! "out/s/s.json"%string
     = Some [Byte.x7b; Byte.x7d].
Proof.
  intros st.
  destruct (tile_touches_only_its_block_file Sample.pixel_bytes
              Sample.vrt_profile Sample.vrt_read Sample.block_windows
              Sample.coarse [Sample.fine] "s" "out/s" false Engine.nearest
              "none" (0.05, 0.05)%Q None (Flinttile.MkTile 180 89)
              "out/s/s.json") as [Hsingle Hstack].
  - vm_compute. discriminate.
  - split.
    + rewrite (Hsingle st). vm_compute. reflexivity.
    + rewrite (Hstack st).
      vm_compute. reflexivity.
Defined.

(** ** The size of a tile in pixels *)

Section TileSizeFacts.
Import PyNum Flinttile Engine PipelineSpec PipelineMore.

Lemma py_round_comp (v v' : Q) : (v == v')%Q -> py_round v = py_round v'.
Proof.
  intros Heq. unfold py_round. rewrite (Qfloor_comp _ _ Heq).
  assert (v - inject_Z (Qfloor v') == v' - inject_Z (Qfloor v'))%Q as Hd
    by (by rewrite Heq).
  by rewrite (Qcompare_comp _ _ Hd _ _ (Qeq_refl (1 # 2))).
Qed.

(** The size of a tile in pixels depends on the resolution only. *)
Lemma tile_width_pixels (tile : Tile) (res : Q) :
  Z.max 1 (py_round ((east (bounds tile) - west (bounds tile)) / res))
  = tile_pixels res.
Proof.
  unfold tile_pixels. f_equal. apply py_round_comp.
  destruct tile as [tx ty]. unfold bounds, ul.
  cbn [x y lng lat west south east north].
  rewrite inject_Z_plus. change (inject_Z 1) with 1%Q.
  apply Qmult_comp; [ring | reflexivity].
Qed.

Lemma tile_height_pixels (tile : Tile) (res : Q) :
  Z.max 1 (py_round ((north (bounds tile) - south (bounds tile)) / res))
  = tile_pixels res.
Proof.
  unfold tile_pixels. f_equal. apply py_round_comp.
  destruct tile as [tx ty]. unfold bounds, ul.
  cbn [x y lng lat west south east north].
  rewrite inject_Z_plus. change (inject_Z 1) with 1%Q.
  apply Qmult_comp; [ring | reflexivity].
Qed.

Lemma tile_pixels_pos (res : Q) : 1 <= tile_pixels res.
Proof. unfold tile_pixels. lia. Qed.

Lemma from_bounds_run (w s e n : Q) (width height : Z) (st : state) :
  width <> 0 -> height <> 0 ->
  from_bounds w s e n width height st
  = (st, inr (from_bounds_value w s e n width height)).
Proof.
  intros Hw Hh. unfold from_bounds.
  erewrite bind_ok by (by apply py_div_ok, inject_Z_nonzero).
  erewrite bind_ok by (by apply py_div_ok, inject_Z_nonzero).
  reflexivity.
Qed.

End TileSizeFacts.

(** ** A tile of the single-raster pipeline *)

Section SingleTile.
Import PyNum Flinttile Engine PipelineSpec PipelineMore.

Context {pixel : Type}.
Variable pixel_bytes : pixel -> list Byte.byte.
Variable vrt_profile : WarpedVRT -> gmap string jvalue.
Variable vrt_read : WarpedVRT -> Window -> option (Z * Z) -> list (list pixel).
Variable block_windows : Dataset -> list Window.

#[local] Abbreviation single_tile :=
  (OptimizeRasters.optimize_rasters_tile pixel_bytes vrt_profile vrt_read
     block_windows).

(** The loop over the block windows appends the bytes of each block to the
    block file and records a read and a write per block. *)
Lemma block_loop_run (vrt : WarpedVRT) (dst : Dataset) (path : string)
    (windows : list Window) (content : list Byte.byte) (st : state) :
  fs st !! path = Some content ->
  for_each windows (fun w =>
    bind (emit (EvRead vrt
                  (MkWindow (col_off w + 2) (row_off w + 2) (win_width w)
                     (win_height w)) None)) (fun _ =>
    bind (emit (EvDatasetWrite dst w)) (fun _ =>
    file_write path
      (OptimizeRasters.array_bytes pixel_bytes
         (vrt_read vrt
            (MkWindow (col_off w + 2) (row_off w + 2) (win_width w)
               (win_height w)) None))))) st
  = (MkState
       (<[path := content
                  ++ concat ((fun w =>
                       OptimizeRasters.array_bytes pixel_bytes
                         (vrt_read vrt (shifted w) None)) <$> windows)]> (fs st))
       (trace st
        ++ (windows ≫= fun w => [EvRead vrt (shifted w) None;
                                  EvDatasetWrite dst w])),
     inr tt).
Proof.
  revert content st. induction windows as [|w windows IH]; intros content st Hc.
  - simpl. unfold ret. rewrite !app_nil_r, insert_id by done. by destruct st.
  - cbn [for_each]. erewrite bind_ok; last first.
    { erewrite bind_ok by apply emit_run.
      erewrite bind_ok by apply emit_run. reflexivity. }
    cbn [fs trace]. rewrite Hc. cbn [default].
    erewrite IH by apply lookup_insert_eq.
    cbn [fs trace]. rewrite insert_insert_eq, bind_cons, fmap_cons.
    cbn [concat]. by rewrite <- !app_assoc.
Qed.

(** A tile of the single-raster pipeline that meets no output conflict. *)
Lemma single_tile_run (src : DatasetReader)
    (raster_name raster_folder : string) (overwrite : bool)
    (rs_method : Resampling) (compression : string) (dst_res : Q * Q)
    (in_memory : option bool) (tile : Tile) (st : state) :
  ~ (dst_res.1 == 0)%Q -> ~ (dst_res.2 == 0)%Q ->
  overwrite = true \/ fs st !! blk_path raster_folder raster_name tile = None ->
  let width := tile_pixels dst_res.1 in
  let height := tile_pixels dst_res.2 in
  let vrt :=
    MkWarpedVRT (Source src) _TARGET_CRS rs_method
      (padded_transform tile width height) (width + 4) (height + 4) in
  let small := (width + 4) * (height + 4) <? IN_MEMORY_THRESHOLD in
  let profile := FLINT_TILE_PROFILE ∪ vrt_profile vrt in
  let dst :=
    if small then MemoryDst profile else TempFileDst raster_folder profile in
  let vrt_dst :=
    MkWarpedVRT dst _TARGET_CRS rs_method
      (unpadded_transform tile width height) (width + 4) (height + 4) in
  single_tile src raster_name raster_folder overwrite rs_method compression
    dst_res in_memory tile st
  = (MkState
       (<[blk_path raster_folder raster_name tile :=
            concat ((fun w =>
              OptimizeRasters.array_bytes pixel_bytes
                (vrt_read vrt (shifted w) None)) <$> block_windows dst)]>
          (fs st))
       (trace st
        ++ [EvWarpedVRT vrt; EvOpenDst dst; EvWarpedVRT vrt_dst]
        ++ (block_windows dst ≫= fun w =>
              [EvRead vrt (shifted w) None; EvDatasetWrite dst w])
        ++ [EvCopy dst
              (path_join raster_folder
                 (raster_name +:+ "_" +:+ pretty (index tile) +:+ ".tif"))
              compression]),
     inr (Some small)).
Proof.
  intros Hx Hy Hfree width height vrt small profile dst vrt_dst.
  unfold OptimizeRasters.optimize_rasters_tile.
  erewrite bind_ok by (by apply py_div_ok).
  erewrite bind_ok by (by apply py_div_ok).
  rewrite tile_width_pixels, tile_height_pixels.
  fold width height.
  pose proof (tile_pixels_pos dst_res.1). pose proof (tile_pixels_pos dst_res.2).
  erewrite bind_ok by (apply from_bounds_run; lia).
  erewrite bind_ok by apply open_vrt_run.
  erewrite bind_ok by apply emit_run.
  erewrite bind_ok by (apply from_bounds_run; lia).
  erewrite bind_ok by apply open_vrt_run.
  erewrite bind_ok by reflexivity.
  cbn [fs trace].
  fold (blk_path raster_folder raster_name tile).
  assert (negb overwrite
          && bool_decide (is_Some (fs st !! blk_path raster_folder raster_name tile))
          = false) as ->.
  { destruct Hfree as [-> | Hnone]; [done|].
    rewrite Hnone, bool_decide_eq_false_2; [by rewrite andb_false_r|].
    by intros [? ?]. }
  erewrite bind_ok by reflexivity.
  erewrite bind_ok; last first.
  { apply (block_loop_run _ _ _ _ []). apply lookup_insert_eq. }
  erewrite bind_ok by apply emit_run.
  cbn [fs trace vrt_width vrt_height default]. unfold ret.
  rewrite insert_insert_eq. rewrite <- !app_assoc.
  reflexivity.
Qed.

(** X11. A tile of the single-raster pipeline that meets no output
    conflict runs to its end.  Its block file then holds the bytes of the
    blocks read from the padded view, in the order of the destination's
    block windows and nothing else, whatever it held before; the engine sees
    the padded view, the destination and the view on it, then a read and a
    write per block, and last the copy to [<name>_<index>.tif]. *)
Theorem single_tile_writes_blocks_in_order (src : DatasetReader)
    (raster_name raster_folder : string) (overwrite : bool)
    (rs_method : Resampling) (compression : string) (dst_res : Q * Q)
    (in_memory : option bool) (tile : Tile) (st : state) :
  ~ (dst_res.1 == 0)%Q -> ~ (dst_res.2 == 0)%Q ->
  overwrite = true \/ fs st !! blk_path raster_folder raster_name tile = None ->
  let width := tile_pixels dst_res.1 in
  let height := tile_pixels dst_res.2 in
  let vrt :=
    MkWarpedVRT (Source src) _TARGET_CRS rs_method
      (padded_transform tile width height) (width + 4) (height + 4) in
  let small := (width + 4) * (height + 4) <? IN_MEMORY_THRESHOLD in
  let profile := FLINT_TILE_PROFILE ∪ vrt_profile vrt in
  let dst :=
    if small then MemoryDst profile else TempFileDst raster_folder profile in
  let vrt_dst :=
    MkWarpedVRT dst _TARGET_CRS rs_method
      (unpadded_transform tile width height) (width + 4) (height + 4) in
  let run :=
    single_tile src raster_name raster_folder overwrite rs_method compression
      dst_res in_memory tile st in
  run.2 = inr (Some small)
  /\ fs run.1
     = <[blk_path raster_folder raster_name tile :=
           concat ((fun w =>
             OptimizeRasters.array_bytes pixel_bytes
               (vrt_read vrt (shifted w) None)) <$> block_windows dst)]>
         (fs st)
  /\ trace run.1
     = trace st
       ++ [EvWarpedVRT vrt; EvOpenDst dst; EvWarpedVRT vrt_dst]
       ++ (block_windows dst ≫= fun w =>
             [EvRead vrt (shifted w) None; EvDatasetWrite dst w])
       ++ [EvCopy dst
             (path_join raster_folder
                (raster_name +:+ "_" +:+ pretty (index tile) +:+ ".tif"))
             compression].
Proof.
  intros Hx Hy Hfree width height vrt small profile dst vrt_dst run.
  subst run.
  rewrite (single_tile_run src raster_name raster_folder overwrite rs_method
             compression dst_res in_memory tile st Hx Hy Hfree).
  by repeat split.
Qed.

(** X14. Once a tile of the single-raster pipeline has run, a second run of
    the same tile without overwrite is refused with [BadParameter] before
    any pixel is read, and the block file keeps the bytes of the first
    run. *)
Theorem single_tile_second_run_refused (src : DatasetReader)
    (raster_name raster_folder : string) (overwrite : bool)
    (rs_method : Resampling) (compression : string) (dst_res : Q * Q)
    (in_memory in_memory' : option bool) (tile : Tile) (st : state) :
  ~ (dst_res.1 == 0)%Q -> ~ (dst_res.2 == 0)%Q ->
  overwrite = true \/ fs st !! blk_path raster_folder raster_name tile = None ->
  let first :=
    single_tile src raster_name raster_folder overwrite rs_method compression
      dst_res in_memory tile st in
  let second :=
    single_tile src raster_name raster_folder false rs_method compression
      dst_res in_memory' tile first.1 in
  (exists msg, second.2 = inl (BadParameter msg))
  /\ fs second.1 = fs first.1
  /\ List.filter is_pixel_work (trace second.1)
     = List.filter is_pixel_work (trace first.1).
Proof.
  intros Hx Hy Hfree first second.
  assert (is_Some (fs first.1 !! blk_path raster_folder raster_name tile))
    as Hfile.
  { subst first.
    rewrite (single_tile_run src raster_name raster_folder overwrite
               rs_method compression dst_res in_memory tile st Hx Hy Hfree).
    cbn [fst fs]. rewrite lookup_insert_eq. by eexists. }
  destruct (single_conflict_before_pixel_work pixel_bytes vrt_profile
              vrt_read block_windows src raster_name raster_folder rs_method
              compression dst_res in_memory' tile first.1 Hx Hy Hfile)
    as (vrt & dst & vrt_dst & msg & Hrun).
  subst second. rewrite Hrun. cbn [fst snd fs trace].
  split; [by exists msg|]. split; [reflexivity|].
  rewrite List.filter_app. cbn [List.filter is_pixel_work].
  by rewrite app_nil_r.
Qed.

End SingleTile.

Lemma single_tile_writes_blocks_in_order_witness :
  let run :=
    OptimizeRasters.optimize_rasters_tile Sample.pixel_bytes
      Sample.vrt_profile Sample.vrt_read Sample.block_windows Sample.coarse
      "c" "out/c" false Engine.nearest "none" (0.25, 0.25)%Q None
      (Flinttile.MkTile 180 89) Sample.fresh in
  run.2 = inr (Some true)
  /\ length <$> Engine.fs run.1 !! "out/c/c_000_001.blk"%string = Some 16%nat
  /\ length (Engine.trace run.1) = 6%nat.
Proof.
  destruct (single_tile_writes_blocks_in_order Sample.pixel_bytes
              Sample.vrt_profile Sample.vrt_read Sample.block_windows
              Sample.coarse "c" "out/c" false Engine.nearest "none"
              (0.25, 0.25)%Q None (Flinttile.MkTile 180 89) Sample.fresh)
    as (Hres & Hfs & Htrace).
  - vm_compute. discriminate.
  - vm_compute. discriminate.
  - right. vm_compute. reflexivity.
  - split; [exact Hres|]. split.
    + rewrite Hfs.
      change (PipelineSpec.blk_path "out/c" "c" (Flinttile.MkTile 180 89))
        with "out/c/c_000_001.blk"%string.
      rewrite lookup_insert_eq. vm_compute. reflexivity.
    + rewrite Htrace. vm_compute. reflexivity.
Defined.

Lemma single_tile_second_run_refused_witness :
  let first :=
    OptimizeRasters.optimize_rasters_tile Sample.pixel_bytes
      Sample.vrt_profile Sample.vrt_read Sample.block_windows Sample.coarse
      "c" "out/c" false Engine.nearest "none" (0.25, 0.25)%Q None
      (Flinttile.MkTile 180 89) Sample.fresh in
  let second :=
    OptimizeRasters.optimize_rasters_tile Sample.pixel_bytes
      Sample.vrt_profile Sample.vrt_read Sample.block_windows Sample.coarse
      "c" "out/c" false Engine.nearest "none" (0.25, 0.25)%Q (Some true)
      (Flinttile.MkTile 180 89) first.1 in
  (exists msg, second.2 = inl (Engine.BadParameter msg))
  /\ Engine.fs second.1 = Engine.fs first.1.
Proof.
  destruct (single_tile_second_run_refused Sample.pixel_bytes
              Sample.vrt_profile Sample.vrt_read Sample.block_windows
              Sample.coarse "c" "out/c" false Engine.nearest "none"
              (0.25, 0.25)%Q None (Some true) (Flinttile.MkTile 180 89)
              Sample.fresh)
    as (Hmsg & Hfs & _).
  - vm_compute. discriminate.
  - vm_compute. discriminate.
  - right. vm_compute. reflexivity.
  - split; [exact Hmsg | exact Hfs].
Defined.

(** ** Ranges as chunks *)

Section ChunkFacts.
Import PyNum.

(** Consecutive chunks of [b] elements make up the list again. *)
Lemma chunks_concat {A} (b m : nat) (l : list A) :
  (1 <= b)%nat -> (length l <= m * b)%nat ->
  concat ((fun k : nat => take b (drop (k * b) l)) <$> seq 0 m) = l.
Proof.
  intros Hb. revert l. induction m as [|m IH]; intros l Hlen.
  - destruct l; simpl in *; [done | lia].
  - cbn [seq fmap list_fmap concat]. rewrite <- fmap_S_seq, <- list_fmap_compose.
    rewrite (list_fmap_ext _ (fun k : nat => take b (drop (k * b) (drop b l)))
               (seq 0 m)).
    + rewrite IH by (rewrite length_drop; lia).
      rewrite Nat.mul_0_l, drop_0. apply take_drop.
    + intros i k _. cbn [compose]. rewrite drop_drop. do 2 f_equal; lia.
Qed.

Lemma range_chunks {A} (l : list A) (f : Z -> Z -> list A) (stop step : Z)
    (cols : list Z) :
  1 <= step -> stop = Z.of_nat (length l) ->
  py_range_step 0 stop step = Some cols ->
  (forall lo, 0 <= lo -> f lo (lo + step) = take (Z.to_nat step) (drop (Z.to_nat lo) l)) ->
  concat ((fun c => f c (c + step)) <$> cols) = l.
Proof.
  intros Hstep -> Hcols Hf. unfold py_range_step, range_len in Hcols.
  rewrite (proj2 (Z.eqb_neq step 0)) in Hcols by lia.
  rewrite (proj2 (Z.ltb_lt 0 step)) in Hcols by lia.
  injection Hcols as <-.
  set (cnt := (Z.of_nat (length l) - 0 + step - 1) / step).
  assert (0 <= cnt) by (apply Z.div_pos; lia).
  assert (Z.of_nat (length l) <= cnt * step).
  { subst cnt. pose proof (Z.div_mod (Z.of_nat (length l) - 0 + step - 1) step ltac:(lia)).
    pose proof (Z.mod_pos_bound (Z.of_nat (length l) - 0 + step - 1) step ltac:(lia)).
    lia. }
  unfold seqZ. rewrite <- !list_fmap_compose.
  etransitivity;
    [|apply (chunks_concat (Z.to_nat step) (Z.to_nat cnt) l); lia].
  f_equal. apply list_fmap_ext. intros i k _. cbn [compose].
  rewrite Hf by lia. do 2 f_equal. lia.
Qed.

End ChunkFacts.

(** ** Stacked arrays *)

Section ArrayFacts.
Import PyNum StackSpec.

Lemma transpose_cons_cons {A} (l l' : list A) (ls : list (list A)) :
  OptimizeRasterstack.transpose (l :: l' :: ls)
  = zip_with cons l (OptimizeRasterstack.transpose (l' :: ls)).
Proof. reflexivity. Qed.

Lemma transpose_shape {A} (ls : list (list A)) (n : nat) :
  ls <> [] -> Forall (fun l => length l = n) ls ->
  shape2 (OptimizeRasterstack.transpose ls) n (length ls).
Proof.
  intros Hne Hlen. induction ls as [|l ls IH]; [done|].
  apply Forall_cons in Hlen as [Hl Hls].
  destruct ls as [|l' ls].
  - simpl. split; [by rewrite length_fmap|].
    apply Forall_fmap, Forall_forall. by intros.
  - destruct (IH ltac:(done) Hls) as [IH1 IH2].
    rewrite transpose_cons_cons. split.
    + rewrite length_zip_with. lia.
    + apply Forall_forall. intros r Hr.
      apply elem_of_lookup_zip_with in Hr as (i & v & r' & -> & _ & Hr').
      rewrite Forall_forall in IH2.
      cbn [length]. f_equal. apply IH2. by eapply list_elem_of_lookup_2.
Qed.

Lemma transpose_Forall {A} (P : A -> Prop) (ls : list (list A)) :
  Forall (Forall P) ls -> Forall (Forall P) (OptimizeRasterstack.transpose ls).
Proof.
  intros H. induction ls as [|l ls IH]; [done|].
  apply Forall_cons in H as [Hl Hls].
  destruct ls as [|l' ls].
  - simpl. apply Forall_fmap. eapply Forall_impl; [exact Hl|].
    intros v Hv. simpl. by repeat constructor.
  - rewrite transpose_cons_cons. specialize (IH Hls).
    apply Forall_forall. intros r Hr.
    apply elem_of_lookup_zip_with in Hr as (i & v & r' & -> & Hv & Hr').
    constructor.
    + rewrite Forall_forall in Hl. apply Hl. by eapply list_elem_of_lookup_2.
    + rewrite Forall_forall in IH. apply IH. by eapply list_elem_of_lookup_2.
Qed.

(** Layers of one shape stack into an array with the layers last. *)
Lemma np_stack_shape {A} (layers : list (list (list A))) (n m : nat) :
  layers <> [] -> Forall (fun arr => shape2 arr n m) layers ->
  shape3 (@OptimizeRasterstack.np_stack A layers) n m (length layers).
Proof.
  intros Hne Hshape. unfold OptimizeRasterstack.np_stack.
  assert (Forall (fun arr => length arr = n) layers) as Hn
    by (eapply Forall_impl; [exact Hshape | by intros ? [? ?]]).
  assert (Forall (Forall (fun r : list A => length r = m)) layers) as Hm
    by (eapply Forall_impl; [exact Hshape | by intros ? [? ?]]).
  destruct (transpose_shape layers n Hne Hn) as [H1 H2].
  pose proof (transpose_Forall _ _ Hm) as H3.
  split; [by rewrite length_fmap|].
  apply Forall_fmap, Forall_forall. intros rows Hrows. cbn [compose].
  rewrite Forall_forall in H2, H3.
  pose proof (H2 _ Hrows) as Hlen. rewrite <- Hlen.
  apply transpose_shape; [|by apply H3].
  intros ->. destruct layers; [done | simpl in Hlen; lia].
Qed.

End ArrayFacts.

(** ** A tile of the stack pipeline *)

Section StackTile.
Import PyNum Flinttile Engine PipelineSpec PipelineMore StackSpec.

Context {pixel : Type}.
Variable pixel_bytes : pixel -> list Byte.byte.
Variable vrt_read : WarpedVRT -> Window -> option (Z * Z) -> list (list pixel).

#[local] Abbreviation stack_tile :=
  (OptimizeRasterstack.optimize_rasterstack_tile pixel_bytes vrt_read).
#[local] Abbreviation bytes_of :=
  (OptimizeRasterstack.array_bytes pixel_bytes).
#[local] Abbreviation layers_read := (StackSpec.layers_read vrt_read).

(** A loop whose body appends to one file appends the parts in order. *)
Lemma append_loop {A} (path : string) (l : list A) (body : A -> M unit)
    (part : A -> list Byte.byte) (content : list Byte.byte) (st : state) :
  (forall v c s, fs s !! path = Some c ->
     body v s = (MkState (<[path := c ++ part v]> (fs s)) (trace s), inr tt)) ->
  fs st !! path = Some content ->
  for_each l body st
  = (MkState (<[path := content ++ concat (part <$> l)]> (fs st)) (trace st),
     inr tt).
Proof.
  intros Hbody. revert content st.
  induction l as [|v l IH]; intros content st Hc.
  - simpl. unfold ret. rewrite app_nil_r, insert_id by done. by destruct st.
  - cbn [for_each]. erewrite bind_ok by (by apply Hbody).
    erewrite IH by apply lookup_insert_eq.
    cbn [fs trace]. rewrite insert_insert_eq, fmap_cons. cbn [concat].
    by rewrite <- app_assoc.
Qed.

Lemma file_write_run (path : string) (data c : list Byte.byte) (s : state) :
  fs s !! path = Some c ->
  file_write path data s
  = (MkState (<[path := c ++ data]> (fs s)) (trace s), inr tt).
Proof. intros Hc. unfold file_write. by rewrite Hc. Qed.

Lemma range_m_run (stop step : Z) (st : state) :
  1 <= step ->
  exists l, py_range_step 0 stop step = Some l
            /\ OptimizeRasterstack.range_m stop step st = (st, inr l).
Proof.
  intros Hstep. unfold OptimizeRasterstack.range_m, py_range_step.
  rewrite (proj2 (Z.eqb_neq step 0)) by lia. by eexists.
Qed.

Lemma bytes_of_app (b1 b2 : list (list (list pixel))) :
  bytes_of (b1 ++ b2) = bytes_of b1 ++ bytes_of b2.
Proof.
  unfold OptimizeRasterstack.array_bytes.
  by rewrite !concat_app, fmap_app, concat_app.
Qed.

Lemma bytes_of_concat {A} (g : A -> list (list (list pixel))) (l : list A) :
  concat ((fun v => bytes_of (g v)) <$> l) = bytes_of (concat (g <$> l)).
Proof.
  induction l as [|v l IH]; [done|].
  rewrite !fmap_cons. cbn [concat]. by rewrite bytes_of_app, IH.
Qed.

Lemma concat_fmap_fmap {A B C} (g : B -> C) (h : A -> list B) (l : list A) :
  concat ((fun v => g <$> h v) <$> l) = g <$> concat (h <$> l).
Proof.
  induction l as [|v l IH]; [done|].
  rewrite !fmap_cons. cbn [concat]. by rewrite fmap_app, IH.
Qed.

(** The column blocks of a band, written one after the other, are the band
    in C order. *)
Lemma bands_merge (tile_stack : list (list (list pixel))) (cols : list Z)
    (row dst_width block_width block_height : Z) :
  1 <= block_width -> dst_width = Z.of_nat (length tile_stack) ->
  py_range_step 0 dst_width block_width = Some cols ->
  concat ((fun col =>
    bytes_of ((fun plane =>
                 OptimizeRasterstack.py_slice plane row (row + block_height))
              <$> OptimizeRasterstack.py_slice tile_stack col
                    (col + block_width))) <$> cols)
  = bytes_of (band tile_stack row block_height).
Proof.
  intros Hbw Hlen Hcols.
  rewrite (bytes_of_concat (fun col =>
    (fun plane => OptimizeRasterstack.py_slice plane row (row + block_height))
    <$> OptimizeRasterstack.py_slice tile_stack col (col + block_width))).
  unfold band. f_equal.
  rewrite (concat_fmap_fmap
             (fun plane : list (list pixel) =>
                OptimizeRasterstack.py_slice plane row (row + block_height))
             (fun col => OptimizeRasterstack.py_slice tile_stack col
                           (col + block_width))).
  f_equal.
  apply (range_chunks tile_stack
           (fun lo hi => OptimizeRasterstack.py_slice tile_stack lo hi)
           dst_width block_width cols Hbw Hlen Hcols).
  intros lo Hlo. unfold OptimizeRasterstack.py_slice. do 2 f_equal. lia.
Qed.

Lemma length_concat_const {A} (l : list (list A)) (k : nat) :
  Forall (fun v => length v = k) l -> length (concat l) = (length l * k)%nat.
Proof.
  induction 1 as [|v l Hv _ IH]; [done|].
  cbn [concat length]. rewrite length_app, IH, Hv. lia.
Qed.

Lemma length_concat_scaled {A B C} (X : A -> list B) (Y : A -> list C)
    (c : nat) (l : list A) :
  (forall v, length (X v) = (c * length (Y v))%nat) ->
  length (concat (X <$> l)) = (c * length (concat (Y <$> l)))%nat.
Proof.
  intros H. induction l as [|v l IH]; [simpl; lia|].
  rewrite !fmap_cons. cbn [concat]. rewrite !length_app, IH, H. lia.
Qed.

Lemma length_py_slice {A B} (l : list A) (l' : list B) (lo hi : Z) :
  length l = length l' ->
  length (OptimizeRasterstack.py_slice l lo hi)
  = length (OptimizeRasterstack.py_slice l' lo hi).
Proof.
  intros H. unfold OptimizeRasterstack.py_slice.
  by rewrite !length_take, !length_drop, H.
Qed.

(** The bytes of a band: samples per cell x cells per plane slice x planes
    x bytes per sample. *)
Lemma length_band_bytes (tile_stack : list (list (list pixel)))
    (n m k bps : nat) (row block_height : Z) :
  shape3 tile_stack n m k ->
  (forall p, length (pixel_bytes p) = bps) ->
  length (bytes_of (band tile_stack row block_height))
  = (bps * n * k
     * length (OptimizeRasterstack.py_slice (replicate m tt) row
                 (row + block_height)))%nat.
Proof.
  intros [Hn Hplanes] Hbps. unfold OptimizeRasterstack.array_bytes.
  rewrite (length_concat_const _ bps)
    by (apply Forall_fmap, Forall_forall; intros; apply Hbps).
  rewrite length_fmap.
  set (s := length (OptimizeRasterstack.py_slice (replicate m tt) row
                      (row + block_height))).
  rewrite (length_concat_const _ k).
  - rewrite (length_concat_const _ s).
    + unfold band. rewrite length_fmap, Hn. lia.
    + unfold band. apply Forall_fmap. eapply Forall_impl; [exact Hplanes|].
      intros plane [Hm _]. cbn [compose]. subst s.
      apply length_py_slice. by rewrite length_replicate.
  - apply Forall_concat. unfold band. apply Forall_fmap.
    eapply Forall_impl; [exact Hplanes|].
    intros plane [_ Hcells]. cbn [compose].
    unfold OptimizeRasterstack.py_slice.
    by apply Forall_take, Forall_drop.
Qed.

(** All bands together hold every sample of the stack once. *)
Lemma length_bands (tile_stack : list (list (list pixel)))
    (n m k bps : nat) (rows : list Z) (dst_height block_height : Z) :
  shape3 tile_stack n m k ->
  (forall p, length (pixel_bytes p) = bps) ->
  1 <= block_height -> dst_height = Z.of_nat m ->
  py_range_step 0 dst_height block_height = Some rows ->
  length (concat ((fun row => bytes_of (band tile_stack row block_height))
                  <$> rows))
  = (bps * n * k * m)%nat.
Proof.
  intros Hshape Hbps Hbh Hdh Hrows.
  rewrite (length_concat_scaled _
             (fun row => OptimizeRasterstack.py_slice (replicate m tt) row
                           (row + block_height)) (bps * n * k)).
  - rewrite (range_chunks (replicate m tt)
               (fun lo hi => OptimizeRasterstack.py_slice (replicate m tt) lo hi)
               dst_height block_height rows Hbh).
    + by rewrite length_replicate.
    + by rewrite length_replicate.
    + exact Hrows.
    + intros lo Hlo. unfold OptimizeRasterstack.py_slice. do 2 f_equal. lia.
  - intros row. by apply length_band_bytes.
Qed.

(** A tile of the stack pipeline at a resolution of at most 0.1 degrees and
    without output conflict: one view and one read per layer, then the
    blocks of the stack appended to the block file, row band by row band. *)
Lemma stack_tile_run (rasters : list DatasetReader)
    (raster_name raster_folder : string) (overwrite : bool)
    (rs_method : Resampling) (rx ry : Q) (tile : Tile) (st : state) :
  (0 < rx)%Q -> (rx <= 0.1)%Q -> (0 < ry)%Q -> (ry <= 0.1)%Q ->
  overwrite = true \/ fs st !! blk_path raster_folder raster_name tile = None ->
  let width := tile_pixels rx in
  let height := tile_pixels ry in
  let tile_stack :=
    OptimizeRasterstack.np_stack
      (layers_read rasters rs_method tile width height) in
  exists rows cols,
    py_range_step 0 height (py_int (0.1 / ry)) = Some rows
    /\ py_range_step 0 width (py_int (0.1 / rx)) = Some cols
    /\ stack_tile rasters raster_name raster_folder overwrite rs_method
         (rx, ry) tile st
       = (MkState
            (<[blk_path raster_folder raster_name tile :=
                 concat ((fun row =>
                   concat ((fun col =>
                     bytes_of
                       ((fun plane =>
                           OptimizeRasterstack.py_slice plane row
                             (row + py_int (0.1 / ry)))
                        <$> OptimizeRasterstack.py_slice tile_stack col
                              (col + py_int (0.1 / rx)))) <$> cols))
                   <$> rows)]> (fs st))
            (trace st
             ++ layer_events rasters rs_method
                  (padded_transform tile width height) (width + 4)
                  (height + 4) (MkWindow 2 2 width height) (width, height)),
          inr tt).
Proof.
  intros Hrx Hrx' Hry Hry' Hfree width height tile_stack.
  assert (Qabs ry = ry) as Habs by (by apply Qabs_of_positive).
  assert (1 <= py_int (0.1 / rx)) as Hbw by (by apply block_size_positive).
  assert (1 <= py_int (0.1 / ry)) as Hbh by (by apply block_size_positive).
  pose proof (tile_pixels_pos rx). pose proof (tile_pixels_pos ry).
  unfold OptimizeRasterstack.optimize_rasterstack_tile.
  cbn [fst snd]. rewrite Habs.
  do 4 (erewrite bind_ok by (apply py_div_ok; lra)).
  rewrite tile_width_pixels, tile_height_pixels. fold width height.
  erewrite bind_ok by (apply from_bounds_run; lia).
  erewrite bind_ok by apply read_layers_run.
  erewrite bind_ok by reflexivity.
  cbn [fs trace].
  fold (blk_path raster_folder raster_name tile).
  assert (negb overwrite
          && bool_decide (is_Some (fs st !! blk_path raster_folder raster_name tile))
          = false) as ->.
  { destruct Hfree as [-> | Hnone]; [done|].
    rewrite Hnone, bool_decide_eq_false_2; [by rewrite andb_false_r|].
    by intros [? ?]. }
  erewrite bind_ok by reflexivity.
  match goal with |- context [bind (OptimizeRasterstack.range_m _ _) _ ?s] =>
    set (st2 := s)
  end.
  destruct (range_m_run height (py_int (0.1 / ry)) st2 Hbh) as (rows & Erows & Hrows).
  exists rows.
  assert (exists cols, py_range_step 0 width (py_int (0.1 / rx)) = Some cols)
    as [cols Ecols].
  { destruct (range_m_run width (py_int (0.1 / rx)) st2 Hbw) as (c & E & _).
    by exists c. }
  exists cols. split; [exact Erows|]. split; [exact Ecols|].
  erewrite bind_ok by exact Hrows.
  erewrite (append_loop (blk_path raster_folder raster_name tile) rows _
              (fun row => concat ((fun col =>
                 bytes_of
                   ((fun plane =>
                       OptimizeRasterstack.py_slice plane row
                         (row + py_int (0.1 / ry)))
                    <$> OptimizeRasterstack.py_slice tile_stack col
                          (col + py_int (0.1 / rx)))) <$> cols)) []).
  - subst st2. cbn [fs trace app]. by rewrite insert_insert_eq.
  - intros row c s Hc.
    unfold OptimizeRasterstack.range_m. rewrite Ecols.
    erewrite bind_ok by reflexivity.
    apply append_loop; [|exact Hc].
    intros col c' s' Hc'. by apply file_write_run.
  - subst st2. cbn [fs]. apply lookup_insert_eq.
Qed.

(** X12. A tile of the stack pipeline, at resolutions of at most 0.1 degrees
    and without output conflict, where every layer is read as an array of
    width x height samples of one byte size: the tile completes, the block
    file holds the row bands of the stacked array one after the other (the
    block width plays no part in the bytes), no other file changes, and the
    block file has width x height x layers x bytes-per-sample bytes. *)
Theorem stack_block_file_holds_whole_stack (rasters : list DatasetReader)
    (raster_name raster_folder : string) (overwrite : bool)
    (rs_method : Resampling) (rx ry : Q) (tile : Tile) (st : state)
    (bps : nat) :
  (0 < rx)%Q -> (rx <= 0.1)%Q -> (0 < ry)%Q -> (ry <= 0.1)%Q ->
  overwrite = true \/ fs st !! blk_path raster_folder raster_name tile = None ->
  rasters <> [] ->
  (forall p, length (pixel_bytes p) = bps) ->
  let width := tile_pixels rx in
  let height := tile_pixels ry in
  Forall (fun arr => shape2 arr (Z.to_nat width) (Z.to_nat height))
    (layers_read rasters rs_method tile width height) ->
  let tile_stack :=
    OptimizeRasterstack.np_stack
      (layers_read rasters rs_method tile width height) in
  let run :=
    stack_tile rasters raster_name raster_folder overwrite rs_method
      (rx, ry) tile st in
  exists rows content,
    py_range_step 0 height (py_int (0.1 / ry)) = Some rows
    /\ content
       = concat ((fun row => bytes_of (band tile_stack row (py_int (0.1 / ry))))
                 <$> rows)
    /\ run.2 = inr tt
    /\ fs run.1 = <[blk_path raster_folder raster_name tile := content]> (fs st)
    /\ Z.of_nat (length content)
       = width * height * Z.of_nat (length rasters) * Z.of_nat bps.
Proof.
  intros Hrx Hrx' Hry Hry' Hfree Hne Hbps width height Hshape tile_stack run.
  destruct (stack_tile_run rasters raster_name raster_folder overwrite
              rs_method rx ry tile st Hrx Hrx' Hry Hry' Hfree)
    as (rows & cols & Hrows & Hcols & Hrun).
  fold width height tile_stack in Hrows, Hcols, Hrun.
  assert (1 <= py_int (0.1 / rx)) as Hbw by (by apply block_size_positive).
  assert (1 <= py_int (0.1 / ry)) as Hbh by (by apply block_size_positive).
  pose proof (tile_pixels_pos rx). pose proof (tile_pixels_pos ry).
  assert (layers_read rasters rs_method tile width height <> []) as Hne'.
  { unfold StackSpec.layers_read. by destruct rasters. }
  pose proof (np_stack_shape _ _ _ Hne' Hshape) as Hstack.
  fold tile_stack in Hstack.
  assert (length (layers_read rasters rs_method tile width height)
          = length rasters) as Hlayers
    by (unfold StackSpec.layers_read; apply length_fmap).
  rewrite Hlayers in Hstack.
  exists rows, (concat ((fun row =>
                   bytes_of (band tile_stack row (py_int (0.1 / ry))))
                 <$> rows)).
  split; [exact Hrows|]. split; [reflexivity|].
  assert (concat ((fun row =>
            concat ((fun col =>
              bytes_of
                ((fun plane =>
                    OptimizeRasterstack.py_slice plane row
                      (row + py_int (0.1 / ry)))
                 <$> OptimizeRasterstack.py_slice tile_stack col
                       (col + py_int (0.1 / rx)))) <$> cols)) <$> rows)
          = concat ((fun row =>
              bytes_of (band tile_stack row (py_int (0.1 / ry)))) <$> rows))
    as Hbands.
  { f_equal. apply list_fmap_ext. intros _ row _.
    apply (bands_merge tile_stack cols row width); [exact Hbw| |exact Hcols].
    destruct Hstack as [-> _]. lia. }
  subst run. rewrite Hrun. cbn [fst snd fs].
  split; [reflexivity|]. split; [by rewrite Hbands|].
  rewrite (length_bands tile_stack (Z.to_nat width) (Z.to_nat height)
             (length rasters) bps rows height (py_int (0.1 / ry)))
    by (try done; lia).
  lia.
Qed.

End StackTile.

Lemma stack_block_file_holds_whole_stack_witness :
  let run :=
    OptimizeRasterstack.optimize_rasterstack_tile Sample.pixel_bytes
      Sample.vrt_read [Sample.fine] "s" "out/s" false Engine.nearest
      (0.05, 0.05)%Q (Flinttile.MkTile 180 89) Sample.fresh in
  run.2 = inr tt
  /\ length <$> Engine.fs run.1 !! "out/s/s_000_001.blk"%string = Some 400%nat.
Proof.
  destruct (stack_block_file_holds_whole_stack Sample.pixel_bytes
              Sample.vrt_read [Sample.fine] "s" "out/s" false Engine.nearest
              0.05 0.05 (Flinttile.MkTile 180 89) Sample.fresh 1)
    as (rows & content & _ & _ & Hres & Hfs & Hlen).
  - unfold Qlt. simpl. lia.
  - unfold Qle. simpl. lia.
  - unfold Qlt. simpl. lia.
  - unfold Qle. simpl. lia.
  - right. vm_compute. reflexivity.
  - discriminate.
  - reflexivity.
  - vm_compute. repeat constructor.
  - split; [exact Hres|].
    rewrite Hfs.
    change (PipelineSpec.blk_path "out/s" "s" (Flinttile.MkTile 180 89))
      with "out/s/s_000_001.blk"%string.
    pose proof (lookup_insert_eq (Engine.fs Sample.fresh)
                 "out/s/s_000_001.blk"%string content) as Hl.
    rewrite Hl. cbn [fmap option_fmap option_map]. f_equal.
    apply Nat2Z.inj. rewrite Hlen. vm_compute. reflexivity.
Defined.

(** ** The padded view *)

Section ViewGeometry.
Import PyNum Flinttile Engine PipelineSpec PipelineMore.

(** X15. The padded view of a tile: [from_bounds] returns, and the
    transform built from it is north-up with pixels of 1/width by 1/height
    degrees; the window the pipelines read, at offset (2, 2) and of
    width x height pixels, has its upper left corner on the tile's
    (west, north) and its lower right corner on (east, south): the padding
    of two pixels lies outside the tile on every side. *)
Theorem padded_window_covers_tile (tile : Tile) (width height : Z)
    (st : state) :
  0 < width -> 0 < height ->
  let b := bounds tile in
  let m := padded_transform tile width height in
  from_bounds (west b) (south b) (east b) (north b) width height st
  = (st, inr (from_bounds_value (west b) (south b) (east b) (north b)
                width height))
  /\ (Affine.a m == 1 / inject_Z width)%Q
  /\ (Affine.e m == - (1 / inject_Z height))%Q
  /\ (Affine.b m == 0)%Q /\ (Affine.d m == 0)%Q
  /\ ((apply m 2 2).1 == west b)%Q
  /\ ((apply m 2 2).2 == north b)%Q
  /\ ((apply m (2 + inject_Z width) (2 + inject_Z height)).1 == east b)%Q
  /\ ((apply m (2 + inject_Z width) (2 + inject_Z height)).2 == south b)%Q
  /\ ((apply m 0 0).1 == west b - 2 / inject_Z width)%Q
  /\ ((apply m 0 0).2 == north b + 2 / inject_Z height)%Q.
Proof.
  intros Hw Hh b m.
  assert (~ (inject_Z width == 0)%Q) as Hw' by (apply inject_Z_nonzero; lia).
  assert (~ (inject_Z height == 0)%Q) as Hh' by (apply inject_Z_nonzero; lia).
  split; [apply from_bounds_run; lia|].
  subst m b. destruct tile as [tx ty].
  unfold padded_transform, from_bounds_value, apply, Affine.mul,
    Affine.translation, Affine.scale, bounds, ul.
  cbn [Affine.a Affine.b Affine.c Affine.d Affine.e Affine.f fst snd
       x y lng lat west south east north].
  rewrite !inject_Z_plus. change (inject_Z 1) with 1%Q.
  change (inject_Z 2) with 2%Q.
  repeat split; field; tauto.
Qed.

End ViewGeometry.

Lemma padded_window_covers_tile_witness :
  ((PipelineMore.apply
      (PipelineMore.padded_transform (Flinttile.MkTile 180 89) 4 4) 2 2).1
   == 0)%Q
  /\ ((PipelineMore.apply
         (PipelineMore.padded_transform (Flinttile.MkTile 180 89) 4 4) 6 6).2
      == 0)%Q.
Proof.
  destruct (padded_window_covers_tile (Flinttile.MkTile 180 89) 4 4
              Sample.fresh)
    as (_ & _ & _ & _ & _ & Hwest & _ & _ & Hsouth & _).
  - lia.
  - lia.
  - split; [exact Hwest | exact Hsouth].
Defined.

(** ** Output conflicts and the sidecar *)

Section QuietFacts.
Import PyNum Flinttile Engine PipelineSpec PipelineMore.

Lemma quiet_ret {A} (v : A) : quiet (ret v).
Proof. by intros st. Qed.

Lemma quiet_value_error {A} (msg : string) : quiet (@raise A (ValueError msg)).
Proof. by intros st. Qed.

Lemma quiet_zero_division {A} : quiet (@raise A ZeroDivisionError).
Proof. by intros st. Qed.

Lemma quiet_emit (ev : event) : quiet (emit ev).
Proof. by intros st. Qed.

Lemma quiet_is_file (q : string) : quiet (is_file q).
Proof. by intros st. Qed.

Lemma quiet_bind {A B} (m : M A) (k : A -> M B) :
  quiet m -> (forall v, quiet (k v)) -> quiet (bind m k).
Proof.
  intros Hm Hk st. destruct (Hm st) as [Hfs Hnc].
  unfold no_conflict in *. unfold bind.
  destruct (m st) as [st1 [err|v]]; cbn [fst snd] in *.
  - split; [exact Hfs|]. intros msg [= ->]. by apply (Hnc msg).
  - destruct (Hk v st1) as [Hfs' Hnc']. split; [congruence | exact Hnc'].
Qed.

Lemma quiet_py_div (a b : Q) : quiet (py_div a b).
Proof.
  unfold py_div. destruct (Qeq_bool b 0);
    [apply quiet_zero_division | apply quiet_ret].
Qed.

Lemma quiet_from_bounds (w s e n : Q) (width height : Z) :
  quiet (from_bounds w s e n width height).
Proof.
  unfold from_bounds.
  repeat (apply quiet_bind; [apply quiet_py_div | intros ?]).
  apply quiet_ret.
Qed.

Lemma quiet_open_vrt (src : Dataset) (crs : string) (rs : Resampling)
    (tr : Affine.t) (w h : Z) :
  quiet (open_vrt src crs rs tr w h).
Proof. by intros st. Qed.

Lemma quiet_for_each {A} (l : list A) (body : A -> M unit) :
  (forall v, quiet (body v)) -> quiet (for_each l body).
Proof.
  intros Hbody. induction l as [|v l IH]; simpl.
  - apply quiet_ret.
  - apply quiet_bind; [apply Hbody | intros _; apply IH].
Qed.

Lemma calm_quiet {A} (P : gmap string (list Byte.byte) -> Prop) (m : M A) :
  quiet m -> calm P m.
Proof. intros Hm st _. apply Hm. Qed.

Lemma calm_weaken {A} (P : gmap string (list Byte.byte) -> Prop) (m : M A) :
  calm (fun _ => True) m -> calm P m.
Proof. intros Hm st _. by apply Hm. Qed.

(** The general rule for a sequence. *)
Lemma calm_bind {A B} (P P' : gmap string (list Byte.byte) -> Prop)
    (m : M A) (k : A -> M B) :
  (forall st, P (fs st) -> no_conflict m st /\ P' (fs (m st).1)) ->
  (forall v, calm P' (k v)) -> calm P (bind m k).
Proof.
  intros Hm Hk st HP msg. unfold bind.
  destruct (Hm st HP) as [Hnc HP']. unfold no_conflict in Hnc.
  destruct (m st) as [st1 [err|v]]; cbn [fst snd] in *.
  - intros [= ->]. by apply (Hnc msg).
  - by apply Hk.
Qed.

Lemma calm_bind_quiet {A B} (P : gmap string (list Byte.byte) -> Prop)
    (m : M A) (k : A -> M B) :
  quiet m -> (forall v, calm P (k v)) -> calm P (bind m k).
Proof.
  intros Hm Hk. apply (calm_bind P P); [|exact Hk].
  intros st HP. destruct (Hm st) as [Hfs Hnc]. split; [exact Hnc|].
  by rewrite Hfs.
Qed.

Lemma harmless_bind {A B} (m : M A) (k : A -> M B) :
  calm (fun _ => True) m -> (forall v, calm (fun _ => True) (k v)) ->
  calm (fun _ => True) (bind m k).
Proof.
  intros Hm Hk. apply (calm_bind _ (fun _ => True)); [|exact Hk].
  intros st _. split; [by apply Hm | done].
Qed.

Lemma harmless_open_wb (q : string) : calm (fun _ => True) (open_wb q).
Proof. by intros st _ msg. Qed.

Lemma harmless_file_write (q : string) (data : list Byte.byte) :
  calm (fun _ => True) (file_write q data).
Proof. by intros st _ msg. Qed.

Lemma harmless_for_each {A} (l : list A) (body : A -> M unit) :
  (forall v, calm (fun _ => True) (body v)) ->
  calm (fun _ => True) (for_each l body).
Proof.
  intros Hbody. induction l as [|v l IH]; simpl.
  - apply calm_quiet, quiet_ret.
  - apply harmless_bind; [apply Hbody | intros _; apply IH].
Qed.

(** The test of the output file is the one place a conflict comes from. *)
Lemma calm_check {A} (p : string) (overwrite : bool) (err : exn)
    (rest : M A) :
  calm (fun _ => True) rest ->
  calm (fun f => overwrite = true \/ f !! p = None)
    (bind (is_file p) (fun present =>
       if negb overwrite && present then raise err else rest)).
Proof.
  intros Hrest st Hfree msg. unfold bind, is_file.
  assert (negb overwrite && bool_decide (is_Some (fs st !! p)) = false) as ->.
  { destruct Hfree as [-> | Hnone]; [done|].
    rewrite Hnone, bool_decide_eq_false_2; [by rewrite andb_false_r|].
    by intros [? ?]. }
  by apply Hrest.
Qed.

End QuietFacts.

(** Discharges [quiet] goals on code built from the primitives. *)
Ltac solve_quiet :=
  repeat first
    [ apply quiet_ret | apply quiet_value_error | apply quiet_zero_division
    | apply quiet_emit | apply quiet_py_div | apply quiet_from_bounds
    | apply quiet_open_vrt | apply quiet_is_file
    | apply quiet_for_each; intros ?
    | apply quiet_bind; [| intros ?] ].

(** Discharges goals on code that cannot raise an output conflict. *)
Ltac solve_harmless :=
  repeat first
    [ apply harmless_open_wb | apply harmless_file_write
    | apply harmless_for_each; intros ?
    | apply harmless_bind; [| intros ?]
    | apply calm_quiet; solve [solve_quiet] ].

Section SelfConflict.
Import PyNum Flinttile Engine TileGridSpec PipelineSpec PipelineMore.

Context {pixel : Type}.
Variable pixel_bytes : pixel -> list Byte.byte.
Variable warp_transform :
  option string -> string -> list Q -> list Q -> list Q * list Q.
Variable warp_transform_bounds :
  option string -> string -> Q * Q * Q * Q -> Q * Q * Q * Q.
Variable vrt_profile : WarpedVRT -> gmap string jvalue.
Variable vrt_read : WarpedVRT -> Window -> option (Z * Z) -> list (list pixel).
Variable block_windows : Dataset -> list Window.
Variable layer_info : DatasetReader -> string -> option Z -> list Byte.byte.

Lemma quiet_read_layers (rasters : list DatasetReader)
    (rs : Resampling) (tr : Affine.t) (w h : Z) (win : Window) (shape : Z * Z) :
  quiet (OptimizeRasterstack.read_layers vrt_read rasters rs tr w h win shape).
Proof.
  induction rasters as [|layer rasters IH]; simpl; solve_quiet.
  apply IH.
Qed.

Lemma quiet_range_m (stop step : Z) :
  quiet (OptimizeRasterstack.range_m stop step).
Proof.
  unfold OptimizeRasterstack.range_m.
  destruct (py_range_step 0 stop step); solve_quiet.
Qed.

Lemma quiet_single_solver (src_crs : option string) (dst_crs : string)
    (width height : Z) (bounds : list Q) :
  quiet (OptimizeRasters._calculate_default_transform warp_transform
           warp_transform_bounds src_crs dst_crs width height bounds).
Proof.
  unfold OptimizeRasters._calculate_default_transform.
  destruct (bool_decide _); [solve_quiet|].
  apply quiet_bind; [solve_quiet | intros _].
  destruct (warp_transform _ _ _ _) as [txs tys].
  destruct (zip txs tys) as [|p1 [|p2 [|p3 [|p4 [|p5 l]]]]]; [solve_quiet..| |solve_quiet].
  cbv zeta. apply quiet_bind; [solve_quiet | intros fb].
  apply quiet_bind; [solve_quiet | intros _].
  destruct (warp_transform_bounds _ _ _) as [[[db0 db1] db2] db3].
  solve_quiet.
Qed.

Lemma quiet_stack_solver (src_crs : option string) (dst_crs : string)
    (width height : Z) (bounds : list Q) :
  quiet (OptimizeRasterstack._calculate_default_transform warp_transform
           warp_transform_bounds src_crs dst_crs width height bounds).
Proof.
  unfold OptimizeRasterstack._calculate_default_transform.
  destruct (bool_decide _); [solve_quiet|].
  cbv zeta. apply quiet_bind; [solve_quiet | intros _].
  destruct (warp_transform _ _ _ _) as [txs tys].
  destruct (zip txs tys) as [|p1 [|p2 [|p3 [|p4 [|p5 l]]]]]; [solve_quiet..| |solve_quiet].
  cbv zeta. apply quiet_bind; [solve_quiet | intros fb].
  apply quiet_bind; [solve_quiet | intros _].
  destruct (warp_transform_bounds _ _ _) as [[[db0 db1] db2] db3].
  solve_quiet.
Qed.

(** A tile whose block file is not there, or may be overwritten, raises no
    output conflict. *)
Lemma calm_single_tile (src : DatasetReader)
    (raster_name raster_folder : string) (overwrite : bool)
    (rs_method : Resampling) (compression : string) (dst_res : Q * Q)
    (in_memory : option bool) (tile : Tile) :
  calm (fun f => overwrite = true
                 \/ f !! blk_path raster_folder raster_name tile = None)
    (OptimizeRasters.optimize_rasters_tile pixel_bytes vrt_profile vrt_read
       block_windows src raster_name raster_folder overwrite rs_method
       compression dst_res in_memory tile).
Proof.
  unfold OptimizeRasters.optimize_rasters_tile.
  do 7 (apply calm_bind_quiet; [solve [solve_quiet] | intros ?]).
  apply calm_check. solve_harmless.
Qed.

Lemma calm_stack_tile (rasters : list DatasetReader)
    (raster_name raster_folder : string) (overwrite : bool)
    (rs_method : Resampling) (dst_res : Q * Q) (tile : Tile) :
  calm (fun f => overwrite = true
                 \/ f !! blk_path raster_folder raster_name tile = None)
    (OptimizeRasterstack.optimize_rasterstack_tile pixel_bytes vrt_read
       rasters raster_name raster_folder overwrite rs_method dst_res tile).
Proof.
  unfold OptimizeRasterstack.optimize_rasterstack_tile.
  do 5 (apply calm_bind_quiet; [solve [solve_quiet] | intros ?]).
  apply calm_bind_quiet; [apply quiet_read_layers | intros ?].
  apply calm_check.
  repeat first
    [ apply calm_quiet, quiet_range_m | progress solve_harmless ].
Qed.

(** A loop over items that write to different files, each item free of
    conflict when its own file is not there, is free of conflict when none
    of the files is there. *)
Lemma calm_for_fold_paths {A S} (path_of : A -> string) (overwrite : bool)
    (l : list A) (acc : S) (body : S -> A -> M S) :
  NoDup (path_of <$> l) ->
  (forall acc v,
     calm (fun f => overwrite = true \/ f !! path_of v = None) (body acc v)) ->
  (forall acc v p, p <> path_of v -> preserves p (body acc v)) ->
  calm (fun f => overwrite = true \/ forall v, v ∈ l -> f !! path_of v = None)
    (for_fold l acc body).
Proof.
  intros Hnd Hcalm Hframe. revert acc.
  induction l as [|v l IH]; intros acc; cbn [for_fold].
  - apply calm_quiet, quiet_ret.
  - rewrite fmap_cons in Hnd. apply NoDup_cons in Hnd as [Hv Hnd].
    eapply calm_bind; [|intros acc'; apply (IH Hnd)].
    intros st Hfree. split.
    + apply Hcalm. destruct Hfree as [?|Hnone]; [by left | right].
      apply Hnone. by left.
    + destruct Hfree as [?|Hnone]; [by left | right].
      intros t Ht. rewrite Hframe.
      * apply Hnone. by right.
      * intros Heq. apply Hv. rewrite <- Heq. apply list_elem_of_fmap.
        by exists t.
Qed.

Lemma calm_for_each_paths {A} (path_of : A -> string) (overwrite : bool)
    (l : list A) (body : A -> M unit) :
  NoDup (path_of <$> l) ->
  (forall v,
     calm (fun f => overwrite = true \/ f !! path_of v = None) (body v)) ->
  (forall v p, p <> path_of v -> preserves p (body v)) ->
  calm (fun f => overwrite = true \/ forall v, v ∈ l -> f !! path_of v = None)
    (for_each l body).
Proof.
  intros Hnd Hcalm Hframe.
  induction l as [|v l IH]; cbn [for_each].
  - apply calm_quiet, quiet_ret.
  - rewrite fmap_cons in Hnd. apply NoDup_cons in Hnd as [Hv Hnd].
    eapply calm_bind; [|intros _; apply (IH Hnd)].
    intros st Hfree. split.
    + apply Hcalm. destruct Hfree as [?|Hnone]; [by left | right].
      apply Hnone. by left.
    + destruct Hfree as [?|Hnone]; [by left | right].
      intros t Ht. rewrite Hframe.
      * apply Hnone. by right.
      * intros Heq. apply Hv. rewrite <- Heq. apply list_elem_of_fmap.
        by exists t.
Qed.

(** The tiles of a box write to different block files. *)
Lemma NoDup_blk_paths (raster_folder raster_name : string) (w s e n : Q) :
  NoDup (blk_path raster_folder raster_name <$> tiles w s e n).
Proof.
  apply NoDup_fmap_on; [|apply NoDup_tiles].
  intros a b Ha Hb. apply blk_path_inj; by eapply tiles_within_grid.
Qed.

(** [_writeLayerInfo] leaves the sidecar with the serialized metadata, in
    either script. *)
Lemma single_writeLayerInfo_run (src : DatasetReader)
    (layerName outFld : string) (nLayers : option Z) (st : state) :
  OptimizeRasters._writeLayerInfo layer_info src layerName outFld nLayers st
  = (MkState (<[json_path outFld layerName := layer_info src layerName nLayers]>
                (fs st)) (trace st), inr tt).
Proof.
  unfold OptimizeRasters._writeLayerInfo, bind, open_wb, file_write.
  cbn [fs trace]. fold (json_path outFld layerName).
  by rewrite lookup_insert_eq, insert_insert_eq.
Qed.

Lemma stack_writeLayerInfo_run (src : DatasetReader)
    (layerName outFld : string) (nLayers : option Z) (st : state) :
  OptimizeRasterstack._writeLayerInfo layer_info src layerName outFld nLayers st
  = (MkState (<[json_path outFld layerName := layer_info src layerName nLayers]>
                (fs st)) (trace st), inr tt).
Proof.
  unfold OptimizeRasterstack._writeLayerInfo, bind, open_wb, file_write.
  cbn [fs trace]. fold (json_path outFld layerName).
  by rewrite lookup_insert_eq, insert_insert_eq.
Qed.

#[local] Abbreviation single_file :=
  (OptimizeRasters.optimize_rasters_file pixel_bytes warp_transform
     warp_transform_bounds vrt_profile vrt_read block_windows layer_info).
#[local] Abbreviation stack_run :=
  (OptimizeRasterstack.optimize_rasterstack pixel_bytes warp_transform
     warp_transform_bounds vrt_read layer_info).

(** X16. Within one run no tile trips over the output of another: when no
    block file of the raster is in the output folder at the start, or
    overwrite is set, the processing of a raster and of a stack never ends
    in the [BadParameter] conflict, whatever the source, its bounds and the
    engine return. *)
Theorem run_never_conflicts_with_itself (output_folder raster_name : string)
    (overwrite : bool) (rs_method : Resampling) (compression : string)
    (in_memory : option bool) (src : DatasetReader)
    (rasters : list DatasetReader) (st : state) :
  overwrite = true
  \/ (forall t, in_grid t ->
        fs st !! blk_path (path_join output_folder raster_name) raster_name t
        = None) ->
  no_conflict
    (single_file output_folder overwrite rs_method compression in_memory
       (raster_name, src)) st
  /\ no_conflict
       (stack_run rasters raster_name output_folder overwrite rs_method) st.
Proof.
  intros Hfree.
  set (folder := path_join output_folder raster_name) in *.
  set (P := fun f : gmap string (list Byte.byte) =>
              overwrite = true
              \/ forall t, in_grid t -> f !! blk_path folder raster_name t = None).
  assert (forall (w s e n : Q) (f : gmap string (list Byte.byte)),
            P f ->
            overwrite = true
            \/ forall t, t ∈ tiles w s e n ->
                 f !! blk_path folder raster_name t = None) as Htiles.
  { intros w s e n f [?|Hnone]; [by left | right].
    intros t Ht. apply Hnone. by eapply tiles_within_grid. }
  assert (forall (A : Type) (m : M A) (src' : DatasetReader) (nl : option Z)
            (write : M unit),
            (forall s0, write s0
               = (MkState (<[json_path folder raster_name
                              := layer_info src' raster_name nl]> (fs s0))
                    (trace s0), inr tt)) ->
            calm P m -> calm P (bind write (fun _ => m))) as Hsidecar.
  { intros A m src' nl write Hwrite Hm.
    eapply calm_bind; [|intros _; exact Hm].
    intros s0 HP. unfold no_conflict. rewrite Hwrite. cbn [fst snd fs].
    split; [by intros msg|].
    destruct HP as [?|Hnone]; [by left | right].
    intros t Ht. rewrite lookup_insert_ne; [by apply Hnone|].
    apply json_path_ne_blk_path. }
  split.
  - assert (calm P (single_file output_folder overwrite rs_method compression
                      in_memory (raster_name, src))) as Hcalm; [|by apply Hcalm].
    unfold OptimizeRasters.optimize_rasters_file. fold folder.
    eapply Hsidecar; [intros s0; apply single_writeLayerInfo_run|].
    destruct (ds_bounds src) as [[[w s] e] n].
    apply calm_bind_quiet; [apply quiet_single_solver | intros r].
    intros s0 HP. apply Htiles with (w := w) (s := s) (e := e) (n := n) in HP.
    revert s0 HP.
    apply (calm_for_fold_paths (blk_path folder raster_name)).
    + apply NoDup_blk_paths.
    + intros acc v. apply calm_single_tile.
    + intros acc v p Hp.
      by apply preserves_single_tile.
  - assert (calm P (stack_run rasters raster_name output_folder overwrite
                      rs_method)) as Hcalm; [|by apply Hcalm].
    unfold OptimizeRasterstack.optimize_rasterstack.
    destruct rasters as [|raster rasters']; [apply calm_quiet, quiet_ret|].
    fold folder.
    eapply Hsidecar; [intros s0; apply stack_writeLayerInfo_run|].
    destruct (ds_bounds raster) as [[[w s] e] n].
    apply calm_bind_quiet; [apply quiet_stack_solver | intros r].
    apply calm_bind_quiet; [solve_quiet | intros _].
    intros s0 HP. apply Htiles with (w := w) (s := s) (e := e) (n := n) in HP.
    revert s0 HP.
    apply (calm_for_each_paths (blk_path folder raster_name)).
    + apply NoDup_blk_paths.
    + intros v. apply calm_stack_tile.
    + intros v p Hp.
      by apply preserves_stack_tile.
Qed.



End SelfConflict.

Lemma run_never_conflicts_with_itself_witness :
  PipelineMore.no_conflict
    (OptimizeRasters.optimize_rasters_file Sample.pixel_bytes
       Sample.warp_transform Sample.warp_transform_bounds Sample.vrt_profile
       Sample.vrt_read Sample.block_windows Sample.layer_info "out" false
       Engine.nearest "none" None ("c"%string, Sample.coarse)) Sample.fresh
  /\ PipelineMore.no_conflict
       (OptimizeRasterstack.optimize_rasterstack Sample.pixel_bytes
          Sample.warp_transform Sample.warp_transform_bounds Sample.vrt_read
          Sample.layer_info [Sample.fine] "c" "out" false Engine.nearest)
       Sample.fresh.
Proof.
  apply (run_never_conflicts_with_itself Sample.pixel_bytes
           Sample.warp_transform Sample.warp_transform_bounds
           Sample.vrt_profile Sample.vrt_read Sample.block_windows
           Sample.layer_info "out" "c" false Engine.nearest "none" None
           Sample.coarse [Sample.fine] Sample.fresh).
  right. intros t _. apply lookup_empty.
Defined.

(** ** The solver of the target grid *)

Section SolverFacts.
Import PyNum Flinttile Engine PipelineSpec PipelineMore.

Variable warp_transform :
  option string -> string -> list Q -> list Q -> list Q * list Q.
Variable warp_transform_bounds :
  option string -> string -> Q * Q * Q * Q -> Q * Q * Q * Q.

#[local] Abbreviation single_solver :=
  (OptimizeRasters._calculate_default_transform warp_transform
     warp_transform_bounds).
#[local] Abbreviation stack_solver :=
  (OptimizeRasterstack._calculate_default_transform warp_transform
     warp_transform_bounds).

(** What a sequence that returns went through. *)
Lemma bind_inr {A B} (m : M A) (k : A -> M B) (st st' : state) (v : B) :
  bind m k st = (st', inr v) ->
  exists st1 u, m st = (st1, inr u) /\ k u st1 = (st', inr v).
Proof.
  unfold bind. destruct (m st) as [st1 [err|u]]; [done|]. by eexists _, _.
Qed.

Lemma py_div_inr (a b q : Q) (st st' : state) :
  py_div a b st = (st', inr q) ->
  ~ (b == 0)%Q /\ q = (a / b)%Q /\ st' = st.
Proof.
  unfold py_div. destruct (Qeq_bool b 0) eqn:E; [done|].
  intros [= <- <-]. split; [|done].
  intros H. apply Qeq_bool_iff in H. congruence.
Qed.

Lemma from_bounds_inr (w s e n : Q) (width height : Z) (fb : Affine.t)
    (st st' : state) :
  from_bounds w s e n width height st = (st', inr fb) ->
  width <> 0 /\ height <> 0 /\ st' = st
  /\ fb = from_bounds_value w s e n width height.
Proof.
  unfold from_bounds. intros H.
  apply bind_inr in H as (st1 & sx & Hsx & H).
  apply bind_inr in H as (st2 & sy & Hsy & H).
  apply py_div_inr in Hsx as (Hw & -> & ->).
  apply py_div_inr in Hsy as (Hh & -> & ->).
  injection H as <- <-.
  repeat split; [intros ->; by apply Hw | intros ->; by apply Hh].
Qed.

(** X17. When the solver of the target grid returns, it has called
    [warp.transform] on the four corners and then [warp.transform_bounds]
    and touched no file, and the grid it returns spans the projected bounds
    exactly: a north-up transform anchored at their upper left corner whose
    pixel size times the returned width and height gives their extent; the
    returned width and height are not 0. *)
Theorem solver_result_spans_projected_bounds (src_crs : option string)
    (dst_crs : string) (width height : Z) (bw bs be bn : Q)
    (db0 db1 db2 db3 : Q) (st st' : state) (t : Affine.t) (dw dh : Z) :
  warp_transform_bounds src_crs dst_crs (bw, bs, be, bn)
  = (db0, db1, db2, db3) ->
  single_solver src_crs dst_crs width height [bw; bs; be; bn] st
  = (st', inr (t, dw, dh)) ->
  dw <> 0 /\ dh <> 0
  /\ t = from_bounds_value db0 db1 db2 db3 dw dh
  /\ (Affine.a t * inject_Z dw == db2 - db0)%Q
  /\ (Affine.e t * inject_Z dh == db1 - db3)%Q
  /\ (Affine.b t == 0)%Q /\ (Affine.d t == 0)%Q
  /\ ((apply t 0 0).1 == db0)%Q /\ ((apply t 0 0).2 == db3)%Q
  /\ fs st' = fs st
  /\ trace st'
     = trace st
       ++ [EvTransform src_crs dst_crs [bw; bw; be; be] [bs; bn; bs; bn];
           EvTransformBounds src_crs dst_crs (bw, bs, be, bn)].
Proof.
  intros Hbounds Hrun.
  unfold OptimizeRasters._calculate_default_transform in Hrun.
  rewrite bool_decide_eq_false_2 in Hrun by (intros H; by apply H).
  cbn [lookup_total list_lookup_total] in Hrun.
  apply bind_inr in Hrun as (st1 & [] & Hev & Hrun).
  injection Hev as <-.
  destruct (warp_transform _ _ _ _) as [txs tys].
  destruct (zip txs tys) as [|p1 [|p2 [|p3 [|p4 [|p5 l]]]]]; try done.
  cbv zeta in Hrun.
  apply bind_inr in Hrun as (st2 & fb & Hfb & Hrun).
  apply from_bounds_inr in Hfb as (_ & _ & -> & _).
  apply bind_inr in Hrun as (st3 & [] & Hev & Hrun).
  injection Hev as <-.
  rewrite Hbounds in Hrun.
  apply bind_inr in Hrun as (st4 & qw & Hqw & Hrun).
  apply py_div_inr in Hqw as (_ & _ & ->).
  apply bind_inr in Hrun as (st5 & qh & Hqh & Hrun).
  apply py_div_inr in Hqh as (_ & _ & ->).
  apply bind_inr in Hrun as (st6 & fb' & Hfb' & Hrun).
  apply from_bounds_inr in Hfb' as (Hdw & Hdh & -> & ->).
  injection Hrun as <- <- <- <-.
  cbn [fs trace].
  assert (~ (inject_Z (py_ceil qw) == 0)%Q) as Hw'
    by (by apply inject_Z_nonzero).
  assert (~ (inject_Z (py_ceil qh) == 0)%Q) as Hh'
    by (by apply inject_Z_nonzero).
  split; [exact Hdw|]. split; [exact Hdh|]. split; [reflexivity|].
  unfold from_bounds_value, apply, Affine.mul, Affine.translation,
    Affine.scale.
  cbn [Affine.a Affine.b Affine.c Affine.d Affine.e Affine.f fst snd].
  split; [field; tauto|]. split; [field; tauto|].
  split; [ring|]. split; [ring|]. split; [ring|]. split; [ring|].
  split; [reflexivity|]. by rewrite <- app_assoc.
Qed.

(** X18. The solver of the stack script is the solver of the single-raster
    script with a source CRS that is [None] replaced by the target CRS: for
    a source with a CRS the two return the same and make the same engine
    calls. *)
Theorem stack_solver_defaults_crs (src_crs : option string)
    (dst_crs : string) (width height : Z) (bounds : list Q) (st : state) :
  stack_solver src_crs dst_crs width height bounds st
  = single_solver
      (match src_crs with None => Some dst_crs | Some _ => src_crs end)
      dst_crs width height bounds st.
Proof.
  unfold OptimizeRasterstack._calculate_default_transform,
    OptimizeRasters._calculate_default_transform.
  destruct (bool_decide (length bounds ≠ 4%nat)); reflexivity.
Qed.

End SolverFacts.

Lemma solver_result_spans_projected_bounds_witness :
  exists (t : Affine.t) (st' : Engine.state),
    OptimizeRasters._calculate_default_transform Sample.warp_transform
      Sample.warp_transform_bounds (Some "epsg:4326"%string) "epsg:4326" 8 8
      [0; 0; 2; 2]%Q Sample.fresh
    = (st', inr (t, 8, 8))
    /\ (Affine.a t * inject_Z 8 == 2 - 0)%Q
    /\ length (Engine.trace st') = 2%nat.
Proof.
  eexists _, _. split; [vm_compute; reflexivity|].
  match goal with |- (Affine.a ?t * _ == _)%Q /\ length (Engine.trace ?s) = _ =>
    destruct (solver_result_spans_projected_bounds Sample.warp_transform
                Sample.warp_transform_bounds (Some "epsg:4326"%string)
                "epsg:4326" 8 8 0 0 2 2 0 0 2 2 Sample.fresh s t 8 8)
      as (_ & _ & _ & Ha & _ & _ & _ & _ & _ & _ & Htrace)
  end.
  - reflexivity.
  - vm_compute. reflexivity.
  - split; [exact Ha|]. rewrite Htrace. reflexivity.
Defined.

(** ** Features *)

Section FeatureFacts.
Import PyNum Flinttile.

(** X19. [feature] tests its optional arguments for truth, so a value that
    is false in Python is as good as none: a buffer of 0, a precision of 0
    or below (no rounding to whole degrees), an empty feature id and an
    empty dict of properties leave the feature as without them. *)
Theorem feature_ignores_falsy_arguments (tile : Tile) (fid : option string)
    (props : option (gmap string jvalue)) (buffer : option Q)
    (precision : option Z) (buf : Q) (p : Z) :
  (buf == 0)%Q -> p <= 0 ->
  feature tile fid props (Some buf) precision
  = feature tile fid props None precision
  /\ feature tile fid props buffer (Some p)
     = feature tile fid props buffer None
  /\ feature tile (Some EmptyString) props buffer precision
     = feature tile None props buffer precision
  /\ feature tile fid (Some ∅) buffer precision
     = feature tile fid None buffer precision.
Proof.
  intros Hbuf Hp. unfold feature.
  assert (truthy_float (Some buf) = false) as Hfalse.
  { unfold truthy_float. apply negb_false_iff. by apply Qeq_bool_iff. }
  assert (negb (p =? 0) && (0 <=? p) = false) as Hprec.
  { destruct (Z.eqb_spec p 0) as [->|Hne]; [done|].
    simpl. apply Z.leb_gt. lia. }
  rewrite Hfalse, Hprec.
  split; [reflexivity|]. split; [reflexivity|]. split; [reflexivity|].
  by rewrite (left_id_L ∅ (∪)).
Qed.

(** X20. Without rounding, the bbox of a feature with a buffer is the
    square of side |1 + 2 * buffer| degrees around the centre of the tile,
    also when a buffer below -1/2 turns the box inside out. *)
Theorem feature_buffered_bbox_square (tile : Tile) (fid : option string)
    (props : option (gmap string jvalue)) (buf : Q) :
  exists minX minY maxX maxY : Q,
    feat_bbox (feature tile fid props (Some buf) None)
    = [minX; minY; maxX; maxY]
    /\ (maxX - minX == Qabs (1 + 2 * buf))%Q
    /\ (maxY - minY == Qabs (1 + 2 * buf))%Q
    /\ (minX + maxX == west (bounds tile) + east (bounds tile))%Q
    /\ (minY + maxY == south (bounds tile) + north (bounds tile))%Q.
Proof.
  unfold feature.
  assert (east (bounds tile) == west (bounds tile) + 1)%Q as He.
  { destruct tile as [tx ty]. unfold bounds, ul.
    cbn [x y lng lat west south east north].
    rewrite inject_Z_plus. change (inject_Z 1) with 1%Q. ring. }
  assert (north (bounds tile) == south (bounds tile) + 1)%Q as Hn.
  { destruct tile as [tx ty]. unfold bounds, ul.
    cbn [x y lng lat west south east north].
    rewrite inject_Z_plus. change (inject_Z 1) with 1%Q. ring. }
  generalize dependent (west (bounds tile)).
  generalize dependent (east (bounds tile)).
  generalize dependent (south (bounds tile)).
  generalize dependent (north (bounds tile)).
  intros n s Hn e w He.
  destruct (truthy_float (Some buf)) eqn:Htruthy;
    cbn [feat_bbox]; eexists _, _, _, _; (split; [reflexivity|]).
  - assert (Qabs (1 + 2 * buf) == 1 + 2 * buf
            \/ Qabs (1 + 2 * buf) == - (1 + 2 * buf))%Q as Habs.
    { destruct (Qlt_le_dec (1 + 2 * buf) 0) as [Hneg|Hpos].
      - right. apply Qabs_neg. lra.
      - left. by apply Qabs_pos. }
    pose proof (Qabs_nonneg (1 + 2 * buf)) as Hge.
    destruct (py_min_cases (w - buf) (e + buf)) as [[? ->]|[? ->]],
             (py_max_cases (w - buf) (e + buf)) as [[? ->]|[? ->]],
             (py_min_cases (s - buf) (n + buf)) as [[? ->]|[? ->]],
             (py_max_cases (s - buf) (n + buf)) as [[? ->]|[? ->]];
      destruct Habs as [Habs|Habs]; rewrite Habs in *;
      repeat split; lra.
  - assert (buf == 0)%Q as Hbuf.
    { unfold truthy_float in Htruthy. apply negb_false_iff in Htruthy.
      by apply Qeq_bool_iff. }
    assert (Qabs (1 + 2 * buf) == 1)%Q as Habs
      by (rewrite Hbuf; reflexivity).
    rewrite Habs.
    destruct (py_min_cases w e) as [[? ->]|[? ->]],
             (py_max_cases w e) as [[? ->]|[? ->]],
             (py_min_cases s n) as [[? ->]|[? ->]],
             (py_max_cases s n) as [[? ->]|[? ->]];
      repeat split; lra.
Qed.

End FeatureFacts.

Lemma feature_ignores_falsy_arguments_witness :
  Flinttile.feature (Flinttile.MkTile 180 89) None None (Some (1 # 4)%Q)
    (Some 0)
  = Flinttile.feature (Flinttile.MkTile 180 89) None None (Some (1 # 4)%Q)
      None.
Proof.
  destruct (feature_ignores_falsy_arguments (Flinttile.MkTile 180 89) None
              None (Some (1 # 4)%Q) None 0%Q 0)
    as (_ & Hprecision & _).
  - reflexivity.
  - lia.
  - exact Hprecision.
Defined.
